(** * vk-hashtag-monitor: collection and aggregation pipeline

    A shallow embedding of the post store ([database.py]), the VK client
    ([collectors/vk/vk_api_client.py]), the post parser
    ([collectors/vk/vk_post_parser.py]), the collector
    ([collectors/vk/vk_collector.py]) and the metrics aggregator
    ([reports/data_aggregator.py]), of the formatters of the reports
    ([reports/google_sheets/sheets_formatter.py],
    [reports/telegram/message_formatter.py]), the Telegram reporter
    ([reports/telegram/telegram_reporter.py]) and the two modes of the
    entry point ([main.py]), followed by the properties proved about
    them.

    Conventions.  Python [int] is [Z]; a [str] is the [string] of the
    bytes of its UTF-8 encoding; [None], [int] and [str] cell values are
    the constructors of [value]; a [dict] is a [gmap] keyed by [string];
    [float] is a binary64 [spec_float].  Code that performs I/O runs in
    the monad [M]: it threads a [world] (the table, the wall clock, the
    log of remote calls and pauses) and may raise a Python exception.
    Everything outside the program (the answers of the remote service,
    storage faults, the passing of time) is read from an
    [environment]. *)

From Stdlib Require Import ZArith Lia String Ascii DecimalString DecimalZ DecimalPos SpecFloat.
From stdpp Require Import base option list gmap strings sorting.

#[local] Open Scope string_scope.
#[local] Open Scope Z_scope.

(* ================================================================== *)
(** * Python strings and integers *)
(* ================================================================== *)

Module PyStr.

(** [str(n)] for an [int]: decimal digits, a leading [-] when negative. *)
Definition str_of_int (n : Z) : string :=
  NilZero.string_of_int (Z.to_int n).

(** [s.split(sep)] for a one-character separator: the pieces between the
    occurrences of [sep]; a string without [sep] is a single piece. *)
Fixpoint split (sep : ascii) (s : string) : list string :=
  match s with
  | EmptyString => [""]
  | String c s' =>
      if Ascii.eqb c sep then "" :: split sep s'
      else match split sep s' with
           | piece :: rest => String c piece :: rest
           | [] => [String c ""]
           end
  end.

(** [s.startswith('#')] *)
Definition startswith (c : ascii) (s : string) : bool :=
  match s with
  | String c' _ => Ascii.eqb c' c
  | EmptyString => false
  end.

(** The blanks that [int] skips at both ends of an ASCII string: space
    and the controls 9 to 13. *)
Definition is_space (c : ascii) : bool :=
  let n := nat_of_ascii c in
  (Nat.eqb n 32 || (Nat.leb 9 n && Nat.leb n 13))%bool.

Definition is_digit (c : ascii) : bool :=
  let n := nat_of_ascii c in (Nat.leb 48 n && Nat.leb n 57)%bool.

Definition digit_val (c : ascii) : Z := Z.of_nat (nat_of_ascii c) - 48.

Fixpoint skip_blanks (cs : list ascii) : list ascii :=
  match cs with
  | c :: cs' => if is_space c then skip_blanks cs' else cs
  | [] => []
  end.

Definition trim (cs : list ascii) : list ascii :=
  rev (skip_blanks (rev (skip_blanks cs))).

(** Every byte of [s] is below 128: the text is ASCII. *)
Definition is_ascii (s : string) : bool :=
  forallb (fun c => Nat.ltb (nat_of_ascii c) 128) (list_ascii_of_string s).

(** The whitespace of [str.strip()] and [str.isspace()], by the bytes
    of its UTF-8 encoding.  One byte: the controls 9 to 13 and 28 to 31
    and the space.  Two bytes: U+0085 and U+00A0.  Three bytes: U+1680,
    U+2000 to U+200A, U+2028, U+2029, U+202F, U+205F and U+3000. *)
Definition is_whitespace1 (a : nat) : bool :=
  ((Nat.leb 9 a && Nat.leb a 13) || (Nat.leb 28 a && Nat.leb a 32))%bool.

Definition is_whitespace2 (a b : nat) : bool :=
  (Nat.eqb a 194 && (Nat.eqb b 133 || Nat.eqb b 160))%bool.

Definition is_whitespace3 (a b c : nat) : bool :=
  ((Nat.eqb a 225 && Nat.eqb b 154 && Nat.eqb c 128)
   || (Nat.eqb a 226 && Nat.eqb b 128
       && ((Nat.leb 128 c && Nat.leb c 138) || Nat.eqb c 168 || Nat.eqb c 169
           || Nat.eqb c 175))
   || (Nat.eqb a 226 && Nat.eqb b 129 && Nat.eqb c 159)
   || (Nat.eqb a 227 && Nat.eqb b 128 && Nat.eqb c 128))%bool.

(** [s.lstrip()] on the bytes of [s]. *)
Fixpoint lstrip_bytes (bs : list nat) : list nat :=
  match bs with
  | [] => []
  | a :: bs1 =>
      if is_whitespace1 a then lstrip_bytes bs1
      else match bs1 with
           | [] => bs
           | b :: bs2 =>
               if is_whitespace2 a b then lstrip_bytes bs2
               else match bs2 with
                    | [] => bs
                    | c :: bs3 =>
                        if is_whitespace3 a b c then lstrip_bytes bs3 else bs
                    end
           end
  end.

(** [s.rstrip()] on the bytes of [s] in reverse order: the last byte of
    a character comes first. *)
Fixpoint rstrip_reversed (bs : list nat) : list nat :=
  match bs with
  | [] => []
  | a :: bs1 =>
      if is_whitespace1 a then rstrip_reversed bs1
      else match bs1 with
           | [] => bs
           | b :: bs2 =>
               if is_whitespace2 b a then rstrip_reversed bs2
               else match bs2 with
                    | [] => bs
                    | c :: bs3 =>
                        if is_whitespace3 c b a then rstrip_reversed bs3 else bs
                    end
           end
  end.

(** [s.strip()] *)
Definition strip (s : string) : string :=
  let bs := map nat_of_ascii (list_ascii_of_string s) in
  string_of_list_ascii
    (map ascii_of_nat (rev (rstrip_reversed (rev (lstrip_bytes bs))))).

(** The digit part of an integer literal: at least one digit, single
    underscores allowed between digits.  [prev] says whether the last
    character read was a digit. *)
Fixpoint digits_acc (cs : list ascii) (acc : Z) (prev : bool) : option Z :=
  match cs with
  | [] => if prev then Some acc else None
  | c :: cs' =>
      if is_digit c then digits_acc cs' (10 * acc + digit_val c) true
      else if (Ascii.eqb c "_" && prev)%bool then digits_acc cs' acc false
      else None
  end.

(** [int(s)] in base 10 on an ASCII string: the blanks at both ends are
    dropped, one sign is allowed; [None] stands for [ValueError].  On a
    string that is not ASCII, [int] also reads the decimal digits and
    skips the blanks of other scripts, by the tables of the interpreter;
    the statements that depend on the reading of such a string say
    [is_ascii]. *)
Definition int_of_str (s : string) : option Z :=
  match trim (list_ascii_of_string s) with
  | c :: cs =>
      if Ascii.eqb c "-" then Z.opp <$> digits_acc cs 0 false
      else if Ascii.eqb c "+" then digits_acc cs 0 false
      else digits_acc (c :: cs) 0 false
  | [] => None
  end.

(** No character of [s] is the separator. *)
Fixpoint sep_free (sep : ascii) (s : string) : Prop :=
  match s with
  | EmptyString => True
  | String c s' => Ascii.eqb c sep = false /\ sep_free sep s'
  end.

End PyStr.

(* ================================================================== *)
(** * Values, dictionaries, exceptions and the I/O monad *)
(* ================================================================== *)

(** A cell of the [posts] table, and a value of the dictionaries that
    travel between the parser and the store: [None], an [int] or a
    [str].  A cell keeps the value that was bound to it: the collector
    binds [str] to the text columns and [int] to the integer columns, so
    the column affinity of SQLite has nothing to convert. *)
Inductive value :=
  | VNone
  | VInt (n : Z)
  | VStr (s : string).

#[global] Instance value_eq_dec : EqDecision value.
Proof. solve_decision. Defined.

(** Cells can be members of a [set]. *)
#[global] Instance value_countable : Countable value.
Proof.
  refine (inj_countable'
            (fun v => match v with
                      | VNone => inl tt
                      | VInt n => inr (inl n)
                      | VStr s => inr (inr s)
                      end)
            (fun x => match x with
                      | inl _ => VNone
                      | inr (inl n) => VInt n
                      | inr (inr s) => VStr s
                      end) _).
  intros []; reflexivity.
Defined.

(** A Python [dict] with string keys. *)
Abbreviation dict := (gmap string value).

(** [d.get(k)] and [d.get(k, dflt)] *)
Definition get (d : dict) (k : string) : value := default VNone (d !! k).
Definition get_or (d : dict) (k : string) (dflt : value) : value :=
  default dflt (d !! k).

(** [d.update(other)]: the keys of [other] win. *)
Definition update (d other : dict) : dict := other ∪ d.

Definition of_opt_int (o : option Z) : value := from_option VInt VNone o.
Definition of_opt_str (o : option string) : value := from_option VStr VNone o.

(** Truth value of an optional integer ([None] and [0] are false) and the
    [a or b] that is built on it. *)
Definition truthy (o : option Z) : bool :=
  match o with
  | Some n => negb (n =? 0)
  | None => false
  end.
Definition py_or (a b : option Z) : option Z := if truthy a then a else b.

(** The exceptions the pipeline can meet.  [ValueError], [TypeError],
    [ZeroDivisionError] and [OverflowError] are the built-in ones;
    [IntegrityError] and [OperationalError] are the [sqlite3.Error]
    subclasses; [ApiError] and [ApiHttpError] come from the VK library;
    [RuntimeError] stands for any other exception. *)
Inductive exn :=
  | ValueError
  | TypeError
  | ZeroDivisionError
  | OverflowError
  | IntegrityError
  | OperationalError
  | ApiError (code : Z)
  | ApiHttpError
  | RuntimeError.

Definition is_integrity_error (e : exn) : bool :=
  match e with IntegrityError => true | _ => false end.

Definition is_sqlite_error (e : exn) : bool :=
  match e with
  | IntegrityError | OperationalError => true
  | _ => false
  end.

Definition is_value_error (e : exn) : bool :=
  match e with ValueError => true | _ => false end.

Definition is_api_error (e : exn) : bool :=
  match e with ApiError _ => true | _ => false end.

Definition is_http_error (e : exn) : bool :=
  match e with ApiHttpError => true | _ => false end.

(** What the outside world can observe of the client: a request sent to
    the remote service, and a pause of [api_delay] seconds. *)
Inductive event :=
  | EvCall (method : string)
  | EvPause.

Record world := World {
  table : list dict;        (** rows of [posts], in insertion order *)
  clock : Z;                (** last reading of the wall clock, seconds *)
  journal : list event;     (** remote calls and pauses so far *)
  tick : nat                (** number of interactions with the outside *)
}.

(** One more interaction with the outside has taken place. *)
Definition tock (w : world) : world :=
  World (table w) (clock w) (journal w) (S (tick w)).

Inductive result (A : Type) :=
  | Ret (a : A)
  | Raise (e : exn).
Arguments Ret {A} a.
Arguments Raise {A} e.

Definition M (A : Type) : Type := world -> result A * world.

Definition ret {A} (a : A) : M A := fun w => (Ret a, w).
Definition raise {A} (e : exn) : M A := fun w => (Raise e, w).
Definition bind {A B} (c : M A) (k : A -> M B) : M B :=
  fun w => match c w with
           | (Ret a, w') => k a w'
           | (Raise e, w') => (Raise e, w')
           end.

(** [try: c  except C1: h1  except C2: h2 ...]: the first clause whose
    class holds the raised exception handles it; with no such clause the
    exception goes on to the caller. *)
Definition clause (A : Type) : Type := ((exn -> bool) * M A)%type.

Fixpoint handle {A} (clauses : list (clause A)) (e : exn) : M A :=
  match clauses with
  | [] => raise e
  | (class, handler) :: rest => if class e then handler else handle rest e
  end.

Definition try_except {A} (c : M A) (clauses : list (clause A)) : M A :=
  fun w => match c w with
           | (Ret a, w') => (Ret a, w')
           | (Raise e, w') => handle clauses e w'
           end.

(** [except Exception] *)
Definition Exception (e : exn) : bool := true.

(** Plain computations that may raise, and their use inside [M]. *)
Definition rbind {A B} (r : result A) (k : A -> result B) : result B :=
  match r with
  | Ret a => k a
  | Raise e => Raise e
  end.

Definition lift {A} (r : result A) : M A := fun w => (r, w).

(** The value a run returned, if it returned. *)
Definition fst_result {A} (run : result A * world) : option A :=
  match run with
  | (Ret a, _) => Some a
  | (Raise _, _) => None
  end.

Notation "'let+' x ':=' c 'in' k" := (rbind c (fun x => k))
  (at level 10, x pattern, c at level 100, k at level 200).

Fixpoint map_result {A B} (f : A -> result B) (l : list A) : result (list B) :=
  match l with
  | [] => Ret []
  | x :: l' => let+ y := f x in let+ ys := map_result f l' in Ret (y :: ys)
  end.

Notation "'let*' x ':=' c 'in' k" := (bind c (fun x => k))
  (at level 10, x pattern, c at level 100, k at level 200).

(** A [for] loop that threads the loop variables [s]. *)
Fixpoint for_each {A S} (l : list A) (body : A -> S -> M S) (s : S) : M S :=
  match l with
  | [] => ret s
  | x :: l' => let* s' := body x s in for_each l' body s'
  end.

(* ================================================================== *)
(** * Records of the VK API *)
(* ================================================================== *)

Record video := Video {
  v_views : option Z;
  v_duration : option Z;
  v_title : option string
}.

Record attachment := Attachment {
  a_type : option string;
  a_video : option video
}.

(** The value under ['views'], ['likes'], ['comments'] or ['reposts']:
    a mapping that may hold ['count'], or something that is not a
    mapping. *)
Inductive counter :=
  | Counter (count : option Z)
  | NotADict.

(** A post as the remote service returns it: a dictionary, of which the
    program reads these ten keys ([None] for a key that is not there);
    [p_rest] says whether the dictionary has any other key. *)
Record vk_post := VkPost {
  p_owner_id : option Z;
  p_from_id : option Z;
  p_id : option Z;
  p_text : option string;
  p_date : option Z;
  p_views : option counter;
  p_likes : option counter;
  p_comments : option counter;
  p_reposts : option counter;
  p_attachments : option (list attachment);
  p_rest : bool
}.

(** The key is there. *)
Definition present {A} (o : option A) : bool :=
  match o with
  | Some _ => true
  | None => false
  end.

(** [bool(post)]: a dictionary is false when it has no key at all. *)
Definition post_truthy (post : vk_post) : bool :=
  (p_rest post || present (p_owner_id post) || present (p_from_id post)
   || present (p_id post) || present (p_text post) || present (p_date post)
   || present (p_views post) || present (p_likes post)
   || present (p_comments post) || present (p_reposts post)
   || present (p_attachments post))%bool.

Record vk_user := VkUser {
  first_name : option string;
  last_name : option string
}.

(** An answer of the remote service to one request. *)
Inductive api_result (A : Type) :=
  | Response (a : A)
  | ApiFailure (code : Z)
  | HttpFailure
  | Crash.
Arguments Response {A} a.
Arguments ApiFailure {A} code.
Arguments HttpFailure {A}.
Arguments Crash {A}.

(** Everything the program reads from outside, indexed by the number of
    interactions made so far: whether the storage fails the statement,
    what the remote service answers to [newsfeed.search] (the ['items']
    of the response, if any), [wall.getById], [groups.getById] (the
    ['name'] of each group, if any) and [users.get], and how many seconds
    have gone by since the clock was last read. *)
Record environment := Environment {
  sql_fault : nat -> bool;
  newsfeed_search : nat -> string -> Z -> api_result (option (list vk_post));
  wall_getById : nat -> string -> api_result (list vk_post);
  groups_getById : nat -> Z -> api_result (list (option string));
  users_get : nat -> Z -> api_result (list vk_user);
  elapsed : nat -> nat
}.

(** [int(datetime.now().timestamp())]: the clock never runs backwards. *)
Definition now (env : environment) : M Z :=
  fun w =>
    let t := clock w + Z.of_nat (elapsed env (tick w)) in
    (Ret t, World (table w) t (journal w) (S (tick w))).

(* ================================================================== *)
(** * database.py *)
(* ================================================================== *)

Module Database.

(** The columns of [CREATE TABLE posts]; a key of a dictionary names a
    column when it is spelled as here. *)
Definition columns : list string :=
  [ "post_id"; "source_type"; "owner_id"; "owner_name"; "post_url"; "text";
    "date_published"; "post_views"; "likes"; "comments"; "reposts";
    "has_video"; "video_views"; "video_duration"; "video_title";
    "first_collected"; "last_updated"; "hashtag" ].

Definition is_column (k : string) : bool := bool_decide (k ∈ columns).

(** [WHERE post_id = ?] with a [str] parameter *)
Definition has_id (post_id : string) (r : dict) : bool :=
  bool_decide (r !! "post_id" = Some (VStr post_id)).

(** Order of SQLite storage classes: NULL, then numbers, then text. *)
Definition value_leb (a b : value) : bool :=
  match a, b with
  | VNone, _ => true
  | VInt _, VNone => false
  | VInt x, VInt y => x <=? y
  | VInt _, VStr _ => true
  | VStr _, (VNone | VInt _) => false
  | VStr x, VStr y => String.leb x y
  end.

(** [ORDER BY date_published DESC] *)
Definition newer_first (r1 r2 : dict) : Prop :=
  value_leb (get r2 "date_published") (get r1 "date_published") = true.

#[global] Instance newer_first_dec r1 r2 : Decision (newer_first r1 r2).
Proof. unfold newer_first. apply _. Defined.

(** SQLite keeps an integer in 64 bits: binding a larger [int] to a
    placeholder makes the driver raise [OverflowError], which is not a
    [sqlite3.Error]. *)
Definition fits_integer (n : Z) : bool := ((- 2 ^ 63 <=? n) && (n <? 2 ^ 63))%bool.



(** The columns that [CREATE TABLE posts] declares TEXT; the others are
    INTEGER. *)
Definition text_columns : list string :=
  [ "post_id"; "source_type"; "owner_name"; "post_url"; "text"; "video_title";
    "hashtag" ].

(** The value is one that SQLite keeps unchanged in column [k]: NULL, a
    text in a TEXT column, a 64-bit integer in an INTEGER column. *)
Definition storable_in (k : string) (v : value) : bool :=
  match v with
  | VNone => true
  | VStr _ => bool_decide (k ∈ text_columns)
  | VInt n => (negb (bool_decide (k ∈ text_columns)) && fits_integer n)%bool
  end.

(** The dictionary names columns only, each with a value the column
    keeps unchanged. *)
Definition storable (d : dict) : Prop :=
  map_Forall (fun k v => (is_column k && storable_in k v)%bool = true) d.

(** The tuple bound to the eighteen placeholders of [insert_query]. *)
Definition new_row (post_data : dict) : dict :=
  list_to_map
    [ ("post_id", get post_data "post_id");
      ("source_type", get post_data "source_type");
      ("owner_id", get post_data "owner_id");
      ("owner_name", get post_data "owner_name");
      ("post_url", get post_data "post_url");
      ("text", get post_data "text");
      ("date_published", get post_data "date_published");
      ("post_views", get_or post_data "post_views" (VInt 0));
      ("likes", get_or post_data "likes" (VInt 0));
      ("comments", get_or post_data "comments" (VInt 0));
      ("reposts", get_or post_data "reposts" (VInt 0));
      ("has_video", get_or post_data "has_video" (VInt 0));
      ("video_views", get_or post_data "video_views" (VInt 0));
      ("video_duration", get post_data "video_duration");
      ("video_title", get post_data "video_title");
      ("first_collected", get post_data "first_collected");
      ("last_updated", get post_data "last_updated");
      ("hashtag", get post_data "hashtag") ].

(** [INSERT INTO posts ...]: [source_type] and [owner_id] are NOT NULL,
    [post_id] is the primary key (SQLite lets a NULL key through).
    The statement is modelled for parameters that SQLite stores as they
    are bound: an [int] within 64 bits, [bindable] (the driver refuses
    any other with [OverflowError] before the statement runs), and in
    each column [None] or a value of the declared type of the column,
    [storable] (the column affinity converts others). *)
Definition insert_row (r : dict) (t : list dict) : result unit * list dict :=
  if (bool_decide (get r "source_type" = VNone)
      || bool_decide (get r "owner_id" = VNone))%bool
  then (Raise IntegrityError, t)
  else if (negb (bool_decide (get r "post_id" = VNone))
           && existsb (fun r' => bool_decide (get r' "post_id" = get r "post_id")) t)%bool
  then (Raise IntegrityError, t)
  else (Ret tt, (t ++ [r])%list).

(** Would [UPDATE posts SET metrics WHERE post_id = ?] break a
    constraint on the rows it touches? *)
Definition update_violates (post_id : string) (metrics : dict) (t : list dict) : bool :=
  (bool_decide (metrics !! "source_type" = Some VNone)
   || bool_decide (metrics !! "owner_id" = Some VNone)
   || match metrics !! "post_id" with
      | Some VNone | None => false
      | Some v =>
          (1 <? length (List.filter (has_id post_id) t))%nat
          || existsb (fun r => negb (has_id post_id r)
                               && bool_decide (get r "post_id" = v)) t
      end)%bool.

(** [UPDATE posts SET k1 = ?, ... WHERE post_id = ?]; the result is
    [cursor.rowcount].  The keys go into the text of the statement: a
    key spelled as in [columns] names its column, and the statement is
    modelled for such keys and for parameters that SQLite stores as they
    are bound, [storable]; a key that fails [is_column] is taken for no
    column at all, although SQL reads more spellings than one. *)
Definition update_rows (post_id : string) (metrics : dict) (t : list dict)
  : result nat * list dict :=
  if bool_decide (metrics = ∅) then (Raise OperationalError, t)
  else if negb (forallb is_column (map fst (map_to_list metrics)))
  then (Raise OperationalError, t)
  else
    let hits := List.filter (has_id post_id) t in
    if (negb (Nat.eqb (length hits) 0) && update_violates post_id metrics t)%bool
    then (Raise IntegrityError, t)
    else (Ret (length hits),
          map (fun r => if has_id post_id r then update r metrics else r) t).

(** [SELECT * FROM posts ORDER BY date_published DESC] *)
Definition select_all (t : list dict) : result (list dict) * list dict :=
  (Ret (merge_sort newer_first t), t).

(** [SELECT 1 FROM posts WHERE post_id = ? LIMIT 1]; [fetchone() is not None] *)
Definition select_one (post_id : string) (t : list dict) : result bool * list dict :=
  (Ret (existsb (has_id post_id) t), t).

(** [date_published BETWEEN ? AND ?] with two [int] parameters: NULL
    compares to nothing, and text sorts after every number. *)
Definition between (start_date end_date : Z) (r : dict) : bool :=
  match get r "date_published" with
  | VInt d => ((start_date <=? d) && (d <=? end_date))%bool
  | VNone | VStr _ => false
  end.

(** [SELECT * FROM posts WHERE date_published BETWEEN ? AND ?
    ORDER BY date_published DESC] *)
Definition select_range (start_date end_date : Z) (t : list dict)
  : result (list dict) * list dict :=
  if (fits_integer start_date && fits_integer end_date)%bool
  then (Ret (merge_sort newer_first (List.filter (between start_date end_date) t)), t)
  else (Raise OverflowError, t).

(** [SELECT COUNT( * ) FROM posts]; [result[0] if result else 0] *)
Definition select_count (t : list dict) : result nat * list dict :=
  (Ret (length t), t).

Section WithEnvironment.
Variable env : environment.

(** [with self._get_cursor() as cursor: cursor.execute(...)]: commit on
    success; on [sqlite3.Error] roll back and re-raise.  A storage
    fault shows as [OperationalError]. *)
Definition _get_cursor {A} (stmt : list dict -> result A * list dict) : M A :=
  fun w =>
    if sql_fault env (tick w) then (Raise OperationalError, tock w)
    else match stmt (table w) with
         | (Ret a, t') => (Ret a, World t' (clock w) (journal w) (S (tick w)))
         | (Raise e, _) => (Raise e, tock w)
         end.

Definition add_post (post_data : dict) : M bool :=
  try_except
    (let* _ := _get_cursor (insert_row (new_row post_data)) in ret true)
    [ (is_integrity_error, ret false);
      (is_sqlite_error, ret false) ].

Definition update_post (post_id : string) (metrics : dict) : M bool :=
  try_except
    (let* rowcount := _get_cursor (update_rows post_id metrics) in
     if (0 <? rowcount)%nat then ret true else ret false)
    [ (is_sqlite_error, ret false) ].

Definition get_all_posts : M (list dict) :=
  try_except (_get_cursor select_all) [ (is_sqlite_error, ret []) ].

Definition post_exists (post_id : string) : M bool :=
  try_except (_get_cursor (select_one post_id))
    [ (is_sqlite_error, ret false) ].

Definition get_posts_by_date_range (start_date end_date : Z) : M (list dict) :=
  try_except (_get_cursor (select_range start_date end_date))
    [ (is_sqlite_error, ret []) ].

Definition get_post_count : M nat :=
  try_except (_get_cursor select_count) [ (is_sqlite_error, ret 0%nat) ].

End WithEnvironment.
End Database.

(* ================================================================== *)
(** * collectors/vk/vk_api_client.py *)
(* ================================================================== *)

Module VKAPIClient.
Section WithEnvironment.
Variable env : environment.

(** One request through [self.vk]: it is journalled, and the remote
    service answers or the library raises. *)
Definition request {A} (method : string) (answer : nat -> api_result A) : M A :=
  fun w =>
    let w' := World (table w) (clock w) ((journal w ++ [EvCall method])%list) (S (tick w)) in
    match answer (tick w) with
    | Response a => (Ret a, w')
    | ApiFailure code => (Raise (ApiError code), w')
    | HttpFailure => (Raise ApiHttpError, w')
    | Crash => (Raise RuntimeError, w')
    end.

(** [time.sleep(self.api_delay)] *)
Definition _make_pause : M unit :=
  fun w => (Ret tt, World (table w) (clock w) ((journal w ++ [EvPause])%list) (tick w)).

(** The world after one request and, when [paused], the pause. *)
Definition after_call (method : string) (paused : bool) (w : world) : world :=
  let sent := (journal w ++ [EvCall method])%list in
  World (table w) (clock w)
        (if paused then (sent ++ [EvPause])%list else sent)
        (S (tick w)).

Definition search_posts (hashtag : string) (count : Z) : M (list vk_post) :=
  try_except
    (let hashtag := if PyStr.startswith "#" hashtag then hashtag
                    else "#" ++ hashtag in
     let count := Z.min count 200 in
     (* [self.vk.newsfeed.search(q=hashtag, count=count)] *)
     let* response := request "newsfeed.search"
                   (fun n => newsfeed_search env n hashtag count) in
     let posts := default [] response in
     let* _ := _make_pause in
     ret posts)
    [ (is_api_error, ret []);
      (is_http_error, ret []) ].

Definition get_post_by_id (owner_id post_id : Z) : M (option vk_post) :=
  try_except
      (let posts_param := PyStr.str_of_int owner_id ++ "_" ++ PyStr.str_of_int post_id in
        let* response := request "wall.getById"
                      (fun n => wall_getById env n posts_param) in
        let* _ := _make_pause in
        match response with
        | post :: _ => ret (Some post)
        | [] => ret None
        end)
    [ (is_api_error, let* _ := _make_pause in ret None);
      (is_http_error, let* _ := _make_pause in ret None) ].

Definition get_group_info (group_id : Z) : M (option string) :=
  try_except
      (let* response := request "groups.getById"
                      (fun n => groups_getById env n group_id) in
        let* _ := _make_pause in
        match response with
        | group :: _ => ret (Some (default "Unknown Group" group))
        | [] => ret None
        end)
    [ (is_api_error, let* _ := _make_pause in ret None);
      (is_http_error, let* _ := _make_pause in ret None) ].

Definition get_user_info (user_id : Z) : M (option string) :=
  try_except
      (let* response := request "users.get"
                      (fun n => users_get env n user_id) in
        let* _ := _make_pause in
        match response with
        | user :: _ =>
            let first := default "" (first_name user) in
            let last := default "" (last_name user) in
            let full_name := PyStr.strip (first ++ " " ++ last) in
            ret (Some full_name)
        | [] => ret None
        end)
    [ (is_api_error, let* _ := _make_pause in ret None);
      (is_http_error, let* _ := _make_pause in ret None) ].

End WithEnvironment.

Section Construction.
(** What the remote service answers to [users.get] without arguments,
    the request on which the token is tried. *)
Variable token_check : nat -> api_result (list vk_user).

(** Error 5 (authorisation failed) is raised again; any other
    [ApiError] is logged as a warning. *)
Definition _validate_token : M unit :=
  try_except
    (let* _ := request "users.get" token_check in
     ret tt)
    [ (fun e => match e with ApiError 5 => true | _ => false end,
       raise (ApiError 5));
      (is_api_error, ret tt) ].

(** [__init__] sets up the session, which sends nothing, and tries the
    token; its two [except] clauses log the exception and raise it
    again. *)
Definition __init__ : M unit := _validate_token.

End Construction.
End VKAPIClient.

(* ================================================================== *)
(** * collectors/vk/vk_post_parser.py *)
(* ================================================================== *)

Module VKPostParser.

(** [f"{x}"] for an [int] or [None] *)
Definition fmt (x : option Z) : string :=
  match x with
  | Some n => PyStr.str_of_int n
  | None => "None"
  end.

Definition parse_post_id (owner_id post_id : option Z) : string :=
  fmt owner_id ++ "_" ++ fmt post_id.

Definition build_post_url (owner_id post_id : option Z) : string :=
  "https://vk.com/wall" ++ fmt owner_id ++ "_" ++ fmt post_id.

Definition video_keys : list string :=
  ["has_video"; "video_views"; "video_duration"; "video_title"].

Definition no_video : dict :=
  {[ "has_video" := VInt 0; "video_views" := VInt 0;
     "video_duration" := VNone; "video_title" := VNone ]}.

(** The [for attachment in attachments] loop with its [break]. *)
Fixpoint first_video (attachments : list attachment) (video_info : dict) : dict :=
  match attachments with
  | [] => video_info
  | a :: rest =>
      if bool_decide (a_type a = Some "video") then
        let video := default (Video None None None) (a_video a) in
        <[ "video_title" := of_opt_str (v_title video) ]>
          (<[ "video_duration" := of_opt_int (v_duration video) ]>
             (<[ "video_views" := VInt (default 0 (v_views video)) ]>
                (<[ "has_video" := VInt 1 ]> video_info)))
      else first_video rest video_info
  end.

Definition extract_video_info (post : vk_post) : dict :=
  let video_info := no_video in
  let attachments := default [] (p_attachments post) in
  match attachments with
  | [] => video_info
  | _ => first_video attachments video_info
  end.

(** [data.get('count', 0) if isinstance(data, dict) else 0], where
    [data = post.get(key, {})] *)
Definition count_of (data : option counter) : Z :=
  match default (Counter None) data with
  | Counter count => default 0 count
  | NotADict => 0
  end.

Definition _extract_metrics (post : vk_post) : dict :=
  let post_views := count_of (p_views post) in
  let likes := count_of (p_likes post) in
  let comments := count_of (p_comments post) in
  let reposts := count_of (p_reposts post) in
  {[ "post_views" := VInt post_views; "likes" := VInt likes;
     "comments" := VInt comments; "reposts" := VInt reposts ]}.

Section WithEnvironment.
Variable env : environment.

Definition parse_post_data (post : vk_post) (source_type owner_name hashtag : string)
  : M dict :=
  let owner_id := py_or (p_owner_id post) (p_from_id post) in
  let post_id := p_id post in
  let post_data : dict :=
    {[ "post_id" := VStr (parse_post_id owner_id post_id);
       "source_type" := VStr source_type;
       "owner_id" := of_opt_int owner_id;
       "owner_name" := VStr owner_name;
       "post_url" := VStr (build_post_url owner_id post_id);
       "text" := VStr (default "" (p_text post));
       "date_published" := VInt (default 0 (p_date post));
       "hashtag" := VStr hashtag ]} in
  let metrics := _extract_metrics post in
  let post_data := update post_data metrics in
  let video_info := extract_video_info post in
  let post_data := update post_data video_info in
  let* current_timestamp := now env in
  let post_data :=
    update post_data {[ "first_collected" := VInt current_timestamp;
                        "last_updated" := VInt current_timestamp ]} in
  ret post_data.

Definition parse_metrics (post : vk_post) : M dict :=
  let metrics := _extract_metrics post in
  let video_info := extract_video_info post in
  let metrics := update metrics video_info in
  let* stamp := now env in
  let metrics := <[ "last_updated" := VInt stamp ]> metrics in
  ret metrics.

End WithEnvironment.
End VKPostParser.

(* ================================================================== *)
(** * collectors/vk/vk_collector.py *)
(* ================================================================== *)

Module VKCollector.
Section WithEnvironment.
Variable env : environment.

Definition _get_owner_info (owner_id : Z) : M (string * string) :=
  if owner_id <? 0 then
    let group_id := Z.abs owner_id in
    let* name := VKAPIClient.get_group_info env group_id in
    match name with
    | Some (String c s) => ret ("group", String c s)
    | _ => ret ("group", "Group " ++ PyStr.str_of_int group_id)
    end
  else
    let* name := VKAPIClient.get_user_info env owner_id in
    match name with
    | Some (String c s) => ret ("user", String c s)
    | _ => ret ("user", "User " ++ PyStr.str_of_int owner_id)
    end.

(** The [match] on [owner_id] only unwraps the identifier that the test
    on the next line has found present. *)
Definition process_new_post (post : vk_post) (hashtag : string) : M bool :=
  try_except
    (let owner_id := py_or (p_owner_id post) (p_from_id post) in
     let post_id := p_id post in
     match owner_id with
     | Some owner =>
         if (negb (truthy owner_id) || negb (truthy post_id))%bool then ret false
         else
           let* (source_type, owner_name) := _get_owner_info owner in
           let* post_data := VKPostParser.parse_post_data env post source_type
                          owner_name hashtag in
           let* added := Database.add_post env post_data in
           if added then ret true else ret false
     | None => ret false
     end)
    [ (Exception, ret false) ].

(** Lines 164-170 of [update_post_metrics]: the stored id is split on
    the underscore and both halves go through [int]. *)
Inductive split_id :=
  | Malformed
  | Ids (owner_id vk_post_id : Z).

Definition split_post_id (post_id : string) : M split_id :=
  match PyStr.split "_" post_id with
  | [part0; part1] =>
      match PyStr.int_of_str part0 with
      | Some owner_id =>
          match PyStr.int_of_str part1 with
          | Some vk_post_id => ret (Ids owner_id vk_post_id)
          | None => raise ValueError
          end
      | None => raise ValueError
      end
  | _ => ret Malformed
  end.

(** [if not post] is taken by [None] and by a dictionary without
    keys. *)
Definition update_post_metrics (post_id : string) : M bool :=
  try_except
    (let* ids := split_post_id post_id in
     match ids with
     | Malformed => ret false
     | Ids owner_id vk_post_id =>
         let* post := VKAPIClient.get_post_by_id env owner_id vk_post_id in
         match post with
         | None => ret false
         | Some post =>
             if negb (post_truthy post) then ret false
             else
               let* metrics := VKPostParser.parse_metrics env post in
               let* updated := Database.update_post env post_id metrics in
               if updated then ret true else ret false
         end
     end)
    [ (is_value_error, ret false);
      (Exception, ret false) ].

Definition collect_new_posts (hashtag : string) : M nat :=
  let* posts := VKAPIClient.search_posts env hashtag 100 in
  match posts with
  | [] => ret 0%nat
  | _ =>
      for_each posts
        (fun post added_count =>
           try_except
             (let owner_id := py_or (p_owner_id post) (p_from_id post) in
              let post_id := p_id post in
              if (negb (truthy owner_id) || negb (truthy post_id))%bool
              then ret added_count
              else
                let unique_post_id := VKPostParser.parse_post_id owner_id post_id in
                let* known := Database.post_exists env unique_post_id in
                if known then ret added_count
                else
                  let* added := process_new_post post hashtag in
                  if added then ret (S added_count) else ret added_count)
             [ (Exception, ret added_count) ])
        0%nat
  end.

(** [not post_id] for the cell read back from the table *)
Definition falsy (v : value) : bool :=
  match v with
  | VNone => true
  | VInt n => n =? 0
  | VStr s => bool_decide (s = "")
  end.

Definition update_all_posts : M (nat * nat) :=
  let* all_posts := Database.get_all_posts env in
  match all_posts with
  | [] => ret (0%nat, 0%nat)
  | _ =>
      for_each all_posts
        (fun post '(updated_count, error_count) =>
           try_except
             (let post_id := get post "post_id" in
              if falsy post_id then ret (updated_count, S error_count)
              else
                match post_id with
                | VStr post_id =>
                    let* updated := update_post_metrics post_id in
                    if updated then ret (S updated_count, error_count)
                    else ret (updated_count, S error_count)
                | _ =>
                    (* an [int] has no [split]: the [AttributeError] is
                       caught inside [update_post_metrics] *)
                    ret (updated_count, S error_count)
                end)
             [ (Exception, ret (updated_count, S error_count)) ])
        (0%nat, 0%nat)
  end.

End WithEnvironment.

(** The construction of the collector builds the client; the base class
    and the parser only keep the logger. *)
Definition __init__ (token_check : nat -> api_result (list vk_user)) : M unit :=
  VKAPIClient.__init__ token_check.

End VKCollector.

(* ================================================================== *)
(** * Python floats *)
(* ================================================================== *)

Module PyFloat.

(** A [float] is an IEEE 754 binary64 number. *)
Abbreviation float := spec_float.
Definition prec : Z := 53.
Definition emax : Z := 1024.

Definition zero : float := S754_zero false.
Definition add : float -> float -> float := SFadd prec emax.
Definition mul : float -> float -> float := SFmul prec emax.
Definition div : float -> float -> float := SFdiv prec emax.

(** An integer as a significand with exponent 0, before any rounding. *)
Definition exact (n : Z) : float :=
  match n with
  | Z0 => S754_zero false
  | Zpos p => S754_finite false p 0
  | Zneg p => S754_finite true p 0
  end.

(** [float(n)], rounded to nearest even, for [n] in the range of the
    floats. *)
Definition of_int (n : Z) : float := binary_normalize prec emax n 0 false.

(** Half way between the largest float and [2 ** 1024]: a quotient of
    that size no longer rounds to a finite float. *)
Definition huge : Z := 2 ^ 1024 - 2 ^ 970.

(** [a / b] on two [int]s: the correctly rounded quotient. *)
Definition int_truediv (a b : Z) : result float :=
  if b =? 0 then Raise ZeroDivisionError
  else if huge * Z.abs b <=? Z.abs a then Raise OverflowError
  else Ret (div (exact a) (exact b)).

(** [x / n] and [x * n] for a [float] and an [int] *)
Definition truediv_int (x : float) (n : Z) : result float :=
  if n =? 0 then Raise ZeroDivisionError else Ret (div x (of_int n)).
Definition mul_int (x : float) (n : Z) : float := mul x (of_int n).

(** [a / b] rounded to the nearest integer, ties to even ([b > 0]). *)
Definition half_even (a b : Z) : Z :=
  let q := a / b in
  match 2 * (a mod b) ?= b with
  | Lt => q
  | Gt => q + 1
  | Eq => if Z.even q then q else q + 1
  end.

(** [round(x, 2)]: the exact value of [x] is rounded to two decimals,
    ties to even, and the decimal is read back as the nearest float. *)
Definition round2 (x : float) : float :=
  match x with
  | S754_finite s m e =>
      let hundredths :=
        if 0 <=? e then Z.pos m * 2 ^ e * 100
        else half_even (Z.pos m * 100) (2 ^ (- e)) in
      match hundredths with
      | Zpos n => div (S754_finite s n 0) (exact 100)
      | _ => S754_zero s
      end
  | _ => x
  end.

(** [sum(xs)] by IEEE additions from left to right, starting at [0]. *)
Definition sum_left (xs : list float) : float := fold_left add xs zero.

End PyFloat.

(* ================================================================== *)
(** * reports/data_aggregator.py *)
(* ================================================================== *)

(** The local calendar of the host.  A date is its day number; the
    ['%Y-%m-%d'] text that the source uses as dictionary key and label
    is a one-to-one rendering of it.  [fromtimestamp_date ts] is
    [datetime.fromtimestamp(ts).date()], which raises for a time that
    the platform or the years 1 to 9999 cannot hold; the date of
    [datetime.now()] is the one of the reading of the clock.
    [strptime_date s] is [datetime.strptime(s, '%Y-%m-%d').date()]
    ([None] for [ValueError]).  [date_max] is [date.max], the last day
    of the calendar: adding a day to it raises [OverflowError]. *)
Record calendar := Calendar {
  fromtimestamp_date : Z -> result Z;
  strptime_date : string -> option Z;
  date_max : Z
}.

Record total_stats := TotalStats {
  total_posts : Z;
  total_views : Z;
  total_likes : Z;
  total_comments : Z;
  total_reposts : Z;
  avg_er : PyFloat.float
}.

(** One entry of the daily series; ['total_posts'] is absent until the
    last pass sets it. *)
Record bucket := Bucket {
  day_date : Z;
  day_new_posts : Z;
  day_views : Z;
  day_likes : Z;
  day_comments : Z;
  day_reposts : Z;
  day_total_posts : option Z
}.

(** The answer of [get_last_24h_stats]. *)
Record period_stats := PeriodStats {
  period_new_posts : Z;
  period_views : Z;
  period_likes : Z;
  period_comments : Z;
  period_reposts : Z
}.

(** The answer of [get_unique_authors_count]. *)
Record author_counts := AuthorCounts {
  authors_total : Z;
  authors_groups : Z;
  authors_users : Z
}.

(** The answer of [get_breakdown_by_type]: ['by_source'], ['by_video']
    and ['unique_authors']. *)
Record breakdown := Breakdown {
  by_source_groups : Z;
  by_source_users : Z;
  by_video_with : Z;
  by_video_without : Z;
  unique_authors : author_counts
}.

Module DataAggregator.

(** An operand of integer arithmetic: anything but an [int] makes the
    operation raise [TypeError]. *)
Definition as_int (v : value) : result Z :=
  match v with
  | VInt n => Ret n
  | _ => Raise TypeError
  end.

Definition calculate_engagement_rate (post : dict) : result PyFloat.float :=
  let views := get_or post "post_views" (VInt 0) in
  if bool_decide (views = VInt 0) then Ret PyFloat.zero
  else
    let+ likes := as_int (get_or post "likes" (VInt 0)) in
    let+ comments := as_int (get_or post "comments" (VInt 0)) in
    let+ reposts := as_int (get_or post "reposts" (VInt 0)) in
    let engagement := likes + comments + reposts in
    let+ views := as_int views in
    let+ ratio := PyFloat.int_truediv engagement views in
    let er := PyFloat.mul_int ratio 100 in
    Ret (PyFloat.round2 er).

(** [sum(p.get(key, 0) for p in all_posts)] *)
Definition sum_of (key : string) (all_posts : list dict) : result Z :=
  let+ terms := map_result (fun p => as_int (get_or p key (VInt 0))) all_posts in
  Ret (fold_left Z.add terms 0).

(** [min(p.get('date_published', 0) for p in all_posts)], [all_posts]
    not empty *)
Definition min_published (all_posts : list dict) : result Z :=
  let+ stamps := map_result (fun p => as_int (get_or p "date_published" (VInt 0)))
                   all_posts in
  match stamps with
  | [] => Raise ValueError
  | first :: rest => Ret (fold_left Z.min rest first)
  end.

Definition empty_day (d : Z) : bucket := Bucket d 0 0 0 0 0 None.

(** The body of [for post in all_posts] that fills [daily_data]. *)
Definition add_to_day (cal : calendar) (daily_data : gmap Z bucket) (post : dict)
  : result (gmap Z bucket) :=
  let+ timestamp := as_int (get_or post "date_published" (VInt 0)) in
  let+ d := fromtimestamp_date cal timestamp in
  let day := default (empty_day d) (daily_data !! d) in
  let+ post_views := as_int (get_or post "post_views" (VInt 0)) in
  let+ likes := as_int (get_or post "likes" (VInt 0)) in
  let+ comments := as_int (get_or post "comments" (VInt 0)) in
  let+ reposts := as_int (get_or post "reposts" (VInt 0)) in
  Ret (<[ d := Bucket (day_date day) (day_new_posts day + 1)
                 (day_views day + post_views)
                 (day_likes day + likes) (day_comments day + comments)
                 (day_reposts day + reposts) (day_total_posts day) ]> daily_data).

Fixpoint group_by_day (cal : calendar) (all_posts : list dict)
    (daily_data : gmap Z bucket) : result (gmap Z bucket) :=
  match all_posts with
  | [] => Ret daily_data
  | post :: rest =>
      let+ daily_data := add_to_day cal daily_data post in
      group_by_day cal rest daily_data
  end.

(** [while current_date <= end_date]: one entry per day, taken from
    [daily_data] when the day has posts.  Every day is visited once, so
    no entry of [daily_data] is shared between two places of
    [full_data].  The loop adds a day to each date it visits, which
    raises when the date is the last of the calendar. *)
Definition fill_range (cal : calendar) (daily_data : gmap Z bucket)
    (start_date end_date : Z) : result (list bucket) :=
  if ((start_date <=? date_max cal) && (date_max cal <=? end_date))%bool
  then Raise OverflowError
  else Ret (map (fun d => default (empty_day d) (daily_data !! d))
                (seqZ start_date (end_date - start_date + 1))).

(** [for day in full_data: total_posts += ...; day['total_posts'] = ...] *)
Fixpoint accumulate (total_posts : Z) (full_data : list bucket) : list bucket :=
  match full_data with
  | [] => []
  | day :: rest =>
      let total_posts := total_posts + day_new_posts day in
      Bucket (day_date day) (day_new_posts day) (day_views day) (day_likes day)
             (day_comments day) (day_reposts day) (Some total_posts)
        :: accumulate total_posts rest
  end.

(** [[p for p in posts if p.get('date_published', 0) >= bound]] *)
Fixpoint published_since (bound : Z) (posts : list dict) : result (list dict) :=
  match posts with
  | [] => Ret []
  | p :: rest =>
      let+ stamp := as_int (get_or p "date_published" (VInt 0)) in
      let+ kept := published_since bound rest in
      Ret (if bound <=? stamp then p :: kept else kept)
  end.

(** [a < b] on two cells: an integer compares with integers, a string
    with strings, [None] with nothing. *)
Definition cell_lt (a b : value) : result bool :=
  match a, b with
  | VInt x, VInt y => Ret (x <? y)
  | VStr x, VStr y => Ret (String.ltb x y)
  | _, _ => Raise TypeError
  end.

Definition float_lt (x y : PyFloat.float) : result bool := Ret (SFltb x y).

(** [sorted(l, key=key, reverse=True)].  The keys are computed first,
    in order.  The result is in descending order of the keys, and
    entries with equal keys stay in their order in [l].  Here the
    sort is by insertion from the right.  The built-in sort compares
    other pairs, but it too links every entry to every other through
    the comparisons it makes, so with keys that are cells it raises
    under the same condition: there are two entries or more and the keys
    are not all integers nor all strings. *)
Fixpoint insert_desc {A K} (lt : K -> K -> result bool) (x : K * A)
    (l : list (K * A)) : result (list (K * A)) :=
  match l with
  | [] => Ret [x]
  | y :: rest =>
      let+ smaller := lt (fst x) (fst y) in
      if smaller
      then let+ rest := insert_desc lt x rest in Ret (y :: rest)
      else Ret (x :: l)
  end.

Fixpoint sort_desc {A K} (lt : K -> K -> result bool) (l : list (K * A))
  : result (list (K * A)) :=
  match l with
  | [] => Ret []
  | x :: rest => let+ rest := sort_desc lt rest in insert_desc lt x rest
  end.

Definition sorted_reverse {A K} (lt : K -> K -> result bool)
    (key : A -> result K) (l : list A) : result (list A) :=
  let+ keys := map_result key l in
  let+ ordered := sort_desc lt (zip keys l) in
  Ret (map snd ordered).

(** [l[:limit]]: a negative [limit] counts from the end. *)
Definition slice_to {A} (limit : Z) (l : list A) : list A :=
  if limit <? 0 then take (length l - Z.to_nat (- limit)) l
  else take (Z.to_nat limit) l.

(** The body of [for post in all_posts] of [get_unique_authors_count],
    on the three sets. *)
Definition add_author (sets : gset value * gset value * gset value) (post : dict)
  : gset value * gset value * gset value :=
  let '(all_authors, group_authors, user_authors) := sets in
  let owner_id := get post "owner_id" in
  let source_type := get post "source_type" in
  if bool_decide (owner_id = VNone) then sets
  else
    let all_authors := {[ owner_id ]} ∪ all_authors in
    if bool_decide (source_type = VStr "group")
    then (all_authors, {[ owner_id ]} ∪ group_authors, user_authors)
    else if bool_decide (source_type = VStr "user")
    then (all_authors, group_authors, {[ owner_id ]} ∪ user_authors)
    else (all_authors, group_authors, user_authors).

(** [sum(1 for p in posts if test(p))] *)
Definition count_if (test : dict -> bool) (posts : list dict) : Z :=
  Z.of_nat (length (List.filter test posts)).

Section WithEnvironment.
Variable env : environment.
Variable cal : calendar.
(** The built-in [sum] on a list of floats. *)
Variable float_sum : list PyFloat.float -> PyFloat.float.

Definition get_total_stats : M total_stats :=
  let* all_posts := Database.get_all_posts env in
  match all_posts with
  | [] => ret (TotalStats 0 0 0 0 0 PyFloat.zero)
  | _ =>
      let* total_views := lift (sum_of "post_views" all_posts) in
      let* total_likes := lift (sum_of "likes" all_posts) in
      let* total_comments := lift (sum_of "comments" all_posts) in
      let* total_reposts := lift (sum_of "reposts" all_posts) in
      let* er_values := lift (map_result calculate_engagement_rate all_posts) in
      let* avg_er :=
        match er_values with
        | [] => ret PyFloat.zero
        | _ => lift (PyFloat.truediv_int (float_sum er_values)
                       (Z.of_nat (length er_values)))
        end in
      ret (TotalStats (Z.of_nat (length all_posts)) total_views total_likes
             total_comments total_reposts (PyFloat.round2 avg_er))
  end.

(** [START_DATE] is [Config.START_DATE]. *)
Definition get_daily_dynamics (START_DATE : option string) : M (list bucket) :=
  let* all_posts := Database.get_all_posts env in
  match all_posts with
  | [] => ret []
  | _ =>
      let start_date :=
        match START_DATE with
        | Some (String c s) => strptime_date cal (String c s)
        | _ => None
        end in
      let* start_date :=
        match start_date with
        | Some d => ret d
        | None =>
            let* first_post_timestamp := lift (min_published all_posts) in
            lift (fromtimestamp_date cal first_post_timestamp)
        end in
      let* today := now env in
      let* end_date := lift (fromtimestamp_date cal today) in
      let* daily_data := lift (group_by_day cal all_posts ∅) in
      let* full_data := lift (fill_range cal daily_data start_date end_date) in
      ret (accumulate 0 full_data)
  end.

End WithEnvironment.

Section OtherReports.
Variable env : environment.
(** [int((d - timedelta(hours=24)).timestamp())] for the reading [d] of
    the local clock at timestamp [t]: on a host whose offset to UTC did
    not change during the day, [t - 86400]. *)
Variable day_earlier : Z -> Z.

Definition get_last_24h_stats : M period_stats :=
  let* t := now env in
  let time_24h_ago := day_earlier t in
  let* all_posts := Database.get_all_posts env in
  let* recent_posts := lift (published_since time_24h_ago all_posts) in
  match recent_posts with
  | [] => ret (PeriodStats 0 0 0 0 0)
  | _ =>
      let new_posts := Z.of_nat (length recent_posts) in
      let* views := lift (sum_of "post_views" recent_posts) in
      let* likes := lift (sum_of "likes" recent_posts) in
      let* comments := lift (sum_of "comments" recent_posts) in
      let* reposts := lift (sum_of "reposts" recent_posts) in
      ret (PeriodStats new_posts views likes comments reposts)
  end.

Definition get_top_posts (limit : Z) (sort_by : string) : M (list dict) :=
  let* all_posts := Database.get_all_posts env in
  match all_posts with
  | [] => ret []
  | _ =>
      let by_views :=
        sorted_reverse cell_lt (fun p => Ret (get_or p "post_views" (VInt 0))) in
      let* sorted_posts :=
        lift (if bool_decide (sort_by = "views") then by_views all_posts
              else if bool_decide (sort_by = "er")
              then sorted_reverse float_lt calculate_engagement_rate all_posts
              else if bool_decide (sort_by = "comments")
              then sorted_reverse cell_lt
                     (fun p => Ret (get_or p "comments" (VInt 0))) all_posts
              else by_views all_posts) in
      let top_posts := slice_to limit sorted_posts in
      ret top_posts
  end.

Definition get_unique_authors_count : M author_counts :=
  let* all_posts := Database.get_all_posts env in
  match all_posts with
  | [] => ret (AuthorCounts 0 0 0)
  | _ =>
      let '(all_authors, group_authors, user_authors) :=
        fold_left add_author all_posts (∅, ∅, ∅) in
      ret (AuthorCounts (Z.of_nat (size all_authors))
             (Z.of_nat (size group_authors)) (Z.of_nat (size user_authors)))
  end.

Definition get_breakdown_by_type : M breakdown :=
  let* all_posts := Database.get_all_posts env in
  match all_posts with
  | [] => ret (Breakdown 0 0 0 0 (AuthorCounts 0 0 0))
  | _ =>
      let groups :=
        count_if (fun p => bool_decide (get p "source_type" = VStr "group")) all_posts in
      let users :=
        count_if (fun p => bool_decide (get p "source_type" = VStr "user")) all_posts in
      let with_video :=
        count_if (fun p => bool_decide (get_or p "has_video" (VInt 0) = VInt 1))
          all_posts in
      let without_video := Z.of_nat (length all_posts) - with_video in
      let* unique_authors := get_unique_authors_count in
      ret (Breakdown groups users with_video without_video unique_authors)
  end.

End OtherReports.
End DataAggregator.

(* ================================================================== *)
(** * Python text *)
(* ================================================================== *)

Module PyText.

(** A [str] is kept as its UTF-8 encoding.  A character is a byte other
    than a continuation byte ([10xxxxxx]) with the continuation bytes
    that follow it. *)
Definition is_continuation (c : ascii) : bool :=
  let n := nat_of_ascii c in (Nat.leb 128 n && Nat.ltb n 192)%bool.

(** [len(s)] *)
Fixpoint len (s : string) : nat :=
  match s with
  | EmptyString => 0
  | String c s' => if is_continuation c then len s' else S (len s')
  end.

(** [s[:n]] for [n >= 0] *)
Fixpoint prefix (n : nat) (s : string) : string :=
  match s with
  | EmptyString => EmptyString
  | String c s' =>
      if is_continuation c then String c (prefix n s')
      else match n with
           | O => EmptyString
           | S n' => String c (prefix n' s')
           end
  end.

(** ["\n"] *)
Definition newline : string := String "010" "".

(** [sep.join(lines)] *)
Definition join (sep : string) (lines : list string) : string :=
  String.concat sep lines.

(** [f"{v}"] for a cell of the store *)
Definition str (v : value) : string :=
  match v with
  | VNone => "None"
  | VInt n => PyStr.str_of_int n
  | VStr s => s
  end.

(** [s.replace(old, new)] for one-character [old] and [new] *)
Fixpoint replace (old new : ascii) (s : string) : string :=
  match s with
  | EmptyString => EmptyString
  | String c s' => String (if Ascii.eqb c old then new else c) (replace old new s')
  end.

(** The digits of a number, the last one first, with a comma after
    every third digit that has a digit after it. *)
Fixpoint group_thousands (digits : list ascii) : list ascii :=
  match digits with
  | a :: b :: c :: ((_ :: _) as rest) => a :: b :: c :: ","%char :: group_thousands rest
  | _ => digits
  end.

(** [f"{n:,}"] for an [int] *)
Definition format_comma (n : Z) : string :=
  let digits := list_ascii_of_string (PyStr.str_of_int (Z.abs n)) in
  (if n <? 0 then "-" else "")
  ++ string_of_list_ascii (rev (group_thousands (rev digits))).

(** [f"{v:,}"] for a cell of the store: [None] has no such format, and
    a [str] does not take the comma. *)
Definition format_comma_value (v : value) : result string :=
  match v with
  | VInt n => Ret (format_comma n)
  | VNone => Raise TypeError
  | VStr _ => Raise ValueError
  end.

(** The truth value of a cell *)
Definition truth (v : value) : bool :=
  match v with
  | VNone => false
  | VInt n => negb (n =? 0)
  | VStr s => negb (String.eqb s "")
  end.

(** [a + b] on cells *)
Definition add (a b : value) : result value :=
  match a, b with
  | VInt x, VInt y => Ret (VInt (x + y))
  | VStr x, VStr y => Ret (VStr (x ++ y))
  | _, _ => Raise TypeError
  end.

(** [a / b] on cells *)
Definition truediv (a b : value) : result PyFloat.float :=
  match a, b with
  | VInt x, VInt y => PyFloat.int_truediv x y
  | _, _ => Raise TypeError
  end.

(** [v > 0] *)
Definition positive (v : value) : result bool :=
  match v with
  | VInt n => Ret (0 <? n)
  | _ => Raise TypeError
  end.

End PyText.

(* ================================================================== *)
(** * reports/google_sheets/sheets_formatter.py *)
(* ================================================================== *)

(** A cell of a sheet: a value as the store has it, or a [float]. *)
Inductive cell :=
  | CValue (v : value)
  | CFloat (x : PyFloat.float).

Module SheetsFormatter.

Definition format_number (number : Z) : string :=
  PyText.replace "," " " (PyText.format_comma number).

Section WithClock.
(** [datetime.fromtimestamp(t).strftime("%d.%m.%Y %H:%M")] on the host,
    with the exception it raises for a time out of range. *)
Variable fromtimestamp_strftime : Z -> result string.

Definition format_date (timestamp : value) : result string :=
  match timestamp with
  | VInt t => fromtimestamp_strftime t
  | _ => Raise TypeError
  end.

Definition all_posts_headers : list cell :=
  map (fun s => CValue (VStr s))
    [ "Дата"; "Автор"; "Тип"; "Ссылка"; "Текст (начало)"; "Просмотры поста";
      "Просмотры видео"; "Лайки"; "Комментарии"; "Репосты"; "ER%" ].

(** The body of the loop of [format_all_posts_sheet] *)
Definition all_posts_row (post : dict) : result (list cell) :=
  let views := get_or post "post_views" (VInt 0) in
  let+ has_views := PyText.positive views in
  let+ er :=
    if has_views then
      let+ sum := PyText.add (get_or post "likes" (VInt 0))
                             (get_or post "comments" (VInt 0)) in
      let+ engagement := PyText.add sum (get_or post "reposts" (VInt 0)) in
      let+ ratio := PyText.truediv engagement views in
      Ret (PyFloat.round2 (PyFloat.mul_int ratio 100))
    else Ret PyFloat.zero in
  let+ date := format_date (get_or post "date_published" (VInt 0)) in
  Ret [ CValue (VStr date);
        CValue (get_or post "owner_name" (VStr "Неизвестно"));
        CValue (VStr (if bool_decide (get post "source_type" = VStr "group")
                      then "Группа" else "Пользователь"));
        CValue (get_or post "post_url" (VStr ""));
        CValue (get_or post "text" (VStr ""));
        CValue (get_or post "post_views" (VInt 0));
        CValue (if PyText.truth (get post "has_video")
                then get_or post "video_views" (VInt 0) else VInt 0);
        CValue (get_or post "likes" (VInt 0));
        CValue (get_or post "comments" (VInt 0));
        CValue (get_or post "reposts" (VInt 0));
        CFloat er ].

Definition format_all_posts_sheet (posts : list dict) : result (list (list cell)) :=
  let headers := all_posts_headers in
  let+ rows := map_result all_posts_row posts in
  Ret (headers :: rows).

End WithClock.

Definition top_headers : list cell :=
  map (fun s => CValue (VStr s))
    [ "#"; "Автор"; "Ссылка"; "Просмотры"; "Лайки"; "Комментарии"; "ER%" ].

Definition top_title (title : string) : list cell :=
  map (fun s => CValue (VStr s)) [ title; ""; ""; ""; ""; ""; "" ].

(** The body of each of the three loops of [format_top_posts_sheet],
    which is the same in all of them *)
Definition top_row (i : Z) (post : dict) : result (list cell) :=
  let views := get_or post "post_views" (VInt 0) in
  let+ sum := PyText.add (get_or post "likes" (VInt 0))
                         (get_or post "comments" (VInt 0)) in
  let+ engagement := PyText.add sum (get_or post "reposts" (VInt 0)) in
  let+ has_views := PyText.positive views in
  let+ er :=
    if has_views then
      let+ ratio := PyText.truediv engagement views in
      Ret (PyFloat.round2 (PyFloat.mul_int ratio 100))
    else Ret PyFloat.zero in
  Ret [ CValue (VInt i);
        CValue (get_or post "owner_name" (VStr "Неизвестно"));
        CValue (get_or post "post_url" (VStr ""));
        CValue (get_or post "post_views" (VInt 0));
        CValue (get_or post "likes" (VInt 0));
        CValue (get_or post "comments" (VInt 0));
        CFloat er ].

(** [for i, post in enumerate(posts, i)] *)
Fixpoint top_rows (i : Z) (posts : list dict) : result (list (list cell)) :=
  match posts with
  | [] => Ret []
  | post :: rest =>
      let+ row := top_row i post in
      let+ rows := top_rows (i + 1) rest in
      Ret (row :: rows)
  end.

Definition format_top_posts_sheet (top_by_views top_by_er top_by_comments : list dict)
  : result (list (list cell)) :=
  let+ by_views := top_rows 1 top_by_views in
  let+ by_er := top_rows 1 top_by_er in
  let+ by_comments := top_rows 1 top_by_comments in
  Ret ([ top_title "ТОП-10 ПО ПРОСМОТРАМ"; top_headers ] ++ by_views
       ++ [ top_title ""; top_title "ТОП-10 ПО ВОВЛЕЧЁННОСТИ (ER)"; top_headers ]
       ++ by_er
       ++ [ top_title ""; top_title "ТОП-10 ПО КОММЕНТАРИЯМ"; top_headers ]
       ++ by_comments)%list.

End SheetsFormatter.

(* ================================================================== *)
(** * reports/telegram/message_formatter.py *)
(* ================================================================== *)

Module MessageFormatter.

(** The limit of Telegram on the length of a message *)
Definition MAX_LENGTH : Z := 4096.

Definition _format_number (value : value) : result string :=
  let+ grouped := PyText.format_comma_value value in
  Ret (PyText.replace "," " " grouped).

Definition _format_stat_line (label value : string) : string :=
  label ++ ": `" ++ value ++ "`".

Definition medals : list string := [ "🥇"; "🥈"; "🥉" ].

Section WithHost.
Variable env : environment.
(** [d.strftime('%d.%m.%Y')] for the reading [d] of the local clock at
    timestamp [t] *)
Variable strftime_day : Z -> string.
(** [f"{x:.2f}"] *)
Variable format_2f : PyFloat.float -> string.

Definition _format_percentage (value : PyFloat.float) : string :=
  format_2f value ++ "%".

(** The loop over [enumerate(top_posts[:3])], from index [i] on *)
Fixpoint top_post_lines (i : nat) (posts : list dict) : result (list string) :=
  match posts with
  | [] => Ret []
  | post :: rest =>
      let source_type := get_or post "source_type" (VStr "") in
      let source_label :=
        if bool_decide (source_type = VStr "group") then "Группа"
        else "Пользователь" in
      let author_name := get_or post "owner_name" (VStr "Неизвестно") in
      let+ views := _format_number (get_or post "post_views" (VInt 0)) in
      let+ likes := _format_number (get_or post "likes" (VInt 0)) in
      let+ comments := _format_number (get_or post "comments" (VInt 0)) in
      let post_url := get_or post "post_url" (VStr "") in
      let+ more := top_post_lines (S i) rest in
      let entry :=
           [ default "" (medals !! i) ++ " " ++ PyStr.str_of_int (Z.of_nat i + 1)
             ++ ". " ++ PyText.str author_name ++ " (" ++ source_label ++ ")";
             "📊 " ++ views ++ " просмотров | ❤️ " ++ likes ++ " лайков | 💬 "
             ++ comments ++ " комментариев";
             "[🔗 Смотреть пост](" ++ PyText.str post_url ++ ")";
             "" ] in
      Ret (entry ++ more)%list
  end.

Definition format_report_message (total_stats : total_stats)
    (last_24h_stats : period_stats) (breakdown : breakdown)
    (top_posts : option (list dict)) (sheet_url : option string)
    (unique_authors : option author_counts) : M string :=
  let* t := now env in
  let current_date := strftime_day t in
  let lines :=
    [ "📊 *ОТЧЁТ ПО МОНИТОРИНГУ #Снежинск*";
      "📅 " ++ current_date;
      "" ] in
  let* posts_line := lift (_format_number (VInt (total_posts total_stats))) in
  let* views_line := lift (_format_number (VInt (total_views total_stats))) in
  let* likes_line := lift (_format_number (VInt (total_likes total_stats))) in
  let* comments_line := lift (_format_number (VInt (total_comments total_stats))) in
  let* reposts_line := lift (_format_number (VInt (total_reposts total_stats))) in
  let block :=
     [ "📈 *ОБЩАЯ СТАТИСТИКА*";
       _format_stat_line "Всего постов" posts_line;
       _format_stat_line "Просмотры" views_line;
       _format_stat_line "Лайки" likes_line;
       _format_stat_line "Комментарии" comments_line;
       _format_stat_line "Репосты" reposts_line;
       _format_stat_line "Средний ER" (_format_percentage (avg_er total_stats));
       "" ] in
  let lines := (lines ++ block)%list in
  let* new_line := lift (_format_number (VInt (period_new_posts last_24h_stats))) in
  let* views_line := lift (_format_number (VInt (period_views last_24h_stats))) in
  let* likes_line := lift (_format_number (VInt (period_likes last_24h_stats))) in
  let* comments_line := lift (_format_number (VInt (period_comments last_24h_stats))) in
  let* reposts_line := lift (_format_number (VInt (period_reposts last_24h_stats))) in
  let block :=
     [ "🔥 *ЗА ПОСЛЕДНИЕ 24 ЧАСА*";
       _format_stat_line "Новых постов" new_line;
       _format_stat_line "Просмотры" views_line;
       _format_stat_line "Лайки" likes_line;
       _format_stat_line "Комментарии" comments_line;
       _format_stat_line "Репосты" reposts_line;
       "" ] in
  let lines := (lines ++ block)%list in
  let block :=
     [ "📋 *РАЗБИВКА*";
       "👥 Группы: `" ++ PyStr.str_of_int (by_source_groups breakdown)
       ++ "` | Личные: `" ++ PyStr.str_of_int (by_source_users breakdown) ++ "`";
       "🎬 С видео: `" ++ PyStr.str_of_int (by_video_with breakdown)
       ++ "` | Без видео: `" ++ PyStr.str_of_int (by_video_without breakdown) ++ "`";
       "" ] in
  let lines := (lines ++ block)%list in
  let lines :=
    match unique_authors with
    | Some unique_authors =>
        let block :=
         [ "👤 *УНИКАЛЬНЫЕ АВТОРЫ*";
           "Всего: `" ++ PyStr.str_of_int (authors_total unique_authors) ++ "`";
           "Группы: `" ++ PyStr.str_of_int (authors_groups unique_authors)
           ++ "` | Пользователи: `"
           ++ PyStr.str_of_int (authors_users unique_authors) ++ "`";
           "" ] in
        (lines ++ block)%list
    | None => lines
    end in
  let* lines :=
    match top_posts with
    | Some (post :: rest) =>
        let lines := (lines ++ [ "🏆 *ТОП-3 ПОСТА*"; "" ])%list in
        let* top_lines := lift (top_post_lines 0 (take 3 (post :: rest))) in
        ret (lines ++ top_lines)%list
    | Some [] | None => ret lines
    end in
  let lines :=
    match sheet_url with
    | Some (String c url) =>
        let block :=
         [ "📑 [Полный отчёт в Google Sheets](" ++ String c url ++ ")";
           "" ] in
        (lines ++ block)%list
    | Some EmptyString | None => lines
    end in
  let message := PyText.join PyText.newline lines in
  if MAX_LENGTH <? Z.of_nat (PyText.len message) then
    let message := PyText.prefix (Z.to_nat (MAX_LENGTH - 50)) message in
    ret (message ++ PyText.newline ++ PyText.newline
         ++ "_Сообщение обрезано из-за лимита Telegram_")
  else ret message.

End WithHost.
End MessageFormatter.

(* ================================================================== *)
(** * reports/telegram/telegram_client.py *)
(* ================================================================== *)

Module TelegramClient.

Definition MAX_MESSAGE_LENGTH : Z := 4096.

Section WithService.
(** Whether the Bot API carries out the request made at this point;
    when it does not, the library raises. *)
Variable bot_api : nat -> string -> bool.

(** One request to the Bot API: it is journalled like a request to VK. *)
Definition request (method : string) : M unit :=
  fun w =>
    let w' := World (table w) (clock w) ((journal w ++ [EvCall method])%list)
                    (S (tick w)) in
    if bot_api (tick w) method then (Ret tt, w') else (Raise RuntimeError, w').

(** Both [except] clauses of [connect] raise the exception again. *)
Definition connect : M bool :=
  let* _ := request "getMe" in
  ret true.

Definition send_message (text : string) : M bool :=
  try_except
    (let message_text :=
       if MAX_MESSAGE_LENGTH <? Z.of_nat (PyText.len text)
       then PyText.prefix (Z.to_nat (MAX_MESSAGE_LENGTH - 3)) text ++ "..."
       else text in
     let* _ := request "sendMessage" in
     ret true)
    [ (Exception, ret false) ].

End WithService.
End TelegramClient.

(* ================================================================== *)
(** * reports/telegram/telegram_reporter.py *)
(* ================================================================== *)

Module TelegramReporter.

(** A call that passes its arguments by keyword: when a keyword is not
    a parameter of the function, or a parameter without default is not
    given, the call raises [TypeError] and the body does not run. *)
Definition call_with_keywords {A} (required optional keywords : list string)
    (body : M A) : M A :=
  if (forallb (fun k => existsb (String.eqb k) (required ++ optional)) keywords
      && forallb (fun p => existsb (String.eqb p) keywords) required)%bool
  then body
  else raise TypeError.

Section WithServices.
Variable env : environment.
Variable float_sum : list PyFloat.float -> PyFloat.float.
Variable day_earlier : Z -> Z.
Variable strftime_day : Z -> string.
Variable format_2f : PyFloat.float -> string.
Variable bot_api : nat -> string -> bool.
(** The chart builder and the sending of the charts, which the model
    leaves open: [build_all_charts], [send_media_group] with the
    caption of the source, and [cleanup_charts]. *)
Variable build_all_charts : M (option (list string)).
Variable send_media_group : list string -> M bool.
Variable cleanup_charts : list string -> M unit.
(** [self.sheet_url] *)
Variable sheet_url : option string.

(** [if chart_files], for a list or [None] *)
Definition some_files (chart_files : option (list string)) : bool :=
  match chart_files with
  | Some (_ :: _) => true
  | Some [] | None => false
  end.

(** The result and [chart_files], which is [None] until
    [build_all_charts] has returned, are handed to the [finally]
    block. *)
Definition generate_report : M (option string) :=
  let* outcome :=
    try_except
      (let* connected := TelegramClient.connect bot_api in
       if negb connected then ret (None, None)
       else
         let* total_stats := DataAggregator.get_total_stats env float_sum in
         let* last_24h_stats := DataAggregator.get_last_24h_stats env day_earlier in
         let* breakdown := DataAggregator.get_breakdown_by_type env in
         let unique_authors := Some (unique_authors breakdown) in
         let* top_posts := DataAggregator.get_top_posts env 3 "views" in
         let* message :=
           call_with_keywords
             [ "total_stats"; "last_24h_stats"; "breakdown" ]
             [ "top_posts"; "sheet_url"; "unique_authors" ]
             [ "total_stats"; "last_24h_stats"; "breakdown"; "hashtag";
               "top_posts"; "sheet_url"; "unique_authors" ]
             (MessageFormatter.format_report_message env strftime_day format_2f
                total_stats last_24h_stats breakdown (Some top_posts) sheet_url
                unique_authors) in
         let* sent := TelegramClient.send_message bot_api message in
         if negb sent then ret (None, None)
         else
           let* chart_files := build_all_charts in
           try_except
             (let* _ :=
                if some_files chart_files then
                  let* sent := send_media_group (default [] chart_files) in
                  ret tt
                else ret tt in
              ret (Some "Отчёт успешно отправлен в Telegram", chart_files))
             [ (Exception, ret (None, chart_files)) ])
      [ (Exception, ret (None, None)) ] in
  let '(result, chart_files) := outcome in
  let* _ :=
    if some_files chart_files then cleanup_charts (default [] chart_files)
    else ret tt in
  ret result.

End WithServices.
End TelegramReporter.

(* ================================================================== *)
(** * main.py *)
(* ================================================================== *)

Module Main.
Section CollectMode.
Variable env : environment.
Variable token_check : nat -> api_result (list vk_user).
(** [Config.HASHTAG] *)
Variable HASHTAG : string.

(** The console output is not part of the model; [time.time()] is a
    reading of the clock. *)
Definition run_collect_mode : M bool :=
  try_except
    (let* _ := VKCollector.__init__ token_check in
     let* start_time := now env in
     let* new_posts_count := VKCollector.collect_new_posts env HASHTAG in
     let* counts := VKCollector.update_all_posts env in
     let* finish_time := now env in
     ret true)
    [ (Exception, ret false) ].

End CollectMode.

Section ReportMode.
Variable env : environment.
Variable float_sum : list PyFloat.float -> PyFloat.float.
Variable day_earlier : Z -> Z.
Variable strftime_day : Z -> string.
Variable format_2f : PyFloat.float -> string.
Variable bot_api : nat -> string -> bool.
Variable build_all_charts : M (option (list string)).
Variable send_media_group : list string -> M bool.
Variable cleanup_charts : list string -> M unit.
(** The Google Sheets reporter, built and run, and the construction of
    the Telegram reporter, which makes the directory of the charts: the
    model leaves them open. *)
Variable sheets_report : M (option string).
Variable telegram_reporter_init : M unit.


End ReportMode.
End Main.
(* ================================================================== *)
(** * Notions used in the statements *)
(* ================================================================== *)

(** The remote service does not return the post: an empty answer, a
    refusal, or a failure of the request. *)
Definition absent (answer : api_result (list vk_post)) : Prop :=
  match answer with
  | Response (_ :: _) => False
  | _ => True
  end.

(** The raw post carries both identifiers. *)
Definition identified (post : vk_post) : bool :=
  (truthy (py_or (p_owner_id post) (p_from_id post)) && truthy (p_id post))%bool.

(** The composite id under which the collector files a raw post. *)
Definition unique_post_id (post : vk_post) : string :=
  VKPostParser.parse_post_id (py_or (p_owner_id post) (p_from_id post)) (p_id post).

(** Some row of the table has this [post_id]. *)
Definition known (post_id : string) (w : world) : Prop :=
  existsb (Database.has_id post_id) (table w) = true.

(** The store answers every statement, and the name lookups fail in no
    other way than the two the client handles. *)
Definition undisturbed (env : environment) : Prop :=
  (forall n, sql_fault env n = false)
  /\ (forall n g, groups_getById env n g <> Crash)
  /\ (forall n u, users_get env n u <> Crash).

(** Both timestamps of a row are integers, in order, and not later than
    [t]. *)
Definition stamped (t : Z) (r : dict) : Prop :=
  exists first_collected last_updated,
    r !! "first_collected" = Some (VInt first_collected)
    /\ r !! "last_updated" = Some (VInt last_updated)
    /\ first_collected <= last_updated
    /\ last_updated <= t.

(** Every row of the table is stamped, with the clock as bound. *)
Definition stamped_table (w : world) : Prop :=
  forall r : dict, r ∈ table w -> stamped (clock w) r.

(** The keys under which the rows are stored (a NULL key is none). *)
Definition stored_ids (t : list dict) : list value :=
  List.filter (fun v => negb (bool_decide (v = VNone)))
              (map (fun r : dict => get r "post_id") t).

(** No two rows of the table have the same [post_id]. *)
Definition unique_ids (w : world) : Prop := NoDup (stored_ids (table w)).

(** The computation leaves the property [I] of the world in place,
    whether it returns or raises. *)
Definition keeps {A} (I : world -> Prop) (c : M A) : Prop :=
  forall w, I w -> I (snd (c w)).

(** The states of the store: an empty table, then any number of ingest
    and refresh runs, each in an environment of its own and whatever
    its outcome. *)
Inductive reachable : world -> Prop :=
  | reach_start t : reachable (World [] t [] 0)
  | reach_collect env hashtag w :
      reachable w -> reachable (snd (VKCollector.collect_new_posts env hashtag w))
  | reach_update env w :
      reachable w -> reachable (snd (VKCollector.update_all_posts env w)).

(** The cell read by [post.get(key, 0)] holds an integer that fits an
    SQLite INTEGER. *)
Definition int_cell (post : dict) (key : string) : Prop :=
  match get_or post key (VInt 0) with
  | VInt n => - 2 ^ 63 <= n < 2 ^ 63
  | _ => False
  end.

(** That integer. *)
Definition int_field (key : string) (post : dict) : Z :=
  match get_or post key (VInt 0) with
  | VInt n => n
  | _ => 0
  end.

(** The four metrics of a post are integers, as the ingest path stores
    them. *)
Definition metrics_typed (post : dict) : Prop :=
  int_cell post "post_views" /\ int_cell post "likes"
  /\ int_cell post "comments" /\ int_cell post "reposts".

(** So are the metrics and the publication time. *)
Definition well_typed (post : dict) : Prop :=
  int_cell post "date_published" /\ metrics_typed post.

(** The sum of [f] over a list. *)
Fixpoint sigma {A} (f : A -> Z) (l : list A) : Z :=
  match l with
  | [] => 0
  | x :: l' => f x + sigma f l'
  end.

(** The calendar has a date for the publication time of the post. *)
Definition dated (cal : calendar) (post : dict) : Prop :=
  exists d, fromtimestamp_date cal (int_field "date_published" post) = Ret d.

(** The post was published on day [d] of the calendar. *)
Definition published_on (cal : calendar) (d : Z) (post : dict) : bool :=
  match fromtimestamp_date cal (int_field "date_published" post) with
  | Ret d' => d' =? d
  | Raise _ => false
  end.

(** The posts published on day [d]. *)
Definition on_day (cal : calendar) (d : Z) (posts : list dict) : list dict :=
  List.filter (published_on cal d) posts.

(** The entry of day [d] in [daily_data], or the zero entry. *)
Definition day_entry (daily_data : gmap Z bucket) (d : Z) : bucket :=
  default (DataAggregator.empty_day d) (daily_data !! d).

(** One more post counted in an entry. *)
Definition count_post (day : bucket) (post : dict) : bucket :=
  Bucket (day_date day) (day_new_posts day + 1)
         (day_views day + int_field "post_views" post)
         (day_likes day + int_field "likes" post)
         (day_comments day + int_field "comments" post)
         (day_reposts day + int_field "reposts" post)
         (day_total_posts day).

(** The configured start date, when there is one and it parses. *)
Definition configured_start (cal : calendar) (START_DATE : option string)
  : option Z :=
  match START_DATE with
  | Some "" | None => None
  | Some s => strptime_date cal s
  end.

(** [m] is the publication time of an earliest post. *)
Definition earliest (posts : list dict) (m : Z) : Prop :=
  (exists p, p ∈ posts /\ int_field "date_published" p = m)
  /\ forall p, p ∈ posts -> m <= int_field "date_published" p.

(** The first day of the daily series. *)
Definition series_start (cal : calendar) (START_DATE : option string)
    (posts : list dict) (start : Z) : Prop :=
  match configured_start cal START_DATE with
  | Some d => start = d
  | None => exists m, earliest posts m /\ fromtimestamp_date cal m = Ret start
  end.

(** The kind of an owner: groups have negative ids. *)
Definition source_kind (owner_id : Z) : string :=
  if owner_id <? 0 then "group" else "user".

(** The record that [parse_post_data] returns when the clock reads [t]. *)
Definition parsed_at (post : vk_post) (source_type owner_name hashtag : string)
    (t : Z) : dict :=
  let owner_id := py_or (p_owner_id post) (p_from_id post) in
  update
    (update
       (update
          {[ "post_id" := VStr (VKPostParser.parse_post_id owner_id (p_id post));
             "source_type" := VStr source_type;
             "owner_id" := of_opt_int owner_id;
             "owner_name" := VStr owner_name;
             "post_url" := VStr (VKPostParser.build_post_url owner_id (p_id post));
             "text" := VStr (default "" (p_text post));
             "date_published" := VInt (default 0 (p_date post));
             "hashtag" := VStr hashtag ]}
          (VKPostParser._extract_metrics post))
       (VKPostParser.extract_video_info post))
    {[ "first_collected" := VInt t; "last_updated" := VInt t ]}.

(** The fields that [parse_metrics] returns when the clock reads [t]. *)
Definition metrics_at (post : vk_post) (t : Z) : dict :=
  <[ "last_updated" := VInt t ]>
    (update (VKPostParser._extract_metrics post)
            (VKPostParser.extract_video_info post)).

(** The columns that a refresh writes. *)
Definition refreshed_columns : list string :=
  [ "post_views"; "likes"; "comments"; "reposts"; "has_video"; "video_views";
    "video_duration"; "video_title"; "last_updated" ].

(** A journal in which every request is followed by a pause: the
    requests to [methods], in order. *)
Definition paced (methods : list string) : list event :=
  flat_map (fun method => [EvCall method; EvPause]) methods.

(** The remote service fails in no other way than the two the client
    handles. *)
Definition orderly (env : environment) : Prop :=
  (forall n q c, newsfeed_search env n q c <> Crash)
  /\ (forall n q, wall_getById env n q <> Crash)
  /\ (forall n g, groups_getById env n g <> Crash)
  /\ (forall n u, users_get env n u <> Crash).

(** A row as the ingest workflow files it for a raw post that carries
    its identifiers, with the owner's kind read off the sign of the id
    and a name that is not empty. *)
Definition filed (row : dict) : Prop :=
  exists post owner_id owner_name hashtag t,
    identified post = true
    /\ py_or (p_owner_id post) (p_from_id post) = Some owner_id
    /\ owner_name <> ""
    /\ row = Database.new_row
               (parsed_at post (source_kind owner_id) owner_name hashtag t).

(** A row as an ingest run files it from what the search found: the
    record that [parse_post_data] builds, at a reading [t] of the clock
    between [t0] and [t1], for one of [posts] that carries its
    identifiers, under the hashtag of the run, with the owner's kind
    read off the sign of the id and a name that is not empty. *)
Definition filed_from (posts : list vk_post) (hashtag : string) (t0 t1 : Z)
    (row : dict) : Prop :=
  exists post owner_id owner_name t,
    post ∈ posts
    /\ identified post = true
    /\ py_or (p_owner_id post) (p_from_id post) = Some owner_id
    /\ owner_name <> ""
    /\ t0 <= t <= t1
    /\ row = Database.new_row
               (parsed_at post (source_kind owner_id) owner_name hashtag t).

(** One refresh of a row: the fields of [parse_metrics] laid over it. *)
Inductive refreshed : dict -> dict -> Prop :=
  | refreshed_same r : refreshed r r
  | refreshed_again r r' post t :
      refreshed r r' -> refreshed r (update r' (metrics_at post t)).

(** A row as the collector keeps it.  The id is the owner id and the
    number of the post, neither of them 0, joined by an underscore, and
    the link ends with it; the source type follows the sign of the
    owner id; the owner has a name; the counts and the times are
    integers; [has_video] is 0 or 1; and the row has the columns of the
    table and no other key. *)
Definition well_formed (r : dict) : Prop :=
  exists owner_id post_id owner_name,
    owner_id <> 0 /\ post_id <> 0 /\ owner_name <> ""
    /\ r !! "post_id"
       = Some (VStr (VKPostParser.parse_post_id (Some owner_id) (Some post_id)))
    /\ r !! "owner_id" = Some (VInt owner_id)
    /\ r !! "source_type" = Some (VStr (source_kind owner_id))
    /\ r !! "owner_name" = Some (VStr owner_name)
    /\ r !! "post_url"
       = Some (VStr ("https://vk.com/wall"
                     ++ VKPostParser.parse_post_id (Some owner_id) (Some post_id)))
    /\ Forall (fun k => exists n, r !! k = Some (VInt n))
         [ "date_published"; "post_views"; "likes"; "comments"; "reposts";
           "video_views"; "first_collected"; "last_updated" ]
    /\ (r !! "has_video" = Some (VInt 0) \/ r !! "has_video" = Some (VInt 1))
    /\ dom r = list_to_set Database.columns.

(** The posts published at [bound] or later. *)
Definition since (bound : Z) (posts : list dict) : list dict :=
  List.filter (fun p => bound <=? int_field "date_published" p) posts.

(** The owner ids, NULL apart, of the posts of one source type, or of
    all posts. *)
Definition owners (kind : option string) (posts : list dict) : gset value :=
  list_to_set
    (map (fun p : dict => get p "owner_id")
       (List.filter
          (fun p : dict =>
             negb (bool_decide (get p "owner_id" = VNone))
             && match kind with
                | Some k => bool_decide (get p "source_type" = VStr k)
                | None => true
                end)%bool
          posts)).

(** The integer under which an entry of a ranking is sorted. *)
Definition int_key {A} (entry : value * A) : Z :=
  match fst entry with
  | VInt n => n
  | _ => 0
  end.

(** The column by which [get_top_posts] ranks for a criterion other
    than ['er']: comments when asked for, views otherwise. *)
Definition ranking_column (sort_by : string) : string :=
  if bool_decide (sort_by = "comments") then "comments" else "post_views".

(** The text is ASCII and no longer than 4300 characters, the number
    of digits up to which the interpreter, as it is set by default,
    converts between text and [int]; so [int] reads it by the rules of
    [int_of_str] alone. *)
Definition plain (s : string) : Prop :=
  PyStr.is_ascii s = true /\ (String.length s <= 4300)%nat.

(** [int] raises [ValueError] on the text, an ASCII one. *)
Definition unreadable (s : string) : Prop :=
  PyStr.is_ascii s = true /\ PyStr.int_of_str s = None.

(** The trial request lets the client be built: it is answered, or
    refused with a code other than 5. *)
Definition token_accepted {A} (answer : api_result A) : Prop :=
  match answer with
  | Response _ => True
  | ApiFailure code => code <> 5
  | HttpFailure | Crash => False
  end.

(** The text that [search_posts] sends for a hashtag. *)
Definition search_query (hashtag : string) : string :=
  if PyStr.startswith "#" hashtag then hashtag else "#" ++ hashtag.


(** The last cell of a sheet row shows the engagement rate of the post
    as the aggregator computes it, or [0.0] for a post with negative
    views. *)
Definition rate_shown (post : dict) (row : list cell) : Prop :=
  exists er,
    last row = Some (CFloat er)
    /\ (0 <= int_field "post_views" post ->
        DataAggregator.calculate_engagement_rate post = Ret er)
    /\ (int_field "post_views" post < 0 -> er = PyFloat.zero).

(** One table of the top sheet: a row of seven cells for each post, in
    the order of the posts, numbered from 1 in the first cell. *)
Definition top_table (posts : list dict) (rows : list (list cell)) : Prop :=
  length rows = length posts
  /\ forall (i : nat) (post : dict),
       posts !! i = Some post ->
       exists row,
         rows !! i = Some row
         /\ length row = 7%nat
         /\ head row = Some (CValue (VInt (Z.of_nat i + 1)))
         /\ rate_shown post row.

(** The computation reads and lets time pass and does nothing else:
    whether it returns or raises, the table and the journal are as they
    were. *)
Definition read_only {A} (c : M A) : Prop :=
  forall w, table (snd (c w)) = table w /\ journal (snd (c w)) = journal w.

(* ================================================================== *)
(** * Sample data *)
(* ================================================================== *)

Module Sample.

(** A remote service that has nothing to say, over a store that works. *)
Definition quiet : environment :=
  Environment (fun _ => false)
    (fun _ _ _ => Response None)
    (fun _ _ => Response [])
    (fun _ _ => Response [])
    (fun _ _ => Response [])
    (fun _ => 0%nat).

(** The row of post [-12345_67890], collected and last refreshed at 500. *)
Definition stored_row : dict :=
  Database.new_row
    {[ "post_id" := VStr "-12345_67890"; "source_type" := VStr "group";
       "owner_id" := VInt (-12345); "owner_name" := VStr "Mediastation";
       "text" := VStr "hello"; "date_published" := VInt 400;
       "post_views" := VInt 100; "likes" := VInt 2; "comments" := VInt 1;
       "first_collected" := VInt 500; "last_updated" := VInt 500;
       "hashtag" := VStr "#tag" ]}.

(** The search request is turned down with error 6 (rate limit), the
    other requests are answered. *)
Definition rate_limited : environment :=
  Environment (fun _ => false)
    (fun _ _ _ => ApiFailure 6)
    (fun _ _ => Response [])
    (fun _ _ => Response [])
    (fun _ _ => Response [])
    (fun _ => 0%nat).

(** Two posts are found, a group's and a user's; the group has a name,
    the user lookup is refused; the clock moves by one second between
    two readings. *)
Definition busy : environment :=
  Environment (fun _ => false)
    (fun _ _ _ =>
       Response (Some [ VkPost (Some (-5)) None (Some 7) (Some "hello") (Some 100)
                          (Some (Counter (Some 10))) (Some (Counter (Some 2)))
                          None (Some NotADict) None true;
                        VkPost None (Some 3) (Some 9) None (Some 200)
                          None None None None None true ]))
    (fun _ _ => Response [])
    (fun _ _ => Response [Some "Club"])
    (fun _ _ => ApiFailure 6)
    (fun _ => 1%nat).


Definition empty_store : world := World [] 1000 [] 0.

Definition one_post : world := World [stored_row] 1000 [] 0.

(** Days since 1970-01-01 of a date of the proleptic Gregorian
    calendar. *)
Definition days_from_civil (y m d : Z) : Z :=
  let y := if m <=? 2 then y - 1 else y in
  let era := y / 400 in
  let yoe := y - era * 400 in
  let doy := (153 * (if 2 <? m then m - 3 else m + 9) + 2) / 5 + d - 1 in
  let doe := yoe * 365 + yoe / 4 - yoe / 100 + doy in
  era * 146097 + doe - 719468.

Definition days_in_month (y m : Z) : Z :=
  if m =? 2 then
    if ((y mod 4 =? 0) && (negb (y mod 100 =? 0) || (y mod 400 =? 0)))%bool
    then 29 else 28
  else if ((m =? 4) || (m =? 6) || (m =? 9) || (m =? 11))%bool then 30
  else 31.

(** A field of a date: between [lo] and [hi] digits and nothing else. *)
Definition date_field (lo hi : nat) (s : string) : option Z :=
  let cs := list_ascii_of_string s in
  if (forallb PyStr.is_digit cs && (lo <=? length cs)%nat
      && (length cs <=? hi)%nat)%bool
  then PyStr.int_of_str s else None.

(** A host on UTC, with the years 1 to 9999; [strptime] reads
    [YYYY-MM-DD]. *)
Definition utc : calendar :=
  Calendar
    (fun ts =>
       if ((days_from_civil 1 1 1 * 86400 <=? ts)
           && (ts <? (days_from_civil 9999 12 31 + 1) * 86400))%bool
       then Ret (ts / 86400) else Raise ValueError)
    (fun s =>
       match PyStr.split "-" s with
       | [ys; ms; ds] =>
           match date_field 4 4 ys, date_field 1 2 ms, date_field 1 2 ds with
           | Some y, Some m, Some d =>
               if ((1 <=? y) && (1 <=? m) && (m <=? 12) && (1 <=? d)
                   && (d <=? days_in_month y m))%bool
               then Some (days_from_civil y m d) else None
           | _, _, _ => None
           end
       | _ => None
       end)
    (days_from_civil 9999 12 31).

(** A post of 2 January 1970 with one view and one like. *)
Definition early_post : dict :=
  Database.new_row
    {[ "post_id" := VStr "-5_7"; "source_type" := VStr "group";
       "owner_id" := VInt (-5); "date_published" := VInt (1 * 86400 + 100);
       "post_views" := VInt 1; "likes" := VInt 1;
       "first_collected" := VInt 432000; "last_updated" := VInt 432000 ]}.

(** A post of 6 January 1970 with 99 views and no reaction. *)
Definition late_post : dict :=
  Database.new_row
    {[ "post_id" := VStr "3_9"; "source_type" := VStr "user";
       "owner_id" := VInt 3; "date_published" := VInt (5 * 86400 + 50);
       "post_views" := VInt 99;
       "first_collected" := VInt 432060; "last_updated" := VInt 432060 ]}.

(** The two posts, on 6 January 1970 at one o'clock. *)
Definition two_days : world :=
  World [early_post; late_post] (5 * 86400 + 3600) [] 0.

(** No post, same time. *)
Definition no_post : world := World [] (5 * 86400 + 3600) [] 0.

End Sample.

(* ================================================================== *)
(** * Theorems *)
(* ================================================================== *)

(* ------------------------------------------------------------------ *)
(** ** Printing and reading integers *)
(* ------------------------------------------------------------------ *)

Section PyStrFacts.
Import PyStr.

(** The digits of an unsigned numeral. *)
#[local] Abbreviation numeral := NilEmpty.string_of_uint.

Lemma numeral_digits d :
  Forall (fun c => is_digit c = true) (list_ascii_of_string (numeral d)).
Proof. induction d; simpl; constructor; auto. Qed.

Lemma digit_not_space c : is_digit c = true -> is_space c = false.
Proof.
  unfold is_digit, is_space. intros H.
  apply andb_true_iff in H as [H1 H2].
  apply Nat.leb_le in H1. apply Nat.leb_le in H2.
  apply orb_false_iff; split.
  - apply Nat.eqb_neq. lia.
  - apply andb_false_iff. right. apply Nat.leb_gt. lia.
Qed.

Lemma digit_not_sep c : is_digit c = true -> Ascii.eqb c "_" = false.
Proof.
  intros H. destruct (Ascii.eqb_spec c "_") as [->|]; [discriminate H | reflexivity].
Qed.

Lemma skip_blanks_id cs :
  Forall (fun c => is_space c = false) cs -> skip_blanks cs = cs.
Proof. intros [|c cs' Hc _]; simpl; [reflexivity | now rewrite Hc]. Qed.

Lemma trim_id cs :
  Forall (fun c => is_space c = false) cs -> trim cs = cs.
Proof.
  intros H. unfold trim. rewrite (skip_blanks_id cs H).
  rewrite skip_blanks_id by (now apply Forall_rev).
  apply rev_involutive.
Qed.

Ltac eval_digit :=
  match goal with
  | |- context [Z.of_nat (nat_of_ascii ?c)] =>
      let v := eval vm_compute in (Z.of_nat (nat_of_ascii c)) in
      change (Z.of_nat (nat_of_ascii c)) with v
  end.

Lemma digits_acc_pos d p :
  digits_acc (list_ascii_of_string (numeral d)) (Z.pos p) true
  = Some (Z.pos (Pos.of_uint_acc d p)).
Proof.
  revert p. induction d; intros p; simpl; try reflexivity;
    unfold digit_val; eval_digit;
    match goal with
    | |- digits_acc _ ?a true = Some (Z.pos (Pos.of_uint_acc _ ?q)) =>
        replace a with (Z.pos q) by lia
    end; apply IHd.
Qed.

Lemma digits_acc_zero d :
  digits_acc (list_ascii_of_string (numeral d)) 0 true
  = Some (Z.of_N (Pos.of_uint d)).
Proof.
  induction d; simpl; try reflexivity; try apply IHd;
    unfold digit_val; eval_digit; simpl Z.add;
    apply digits_acc_pos.
Qed.

Lemma digits_acc_start d :
  d <> Decimal.Nil ->
  digits_acc (list_ascii_of_string (numeral d)) 0 false
  = Some (Z.of_N (Pos.of_uint d)).
Proof.
  intros Hd. rewrite <- digits_acc_zero.
  destruct d; [congruence | reflexivity ..].
Qed.

Lemma int_of_numeral p :
  int_of_str (numeral (Pos.to_uint p)) = Some (Z.pos p).
Proof.
  unfold int_of_str.
  pose proof (numeral_digits (Pos.to_uint p)) as Hd.
  rewrite trim_id
    by (eapply Forall_impl; [exact Hd | intros c; apply digit_not_space]).
  pose proof (digits_acc_start _ (Unsigned.to_uint_nonnil p)) as Hs.
  rewrite Unsigned.of_to in Hs.
  destruct (list_ascii_of_string (numeral (Pos.to_uint p))) as [|c cs] eqn:E.
  - discriminate Hs.
  - inversion Hd as [|? ? Hc _]; subst.
    destruct (Ascii.eqb_spec c "-") as [->|]; [discriminate Hc|].
    destruct (Ascii.eqb_spec c "+") as [->|]; [discriminate Hc|].
    exact Hs.
Qed.

Lemma numeral_nonnil d : d <> Decimal.Nil -> NilZero.string_of_uint d = numeral d.
Proof. destruct d; [congruence | reflexivity ..]. Qed.

Lemma str_of_int_pos p : str_of_int (Z.pos p) = numeral (Pos.to_uint p).
Proof. apply numeral_nonnil, Unsigned.to_uint_nonnil. Qed.

Lemma str_of_int_neg p :
  str_of_int (Z.neg p) = String "-" (numeral (Pos.to_uint p)).
Proof.
  unfold str_of_int. simpl. f_equal.
  apply numeral_nonnil, Unsigned.to_uint_nonnil.
Qed.

Lemma int_of_str_of_int n : int_of_str (str_of_int n) = Some n.
Proof.
  destruct n as [|p|p].
  - reflexivity.
  - rewrite str_of_int_pos. apply int_of_numeral.
  - rewrite str_of_int_neg. unfold int_of_str.
    pose proof (numeral_digits (Pos.to_uint p)) as Hd.
    simpl list_ascii_of_string.
    rewrite trim_id.
    + simpl. rewrite (digits_acc_start _ (Unsigned.to_uint_nonnil p)).
      now rewrite Unsigned.of_to.
    + constructor; [reflexivity|].
      eapply Forall_impl; [exact Hd | intros c; apply digit_not_space].
Qed.

Lemma split_sep_free sep s : sep_free sep s -> split sep s = [s].
Proof.
  induction s as [|c s IH]; simpl; [reflexivity|].
  intros [Hc Hs]. now rewrite Hc, (IH Hs).
Qed.

Lemma split_app sep a b :
  sep_free sep a ->
  split sep (a ++ String sep b) = a :: split sep b.
Proof.
  induction a as [|c a IH]; simpl.
  - intros _. now rewrite Ascii.eqb_refl.
  - intros [Hc Ha]. now rewrite Hc, (IH Ha).
Qed.

Lemma numeral_sep_free d : sep_free "_" (numeral d).
Proof. induction d; simpl; auto. Qed.

Lemma str_of_int_sep_free n : sep_free "_" (str_of_int n).
Proof.
  destruct n as [|p|p].
  - simpl. auto.
  - rewrite str_of_int_pos. apply numeral_sep_free.
  - rewrite str_of_int_neg. split; [reflexivity | apply numeral_sep_free].
Qed.
Example split_samples :
  split "_" "-12345_67890" = ["-12345"; "67890"]
  /\ split "_" "12345" = ["12345"]
  /\ split "_" "1_2_3" = ["1"; "2"; "3"]
  /\ split "_" "" = [""].
Proof. repeat split. Qed.

Example int_of_str_samples :
  int_of_str "-12345" = Some (-12345)
  /\ int_of_str " +1_0 " = Some 10
  /\ int_of_str "007" = Some 7
  /\ int_of_str "12a" = None
  /\ int_of_str "" = None
  /\ int_of_str "-" = None
  /\ int_of_str "1__0" = None
  /\ int_of_str "- 1" = None
  /\ int_of_str (String (ascii_of_nat 9) "5") = Some 5
  /\ int_of_str (String (ascii_of_nat 28) "5") = None.
Proof. repeat split. Qed.

End PyStrFacts.

(* ------------------------------------------------------------------ *)
(** ** The store *)
(* ------------------------------------------------------------------ *)

Section DatabaseFacts.
Import Database.
Variable env : environment.

Lemma get_Some (d : dict) k v : v <> VNone -> get d k = v <-> d !! k = Some v.
Proof.
  unfold get. destruct (d !! k) as [u|]; simpl; split; intros H0; congruence.
Qed.

Lemma has_id_get pid (r : dict) :
  has_id pid r = bool_decide (get r "post_id" = VStr pid).
Proof.
  unfold has_id. apply bool_decide_ext. symmetry. now apply get_Some.
Qed.

Lemma new_row_post_id pd : get (new_row pd) "post_id" = get pd "post_id".
Proof. reflexivity. Qed.

Lemma insert_row_cases r t :
  insert_row r t = (Ret tt, (t ++ [r])%list)
  \/ insert_row r t = (Raise IntegrityError, t).
Proof. unfold insert_row. repeat case_match; auto. Qed.

Lemma insert_row_taken r t r' :
  r' ∈ t -> get r "post_id" <> VNone -> get r' "post_id" = get r "post_id" ->
  insert_row r t = (Raise IntegrityError, t).
Proof.
  intros Hin Hnn Heq. unfold insert_row.
  case_match; [reflexivity|].
  rewrite (bool_decide_eq_false_2 _ Hnn). simpl.
  replace (existsb _ t) with true; [reflexivity|].
  symmetry. apply existsb_exists. exists r'. split.
  - now apply list_elem_of_In.
  - now apply bool_decide_eq_true_2.
Qed.

Lemma insert_row_fresh (r : dict) t pid :
  get r "source_type" <> VNone -> get r "owner_id" <> VNone ->
  get r "post_id" = VStr pid ->
  existsb (has_id pid) t = false ->
  insert_row r t = (Ret tt, (t ++ [r])%list).
Proof.
  intros Hs Ho Hp Hex. unfold insert_row.
  rewrite (bool_decide_eq_false_2 _ Hs), (bool_decide_eq_false_2 _ Ho), Hp.
  cbn [orb].
  assert (Heq : existsb (fun r' : dict =>
                           bool_decide (get r' "post_id" = VStr pid)) t
                = existsb (has_id pid) t).
  { clear. induction t as [|r' t IH]; cbn [existsb]; [reflexivity|].
    now rewrite IH, has_id_get. }
  now rewrite Heq, Hex, andb_false_r.
Qed.

Lemma add_post_run pd w :
  add_post env pd w =
  if sql_fault env (tick w) then (Ret false, tock w)
  else match insert_row (new_row pd) (table w) with
       | (Ret _, t') => (Ret true, World t' (clock w) (journal w) (S (tick w)))
       | (Raise _, _) => (Ret false, tock w)
       end.
Proof.
  unfold add_post, try_except, bind, _get_cursor.
  destruct (sql_fault env (tick w)); [reflexivity|].
  destruct (insert_row_cases (new_row pd) (table w)) as [-> | ->]; reflexivity.
Qed.

Lemma update_rows_cases pid m t :
  update_rows pid m t
  = (Ret (length (List.filter (has_id pid) t)),
     map (fun r => if has_id pid r then update r m else r) t)
  \/ update_rows pid m t = (Raise OperationalError, t)
  \/ update_rows pid m t = (Raise IntegrityError, t).
Proof. unfold update_rows. repeat case_match; auto. Qed.

Lemma update_post_run pid m w :
  update_post env pid m w =
  if sql_fault env (tick w) then (Ret false, tock w)
  else match update_rows pid m (table w) with
       | (Ret n, t') =>
           (Ret (0 <? n)%nat, World t' (clock w) (journal w) (S (tick w)))
       | (Raise _, _) => (Ret false, tock w)
       end.
Proof.
  unfold update_post, try_except, bind, _get_cursor.
  destruct (sql_fault env (tick w)); [reflexivity|].
  destruct (update_rows_cases pid m (table w)) as [-> | [-> | ->]];
    try reflexivity.
  now destruct (0 <? _)%nat.
Qed.

Lemma get_all_posts_run w :
  get_all_posts env w =
  if sql_fault env (tick w) then (Ret [], tock w)
  else (Ret (merge_sort newer_first (table w)), tock w).
Proof.
  unfold get_all_posts, try_except, _get_cursor, select_all.
  now destruct (sql_fault env (tick w)).
Qed.

Lemma post_exists_run pid w :
  post_exists env pid w =
  if sql_fault env (tick w) then (Ret false, tock w)
  else (Ret (existsb (has_id pid) (table w)), tock w).
Proof.
  unfold post_exists, try_except, _get_cursor, select_one.
  now destruct (sql_fault env (tick w)).
Qed.




Lemma update_lookup (r m : dict) k :
  update r m !! k = match m !! k with Some v => Some v | None => r !! k end.
Proof.
  unfold update. rewrite lookup_union. destruct (m !! k), (r !! k); reflexivity.
Qed.

End DatabaseFacts.

Lemma add_post_taken env (post_data : dict) w pid (stored : dict) :
  stored ∈ table w ->
  stored !! "post_id" = Some (VStr pid) ->
  post_data !! "post_id" = Some (VStr pid) ->
  Database.add_post env post_data w = (Ret false, tock w).
Proof.
  intros Hin Hs Hp.
  rewrite add_post_run. destruct (sql_fault env (tick w)); [reflexivity|].
  rewrite (insert_row_taken _ _ stored); auto.
  - rewrite new_row_post_id. unfold get. now rewrite Hp.
  - rewrite new_row_post_id. unfold get. now rewrite Hp, Hs.
Qed.




Lemma parse_metrics_run env post w :
  VKPostParser.parse_metrics env post w
  = (Ret (<[ "last_updated" := VInt (clock w + Z.of_nat (elapsed env (tick w))) ]>
            (update (VKPostParser._extract_metrics post)
                    (VKPostParser.extract_video_info post))),
     World (table w) (clock w + Z.of_nat (elapsed env (tick w))) (journal w)
           (S (tick w))).
Proof. reflexivity. Qed.




(* ------------------------------------------------------------------ *)
(** ** The VK client *)
(* ------------------------------------------------------------------ *)

Section ClientFacts.
Import VKAPIClient.
Variable env : environment.

Lemma search_posts_run hashtag count w :
  search_posts env hashtag count w =
  match newsfeed_search env (tick w)
          (if PyStr.startswith "#" hashtag then hashtag else "#" ++ hashtag)
          (Z.min count 200) with
  | Response items => (Ret (default [] items), after_call "newsfeed.search" true w)
  | ApiFailure _ | HttpFailure => (Ret [], after_call "newsfeed.search" false w)
  | Crash => (Raise RuntimeError, after_call "newsfeed.search" false w)
  end.
Proof.
  unfold search_posts, try_except, bind, request.
  destruct (newsfeed_search _ _ _ _); reflexivity.
Qed.

Lemma get_post_by_id_run owner_id post_id w :
  get_post_by_id env owner_id post_id w =
  match wall_getById env (tick w)
          (PyStr.str_of_int owner_id ++ "_" ++ PyStr.str_of_int post_id) with
  | Response (post :: _) => (Ret (Some post), after_call "wall.getById" true w)
  | Response [] | ApiFailure _ | HttpFailure =>
      (Ret None, after_call "wall.getById" true w)
  | Crash => (Raise RuntimeError, after_call "wall.getById" false w)
  end.
Proof.
  unfold get_post_by_id, try_except, bind, request.
  destruct (wall_getById _ _ _) as [[|post rest]| | |]; reflexivity.
Qed.

Lemma get_group_info_run group_id w :
  exists r paused,
    get_group_info env group_id w = (r, after_call "groups.getById" paused w)
    /\ (paused = false ->
        groups_getById env (tick w) group_id = Crash /\ r = Raise RuntimeError)
    /\ (groups_getById env (tick w) group_id <> Crash -> exists name, r = Ret name).
Proof.
  unfold get_group_info, try_except, bind, request.
  destruct (groups_getById _ _ _) as [[|g rest]| | |]; simpl;
    first [ eexists _, true; split; [reflexivity|]
          | eexists _, false; split; [reflexivity|] ];
    split; try discriminate; eauto; congruence.
Qed.

Lemma get_user_info_run user_id w :
  exists r paused,
    get_user_info env user_id w = (r, after_call "users.get" paused w)
    /\ (paused = false ->
        users_get env (tick w) user_id = Crash /\ r = Raise RuntimeError)
    /\ (users_get env (tick w) user_id <> Crash -> exists name, r = Ret name).
Proof.
  unfold get_user_info, try_except, bind, request.
  destruct (users_get _ _ _) as [[|g rest]| | |]; simpl;
    first [ eexists _, true; split; [reflexivity|]
          | eexists _, false; split; [reflexivity|] ];
    split; try discriminate; eauto; congruence.
Qed.

End ClientFacts.

(** The lookups by id pause after the request whether it is answered,
    refused by the API or fails at the HTTP level. *)
Lemma get_post_by_id_pauses env owner_id post_id w :
  wall_getById env (tick w)
    (PyStr.str_of_int owner_id ++ "_" ++ PyStr.str_of_int post_id) <> Crash ->
  exists r, VKAPIClient.get_post_by_id env owner_id post_id w
            = (Ret r, VKAPIClient.after_call "wall.getById" true w).
Proof.
  intros H. rewrite get_post_by_id_run.
  destruct (wall_getById _ _ _) as [[|post rest]| | |]; eauto. congruence.
Qed.

(** C5, the defect.  When the search request is refused with error 6
    (rate limit), [search_posts] returns the empty list and the journal
    ends with the request itself: no pause follows it. *)
Theorem search_posts_failure_skips_pause hashtag count w :
  VKAPIClient.search_posts Sample.rate_limited hashtag count w
  = (Ret [],
     World (table w) (clock w) (journal w ++ [EvCall "newsfeed.search"])
           (S (tick w)))
  /\ last (journal (snd (VKAPIClient.search_posts Sample.rate_limited hashtag
                           count w)))
     = Some (EvCall "newsfeed.search").
Proof.
  rewrite search_posts_run. simpl. split; [reflexivity|].
  apply last_snoc.
Qed.

(* ------------------------------------------------------------------ *)
(** ** The parser *)
(* ------------------------------------------------------------------ *)

Section ParserFacts.
Import VKPostParser.

#[local] Ltac not_video_key :=
  unfold video_keys; rewrite list_elem_of_In; simpl;
  intros H; repeat destruct H as [H|H]; try discriminate H; exact H.

Lemma first_video_other attachments (video_info : dict) k :
  k ∉ video_keys ->
  first_video attachments video_info !! k = video_info !! k.
Proof.
  intros Hk. induction attachments as [|a rest IH]; simpl; [reflexivity|].
  case_bool_decide; [|exact IH].
  rewrite !lookup_insert_ne; [reflexivity | ..];
    intros <-; apply Hk; unfold video_keys; apply list_elem_of_In; simpl; tauto.
Qed.

Lemma extract_video_info_other post k :
  k ∉ video_keys -> extract_video_info post !! k = None.
Proof.
  intros Hk. unfold extract_video_info.
  assert (Hn : no_video !! k = None).
  { unfold no_video. rewrite !lookup_insert_ne, lookup_singleton_ne;
      [reflexivity | ..]; intros <-; apply Hk; unfold video_keys; apply list_elem_of_In; simpl; tauto. }
  destruct (default [] (p_attachments post)); [exact Hn|].
  now rewrite first_video_other.
Qed.

Lemma parse_post_data_run env post source_type owner_name hashtag w :
  exists post_data : dict,
    parse_post_data env post source_type owner_name hashtag w
    = (Ret post_data,
       World (table w) (clock w + Z.of_nat (elapsed env (tick w))) (journal w)
             (S (tick w)))
    /\ post_data !! "post_id"
       = Some (VStr (parse_post_id (py_or (p_owner_id post) (p_from_id post))
                                   (p_id post)))
    /\ post_data !! "source_type" = Some (VStr source_type)
    /\ post_data !! "owner_id"
       = Some (of_opt_int (py_or (p_owner_id post) (p_from_id post)))
    /\ post_data !! "first_collected"
       = Some (VInt (clock w + Z.of_nat (elapsed env (tick w))))
    /\ post_data !! "last_updated"
       = Some (VInt (clock w + Z.of_nat (elapsed env (tick w)))).
Proof.
  eexists. split; [reflexivity|].
  assert (Hv : forall k, k ∉ video_keys -> extract_video_info post !! k = None)
    by (intros; now apply extract_video_info_other).
  repeat split; rewrite !update_lookup.
  - rewrite (Hv "post_id") by not_video_key. reflexivity.
  - rewrite (Hv "source_type") by not_video_key. reflexivity.
  - rewrite (Hv "owner_id") by not_video_key. reflexivity.
  - reflexivity.
  - reflexivity.
Qed.

(** Of a photo followed by a video the video is taken. *)
Example extract_video_info_skips_photo :
  let post :=
    VkPost (Some (-1)) None (Some 2) None None None None None None
      (Some [ Attachment (Some "photo") None;
              Attachment (Some "video") (Some (Video (Some 10) (Some 5) (Some "T")));
              Attachment (Some "video") (Some (Video (Some 99) None None)) ])
      true in
  extract_video_info post !! "has_video" = Some (VInt 1)
  /\ extract_video_info post !! "video_views" = Some (VInt 10)
  /\ extract_video_info post !! "video_duration" = Some (VInt 5)
  /\ extract_video_info post !! "video_title" = Some (VStr "T").
Proof. repeat split. Qed.

(** A missing counter, and one that is not a mapping, count for 0. *)
Example extract_metrics_defaults :
  let post :=
    VkPost (Some (-1)) None (Some 2) None None
      (Some (Counter (Some 10))) None (Some NotADict) (Some (Counter None)) None
      true in
  _extract_metrics post !! "post_views" = Some (VInt 10)
  /\ _extract_metrics post !! "likes" = Some (VInt 0)
  /\ _extract_metrics post !! "comments" = Some (VInt 0)
  /\ _extract_metrics post !! "reposts" = Some (VInt 0).
Proof. repeat split. Qed.

End ParserFacts.

(* ------------------------------------------------------------------ *)
(** ** The collector: composite ids *)
(* ------------------------------------------------------------------ *)

Lemma parse_post_id_split o p :
  PyStr.split "_" (VKPostParser.parse_post_id (Some o) (Some p))
  = [PyStr.str_of_int o; PyStr.str_of_int p].
Proof.
  unfold VKPostParser.parse_post_id, VKPostParser.fmt.
  change ("_" ++ PyStr.str_of_int p)%string with (String "_" (PyStr.str_of_int p)).
  rewrite split_app by apply str_of_int_sep_free.
  now rewrite split_sep_free by apply str_of_int_sep_free.
Qed.

Lemma split_post_id_parsed o p w :
  VKCollector.split_post_id (VKPostParser.parse_post_id (Some o) (Some p)) w
  = (Ret (VKCollector.Ids o p), w).
Proof.
  unfold VKCollector.split_post_id. rewrite parse_post_id_split.
  now rewrite !int_of_str_of_int.
Qed.

(** C10. The composite id printed by [parse_post_id] for two integers
    splits on the underscore into exactly two parts, [int] reads the
    two integers back from them, and so the id parsing of the refresh
    workflow returns the identifiers used at ingestion: it neither
    reports a malformed id nor raises [ValueError]. *)
Theorem parse_post_id_round_trip (owner_id post_id : Z) :
  PyStr.split "_" (VKPostParser.parse_post_id (Some owner_id) (Some post_id))
  = [PyStr.str_of_int owner_id; PyStr.str_of_int post_id]
  /\ PyStr.int_of_str (PyStr.str_of_int owner_id) = Some owner_id
  /\ PyStr.int_of_str (PyStr.str_of_int post_id) = Some post_id
  /\ forall w,
       VKCollector.split_post_id
         (VKPostParser.parse_post_id (Some owner_id) (Some post_id)) w
       = (Ret (VKCollector.Ids owner_id post_id), w).
Proof.
  split; [apply parse_post_id_split|].
  split; [apply int_of_str_of_int|].
  split; [apply int_of_str_of_int|].
  apply split_post_id_parsed.
Qed.

(* ------------------------------------------------------------------ *)
(** ** The collector: refreshing *)
(* ------------------------------------------------------------------ *)

Lemma for_each_cons {A S} (x : A) l (body : A -> S -> M S) s w :
  for_each (x :: l) body s w =
  match body x s w with
  | (Ret s', w') => for_each l body s' w'
  | (Raise e, w') => (Raise e, w')
  end.
Proof. reflexivity. Qed.

Section RefreshFacts.
Variable env : environment.

Lemma update_post_metrics_returns post_id w :
  exists b w', VKCollector.update_post_metrics env post_id w = (Ret b, w').
Proof.
  unfold VKCollector.update_post_metrics, try_except.
  match goal with |- context [match ?c with _ => _ end] => destruct c as [[b|e] w'] end;
    [eauto|].
  simpl. destruct (is_value_error e); eauto.
Qed.

Lemma update_post_metrics_absent o p w :
  absent (wall_getById env (tick w) (VKPostParser.parse_post_id (Some o) (Some p))) ->
  exists w',
    VKCollector.update_post_metrics env (VKPostParser.parse_post_id (Some o) (Some p)) w
    = (Ret false, w').
Proof.
  intros Habs.
  unfold VKCollector.update_post_metrics, try_except, bind.
  rewrite split_post_id_parsed, get_post_by_id_run.
  unfold VKPostParser.parse_post_id, VKPostParser.fmt in Habs.
  destruct (wall_getById _ _ _) as [[|post rest]| | |]; simpl in *;
    try contradiction; eauto.
Qed.

(** A loop whose body adds one to exactly one of two counters. *)
Lemma for_each_tally {A} (body : A -> nat * nat -> M (nat * nat)) (P : A -> Prop) :
  (forall x u e w, exists w',
      body x (u, e) w = (Ret (S u, e), w') \/ body x (u, e) w = (Ret (u, S e), w')) ->
  (forall x u e w, P x -> exists w', body x (u, e) w = (Ret (u, S e), w')) ->
  forall l u e w,
  exists u' e' w',
    for_each l body (u, e) w = (Ret (u', e'), w')
    /\ (u' + e' = u + e + length l)%nat
    /\ (e <= e')%nat
    /\ ((exists x, x ∈ l /\ P x) -> (e < e')%nat).
Proof.
  intros Hstep Hbad l. induction l as [|x l IH]; intros u e w; simpl.
  - exists u, e, w. repeat split; try lia.
    intros (x & Hx & _). inversion Hx.
  - unfold bind.
    destruct (Hstep x u e w) as (w1 & [E | E]); rewrite E.
    + destruct (IH (S u) e w1) as (u' & e' & w' & E' & Hsum & Hle & Hex).
      exists u', e', w'. repeat split; [exact E' | lia | lia |].
      intros (y & Hy & Py). apply elem_of_cons in Hy as [-> | Hy].
      * destruct (Hbad x u e w Py) as (w2 & E2). rewrite E in E2.
        inversion E2. lia.
      * apply Hex. eauto.
    + destruct (IH u (S e) w1) as (u' & e' & w' & E' & Hsum & Hle & Hex).
      exists u', e', w'. repeat split; [exact E' | lia | lia | lia].
Qed.

(** The body of the loop of [update_all_posts]. *)
Lemma update_all_body (post : dict) u e w :
  exists w',
    try_except
      (let post_id := get post "post_id" in
       if VKCollector.falsy post_id then ret (u, S e)
       else
         match post_id with
         | VStr post_id =>
             let* updated := VKCollector.update_post_metrics env post_id in
             if updated then ret (S u, e) else ret (u, S e)
         | _ => ret (u, S e)
         end)
      [ (Exception, ret (u, S e)) ] w = (Ret (S u, e), w')
    \/
    try_except
      (let post_id := get post "post_id" in
       if VKCollector.falsy post_id then ret (u, S e)
       else
         match post_id with
         | VStr post_id =>
             let* updated := VKCollector.update_post_metrics env post_id in
             if updated then ret (S u, e) else ret (u, S e)
         | _ => ret (u, S e)
         end)
      [ (Exception, ret (u, S e)) ] w = (Ret (u, S e), w').
Proof.
  unfold try_except, bind. simpl.
  destruct (VKCollector.falsy (get post "post_id")); [eauto|].
  destruct (get post "post_id") as [|n|pid]; eauto.
  destruct (update_post_metrics_returns pid w) as ([|] & w' & ->); eauto.
Qed.

End RefreshFacts.

Lemma parse_post_id_truthy o p :
  VKCollector.falsy (VStr (VKPostParser.parse_post_id (Some o) (Some p))) = false.
Proof.
  simpl. apply bool_decide_eq_false_2. intros H.
  pose proof (parse_post_id_split o p) as Hs. rewrite H in Hs. discriminate Hs.
Qed.

(** C3. [update_all_posts] always returns a pair of counts, whatever
    the stored ids look like, whatever the remote service answers and
    whether or not the store accepts the updates.  When the initial scan
    of the table succeeds the two counts add up to the number of stored
    posts, and a stored post that the remote service no longer returns
    makes the error count at least 1. *)
Theorem update_all_posts_counts env w :
  exists updated errors w',
    VKCollector.update_all_posts env w = (Ret (updated, errors), w')
    /\ (sql_fault env (tick w) = false ->
        (updated + errors)%nat = length (table w))
    /\ (forall o p (r : dict),
          sql_fault env (tick w) = false ->
          r ∈ table w ->
          r !! "post_id" = Some (VStr (VKPostParser.parse_post_id (Some o) (Some p))) ->
          (forall n, absent (wall_getById env n
                               (VKPostParser.parse_post_id (Some o) (Some p)))) ->
          (1 <= errors)%nat).
Proof.
  unfold VKCollector.update_all_posts, bind. rewrite get_all_posts_run.
  destruct (sql_fault env (tick w)) eqn:Hf.
  { exists 0%nat, 0%nat, (tock w). repeat split; intros; discriminate. }
  pose proof (merge_sort_Permutation Database.newer_first (table w)) as Hperm.
  set (P := fun post : dict =>
              exists o p,
                post !! "post_id"
                = Some (VStr (VKPostParser.parse_post_id (Some o) (Some p)))
                /\ forall n, absent (wall_getById env n
                                       (VKPostParser.parse_post_id (Some o) (Some p)))).
  destruct (merge_sort Database.newer_first (table w)) as [|first rest] eqn:Hsort.
  { exists 0%nat, 0%nat, (tock w). split; [reflexivity|].
    apply Permutation_length in Hperm. split.
    - intros _. simpl in Hperm. lia.
    - intros o p r _ Hr. destruct (table w); [inversion Hr | discriminate Hperm]. }
  edestruct (for_each_tally
               (fun (post : dict) '(updated_count, error_count) =>
                  try_except
                    (let post_id := get post "post_id" in
                     if VKCollector.falsy post_id
                     then ret (updated_count, S error_count)
                     else
                       match post_id with
                       | VStr post_id =>
                           let* updated :=
                             VKCollector.update_post_metrics env post_id in
                           if updated then ret (S updated_count, error_count)
                           else ret (updated_count, S error_count)
                       | _ => ret (updated_count, S error_count)
                       end)
                    [ (Exception, ret (updated_count, S error_count)) ])
               P) as (u' & e' & w' & E & Hsum & _ & Hbad).
  - intros x u e w0. apply update_all_body.
  - intros x u e w0 (o & p & Hid & Habs).
    unfold try_except, bind, get. rewrite Hid. cbn [from_option id].
    rewrite parse_post_id_truthy.
    destruct (update_post_metrics_absent env o p w0 (Habs _)) as (w1 & ->).
    eauto.
  - exists u', e', w'. split; [exact E|]. split.
    + intros _. rewrite Hsum. apply Permutation_length in Hperm.
      rewrite Hperm. reflexivity.
    + intros o p r _ Hr Hid Habs.
      assert ((0 < e')%nat); [|lia].
      apply Hbad. exists r. split.
      * rewrite Hperm. exact Hr.
      * exists o, p. auto.
Qed.

Lemma update_all_posts_counts_witness :
  exists updated errors w',
    VKCollector.update_all_posts Sample.quiet Sample.one_post
    = (Ret (updated, errors), w')
    /\ (updated + errors)%nat = 1%nat /\ (1 <= errors)%nat.
Proof.
  destruct (update_all_posts_counts Sample.quiet Sample.one_post)
    as (u & e & w' & E & Hsum & Hbad).
  exists u, e, w'. split; [exact E|]. split.
  - apply Hsum. reflexivity.
  - apply (Hbad (-12345) 67890 Sample.stored_row).
    + reflexivity.
    + left.
    + reflexivity.
    + intros n. exact I.
Defined.

(* ------------------------------------------------------------------ *)
(** ** The collector: ingesting *)
(* ------------------------------------------------------------------ *)

Section IngestFacts.
Variable env : environment.

Lemma known_elem pid w :
  known pid w <-> exists r : dict, r ∈ table w /\ r !! "post_id" = Some (VStr pid).
Proof.
  unfold known. rewrite existsb_exists. split.
  - intros (r & Hin & Hr). exists r. split; [now apply list_elem_of_In|].
    now apply bool_decide_eq_true_1 in Hr.
  - intros (r & Hin & Hr). exists r. split; [now apply list_elem_of_In|].
    now apply bool_decide_eq_true_2.
Qed.

Lemma get_owner_info_run owner w :
  exists r w',
    VKCollector._get_owner_info env owner w = (r, w')
    /\ table w' = table w /\ clock w' = clock w
    /\ (undisturbed env -> exists source_type owner_name, r = Ret (source_type, owner_name)).
Proof.
  unfold VKCollector._get_owner_info, bind.
  destruct (owner <? 0).
  - destruct (get_group_info_run env (Z.abs owner) w) as (r & paused & -> & _ & Hok).
    destruct r as [[[|c s]|]|e]; simpl; eexists _, _;
      (split; [reflexivity|]); repeat split; eauto.
    intros (_ & Hg & _). destruct (Hok (Hg _ _)) as (name & [=]).
  - destruct (get_user_info_run env owner w) as (r & paused & -> & _ & Hok).
    destruct r as [[[|c s]|]|e]; simpl; eexists _, _;
      (split; [reflexivity|]); repeat split; eauto.
    intros (_ & _ & Hu). destruct (Hok (Hu _ _)) as (name & [=]).
Qed.

Lemma process_new_post_known post hashtag w :
  known (unique_post_id post) w ->
  exists w', VKCollector.process_new_post env post hashtag w = (Ret false, w')
             /\ table w' = table w.
Proof.
  intros Hk. apply known_elem in Hk as (stored & Hin & Hid).
  unfold VKCollector.process_new_post, try_except.
  destruct (py_or (p_owner_id post) (p_from_id post)) as [owner|] eqn:Ho;
    [|eexists; split; reflexivity].
  destruct (negb (truthy (Some owner)) || negb (truthy (p_id post)))%bool;
    [eexists; split; reflexivity|].
  unfold bind.
  destruct (get_owner_info_run owner w) as (r & w1 & -> & Ht & _ & _).
  destruct r as [[source_type owner_name]|e]; [|eexists; split; [reflexivity|exact Ht]].
  destruct (parse_post_data_run env post source_type owner_name hashtag w1)
    as (post_data & -> & Hpid & _).
  rewrite (add_post_taken env post_data _ (unique_post_id post) stored).
  - eexists; split; [reflexivity | exact Ht].
  - simpl. now rewrite Ht.
  - exact Hid.
  - exact Hpid.
Qed.

Lemma process_new_post_fresh post hashtag w :
  undisturbed env ->
  identified post = true ->
  existsb (Database.has_id (unique_post_id post)) (table w) = false ->
  exists w' (row : dict),
    VKCollector.process_new_post env post hashtag w = (Ret true, w')
    /\ table w' = (table w ++ [row])%list
    /\ Database.has_id (unique_post_id post) row = true.
Proof.
  intros Hq Hv Hfresh. unfold identified in Hv.
  apply andb_true_iff in Hv as [Hvo Hvp].
  unfold VKCollector.process_new_post, try_except.
  destruct (py_or (p_owner_id post) (p_from_id post)) as [owner|] eqn:Ho;
    [|discriminate Hvo].
  rewrite Hvo, Hvp. cbn [negb orb]. unfold bind.
  destruct (get_owner_info_run owner w) as (r & w1 & -> & Ht & _ & Hok).
  destruct (Hok Hq) as (source_type & owner_name & ->).
  destruct (parse_post_data_run env post source_type owner_name hashtag w1)
    as (post_data & -> & Hpid & Hst & Hoid & _).
  rewrite add_post_run. destruct Hq as (Hsql & _). rewrite Hsql.
  cbn [table tick clock journal].
  rewrite (insert_row_fresh _ _ (unique_post_id post)).
  - eexists _, _. split; [reflexivity|]. simpl. rewrite Ht. split; [reflexivity|].
    rewrite has_id_get, new_row_post_id. unfold get. rewrite Hpid.
    now apply bool_decide_eq_true_2.
  - change (get post_data "source_type" <> VNone). unfold get. now rewrite Hst.
  - change (get post_data "owner_id" <> VNone). unfold get. now rewrite Hoid, Ho.
  - rewrite new_row_post_id. unfold get. now rewrite Hpid.
  - now rewrite Ht.
Qed.

(** The body of the loop of [collect_new_posts]. *)
#[local] Abbreviation collect_body hashtag :=
  (fun post added_count =>
     try_except
       (let owner_id := py_or (p_owner_id post) (p_from_id post) in
        let post_id := p_id post in
        if (negb (truthy owner_id) || negb (truthy post_id))%bool
        then ret added_count
        else
          let unique_post_id := VKPostParser.parse_post_id owner_id post_id in
          let* known := Database.post_exists env unique_post_id in
          if known then ret added_count
          else
            let* added := VKCollector.process_new_post env post hashtag in
            if added then ret (S added_count) else ret added_count)
       [ (Exception, ret added_count) ]).

Lemma collect_new_posts_run hashtag w :
  VKCollector.collect_new_posts env hashtag w =
  match VKAPIClient.search_posts env hashtag 100 w with
  | (Ret [], w1) => (Ret 0%nat, w1)
  | (Ret posts, w1) => for_each posts (collect_body hashtag) 0%nat w1
  | (Raise e, w1) => (Raise e, w1)
  end.
Proof.
  unfold VKCollector.collect_new_posts, bind.
  destruct (VKAPIClient.search_posts env hashtag 100 w) as [[[|post posts]|e] w1];
    reflexivity.
Qed.

Lemma identified_check post :
  (negb (truthy (py_or (p_owner_id post) (p_from_id post)))
   || negb (truthy (p_id post)))%bool = negb (identified post).
Proof. unfold identified. now rewrite negb_andb. Qed.

(** A post that is already filed is passed over, whatever the store and
    the remote service do. *)
Lemma collect_body_known hashtag post n w :
  (identified post = true -> known (unique_post_id post) w) ->
  exists w', collect_body hashtag post n w = (Ret n, w') /\ table w' = table w.
Proof.
  intros Hk. unfold try_except. cbv zeta. rewrite identified_check.
  destruct (identified post); cbn [negb]; [|eexists; split; reflexivity].
  specialize (Hk eq_refl). unfold bind. rewrite post_exists_run.
  fold (unique_post_id post).
  destruct (sql_fault env (tick w)).
  - destruct (process_new_post_known post hashtag (tock w) Hk) as (w' & -> & Ht).
    eexists; split; [reflexivity | exact Ht].
  - unfold known in Hk. rewrite Hk. eexists; split; reflexivity.
Qed.

(** With the store and the lookups at work, a post that carries its
    identifiers is filed once the body has run, and nothing filed
    before is lost. *)
Lemma collect_body_files hashtag post n w :
  undisturbed env ->
  exists n' w',
    collect_body hashtag post n w = (Ret n', w')
    /\ (forall pid, known pid w -> known pid w')
    /\ (identified post = true -> known (unique_post_id post) w').
Proof.
  intros Hq. unfold try_except. cbv zeta. rewrite identified_check.
  destruct (identified post) eqn:Hv; cbn [negb];
    [|eexists _, _; split; [reflexivity|]; split; [auto | discriminate]].
  unfold bind. rewrite post_exists_run.
  fold (unique_post_id post).
  destruct Hq as (Hsql & Hg & Hu). rewrite Hsql.
  destruct (existsb (Database.has_id (unique_post_id post)) (table w)) eqn:Hex.
  - eexists _, _. split; [reflexivity|]. split; [auto|]. intros _. exact Hex.
  - destruct (process_new_post_fresh post hashtag (tock w) (conj Hsql (conj Hg Hu)) Hv Hex)
      as (w' & row & -> & Ht & Hrow).
    eexists _, _. split; [reflexivity|]. unfold known. rewrite Ht. simpl table.
    split.
    + intros pid Hp. rewrite existsb_app, Hp. reflexivity.
    + intros _. rewrite existsb_app. simpl. rewrite Hrow.
      now rewrite orb_true_r.
Qed.

Lemma collect_loop_known hashtag posts n w :
  (forall post, post ∈ posts -> identified post = true ->
                known (unique_post_id post) w) ->
  exists w',
    for_each posts (collect_body hashtag) n w = (Ret n, w') /\ table w' = table w.
Proof.
  revert w. induction posts as [|post posts IH]; intros w Hk.
  - eexists; split; reflexivity.
  - rewrite for_each_cons.
    destruct (collect_body_known hashtag post n w) as (w1 & E & Ht).
    { apply Hk. constructor. }
    cbv beta in E |- *. rewrite E. destruct (IH w1) as (w' & E' & Ht').
    { intros p Hp Hv. unfold known. rewrite Ht. apply Hk; [now constructor | exact Hv]. }
    exists w'. split; [exact E' | congruence].
Qed.

Lemma collect_loop_files hashtag posts n w :
  undisturbed env ->
  exists n' w',
    for_each posts (collect_body hashtag) n w = (Ret n', w')
    /\ (forall pid, known pid w -> known pid w')
    /\ (forall post, post ∈ posts -> identified post = true ->
                     known (unique_post_id post) w').
Proof.
  intros Hq. revert n w. induction posts as [|post posts IH]; intros n w.
  - eexists _, _. split; [reflexivity|]. split; [auto|].
    intros p Hp. inversion Hp.
  - rewrite for_each_cons.
    destruct (collect_body_files hashtag post n w Hq) as (n1 & w1 & E & Hmono & Hpost).
    cbv beta in E |- *. rewrite E.
    destruct (IH n1 w1) as (n' & w' & E' & Hmono' & Hposts).
    exists n', w'. split; [exact E'|]. split; [auto|].
    intros p Hp Hv. apply elem_of_cons in Hp as [-> | Hp]; auto.
Qed.

End IngestFacts.

(* ------------------------------------------------------------------ *)
(** ** The collector: properties that every run keeps *)
(* ------------------------------------------------------------------ *)

Section Invariants.
Variable I : world -> Prop.
Variable env : environment.

Lemma keeps_ret {A} (a : A) : keeps I (ret a).
Proof. intros w H. exact H. Qed.

Lemma keeps_raise {A} e : keeps I (@raise A e).
Proof. intros w H. exact H. Qed.

Lemma keeps_bind {A B} (c : M A) (k : A -> M B) :
  keeps I c -> (forall a, keeps I (k a)) -> keeps I (bind c k).
Proof.
  intros Hc Hk w Hw. unfold bind. specialize (Hc w Hw).
  destruct (c w) as [[a|e] w']; simpl in *; [|exact Hc]. now apply Hk.
Qed.

Lemma keeps_handle {A} (clauses : list (clause A)) e :
  Forall (fun cl => keeps I (snd cl)) clauses -> keeps I (handle clauses e).
Proof.
  induction 1 as [|[class h] rest Hh _ IH]; simpl; [apply keeps_raise|].
  destruct (class e); [exact Hh | exact IH].
Qed.

Lemma keeps_try {A} (c : M A) clauses :
  keeps I c -> Forall (fun cl => keeps I (snd cl)) clauses ->
  keeps I (try_except c clauses).
Proof.
  intros Hc Hh w Hw. unfold try_except. specialize (Hc w Hw).
  destruct (c w) as [[a|e] w']; simpl in *; [exact Hc|].
  now apply keeps_handle.
Qed.

Lemma keeps_for_each {A S} (l : list A) (body : A -> S -> M S) s :
  (forall x s, keeps I (body x s)) -> keeps I (for_each l body s).
Proof.
  intros Hb. revert s. induction l as [|x l IH]; intros s; simpl.
  - apply keeps_ret.
  - apply keeps_bind; [apply Hb | exact IH].
Qed.

(** [I] looks at the table and the clock only, and stands when time
    passes. *)
Hypothesis I_frame :
  forall w w', table w' = table w -> clock w <= clock w' -> I w -> I w'.

Lemma keeps_same {A} (c : M A) :
  (forall w, table (snd (c w)) = table w /\ clock w <= clock (snd (c w))) ->
  keeps I c.
Proof. intros H w Hw. destruct (H w) as [Ht Hc]. eapply I_frame; eauto. Qed.

Lemma keeps_search_posts hashtag count :
  keeps I (VKAPIClient.search_posts env hashtag count).
Proof.
  apply keeps_same. intros w. rewrite search_posts_run.
  destruct (newsfeed_search _ _ _ _); simpl; split; auto; lia.
Qed.

Lemma keeps_post_exists pid : keeps I (Database.post_exists env pid).
Proof.
  apply keeps_same. intros w. rewrite post_exists_run.
  destruct (sql_fault _ _); simpl; split; auto; lia.
Qed.

Lemma keeps_get_all_posts : keeps I (Database.get_all_posts env).
Proof.
  apply keeps_same. intros w. rewrite get_all_posts_run.
  destruct (sql_fault _ _); simpl; split; auto; lia.
Qed.

(** [I] stands when a row stamped with the current time is appended by
    a successful insert. *)
Hypothesis I_insert :
  forall w (post_data : dict) j n,
    I w ->
    post_data !! "first_collected" = Some (VInt (clock w)) ->
    post_data !! "last_updated" = Some (VInt (clock w)) ->
    Database.insert_row (Database.new_row post_data) (table w)
    = (Ret tt, (table w ++ [Database.new_row post_data])%list) ->
    I (World (table w ++ [Database.new_row post_data]) (clock w) j n).

Lemma keeps_process_new_post post hashtag :
  keeps I (VKCollector.process_new_post env post hashtag).
Proof.
  intros w Hw. unfold VKCollector.process_new_post, try_except.
  destruct (py_or (p_owner_id post) (p_from_id post)) as [owner|]; [|exact Hw].
  destruct (negb (truthy (Some owner)) || negb (truthy (p_id post)))%bool;
    [exact Hw|].
  unfold bind.
  destruct (get_owner_info_run env owner w) as (r & w1 & -> & Ht & Hc & _).
  assert (Hw1 : I w1) by (apply (I_frame w); auto; lia).
  destruct r as [[source_type owner_name]|e]; [|exact Hw1].
  destruct (parse_post_data_run env post source_type owner_name hashtag w1)
    as (post_data & -> & _ & _ & _ & Hfc & Hlu).
  set (t := clock w1 + Z.of_nat (elapsed env (tick w1))) in *.
  rewrite add_post_run. cbn [table tick clock journal tock].
  assert (Hw2 : forall n, I (World (table w1) t (journal w1) n)).
  { intros n. apply (I_frame w1); simpl; auto. unfold t. lia. }
  destruct (sql_fault env (S (tick w1))); [apply Hw2|].
  destruct (insert_row_cases (Database.new_row post_data) (table w1)) as [E | ->];
    [|apply Hw2].
  rewrite E.
  apply (I_insert (World (table w1) t (journal w1) 0%nat)); auto.
Qed.

Lemma keeps_collect_new_posts hashtag :
  keeps I (VKCollector.collect_new_posts env hashtag).
Proof.
  unfold VKCollector.collect_new_posts.
  apply keeps_bind; [apply keeps_search_posts|].
  intros [|post posts]; [apply keeps_ret|].
  apply keeps_for_each. intros x n.
  apply keeps_try; [|repeat constructor; apply keeps_ret].
  cbv zeta.
  destruct (negb (truthy (py_or (p_owner_id x) (p_from_id x)))
            || negb (truthy (p_id x)))%bool; [apply keeps_ret|].
  apply keeps_bind; [apply keeps_post_exists|].
  intros [|]; [apply keeps_ret|].
  apply keeps_bind; [apply keeps_process_new_post|].
  intros [|]; apply keeps_ret.
Qed.

(** [I] stands when the rows of one post take the fields that
    [parse_metrics] builds at the current time. *)
Hypothesis I_update :
  forall w post_id (fields : dict) j n,
    I w ->
    fields !! "post_id" = None ->
    fields !! "first_collected" = None ->
    fields !! "last_updated" = Some (VInt (clock w)) ->
    I (World (map (fun r : dict =>
                     if Database.has_id post_id r then update r fields else r)
                  (table w))
             (clock w) j n).

Lemma split_post_id_pure pid w :
  exists r, VKCollector.split_post_id pid w = (r, w).
Proof.
  unfold VKCollector.split_post_id.
  destruct (PyStr.split "_" pid) as [|a [|b [|c l]]]; try (eexists; reflexivity).
  destruct (PyStr.int_of_str a), (PyStr.int_of_str b); eexists; reflexivity.
Qed.

Lemma parse_metrics_no_key post t k :
  k <> "last_updated" -> k ∉ "post_views" :: "likes" :: "comments" :: "reposts"
                               :: VKPostParser.video_keys ->
  (<[ "last_updated" := VInt t ]>
     (update (VKPostParser._extract_metrics post)
             (VKPostParser.extract_video_info post)) : dict)
  !! k = None.
Proof.
  intros Hk Hnot. rewrite lookup_insert_ne by congruence.
  rewrite update_lookup, extract_video_info_other.
  - unfold VKPostParser._extract_metrics.
    rewrite !lookup_insert_ne, lookup_singleton_ne; [reflexivity | ..];
      intros <-; apply Hnot; apply list_elem_of_In; simpl; tauto.
  - intros Hin. apply Hnot. apply list_elem_of_In. apply list_elem_of_In in Hin.
    simpl in *. tauto.
Qed.

Lemma keeps_update_post_metrics post_id :
  keeps I (VKCollector.update_post_metrics env post_id).
Proof.
  intros w Hw. unfold VKCollector.update_post_metrics, try_except, bind.
  destruct (split_post_id_pure post_id w) as (r & ->).
  destruct r as [[|owner_id vk_post_id]|e];
    [exact Hw | | simpl; destruct (is_value_error e); exact Hw].
  rewrite get_post_by_id_run.
  assert (Hcall : forall paused,
             I (VKAPIClient.after_call "wall.getById" paused w))
    by (intros paused; apply (I_frame w); simpl; auto; lia).
  destruct (wall_getById _ _ _) as [[|post rest]| | |]; try apply Hcall.
  destruct (post_truthy post); cbn [negb]; [|apply Hcall].
  rewrite parse_metrics_run.
  set (w1 := VKAPIClient.after_call "wall.getById" true w) in *.
  set (t := clock w1 + Z.of_nat (elapsed env (tick w1))).
  rewrite update_post_run. cbn [table tick clock journal tock].
  assert (Hw2 : forall n, I (World (table w1) t (journal w1) n)).
  { intros n. apply (I_frame w1);
      [reflexivity | unfold t, w1; simpl; lia | apply Hcall]. }
  destruct (sql_fault env (S (tick w1))); [apply Hw2|].
  destruct (update_rows_cases post_id
              (<[ "last_updated" := VInt t ]>
                 (update (VKPostParser._extract_metrics post)
                         (VKPostParser.extract_video_info post)))
              (table w1)) as [-> | [-> | ->]]; try apply Hw2.
  assert (Hnew : forall n,
             I (World
                  (map (fun r : dict =>
                          if Database.has_id post_id r
                          then update r
                                 (<[ "last_updated" := VInt t ]>
                                    (update (VKPostParser._extract_metrics post)
                                       (VKPostParser.extract_video_info post)))
                          else r) (table w1))
                  t (journal w1) n)).
  { intros n.
    apply (I_update (World (table w1) t (journal w1) 0%nat) post_id); auto.
    - apply parse_metrics_no_key; [discriminate|].
      rewrite list_elem_of_In. unfold VKPostParser.video_keys. simpl.
      intros H. repeat destruct H as [H|H]; try discriminate H; exact H.
    - apply parse_metrics_no_key; [discriminate|].
      rewrite list_elem_of_In. unfold VKPostParser.video_keys. simpl.
      intros H. repeat destruct H as [H|H]; try discriminate H; exact H.
    - apply lookup_insert_eq. }
  destruct (0 <? _)%nat; apply Hnew.
Qed.

Lemma keeps_update_all_posts : keeps I (VKCollector.update_all_posts env).
Proof.
  unfold VKCollector.update_all_posts.
  apply keeps_bind; [apply keeps_get_all_posts|].
  intros [|post posts]; [apply keeps_ret|].
  apply keeps_for_each. intros x [u e].
  apply keeps_try; [|repeat constructor; apply keeps_ret].
  cbv zeta.
  destruct (VKCollector.falsy (get x "post_id")); [apply keeps_ret|].
  destruct (get x "post_id") as [|n|pid]; try apply keeps_ret.
  apply keeps_bind; [apply keeps_update_post_metrics|].
  intros [|]; apply keeps_ret.
Qed.

End Invariants.

(* ------------------------------------------------------------------ *)
(** ** The collector: one row per post *)
(* ------------------------------------------------------------------ *)

Lemma stored_ids_app t1 t2 :
  stored_ids (t1 ++ t2) = (stored_ids t1 ++ stored_ids t2)%list.
Proof. unfold stored_ids. now rewrite map_app, List.filter_app. Qed.

Lemma insert_row_unique (r : dict) t :
  Database.insert_row r t = (Ret tt, (t ++ [r])%list) ->
  NoDup (stored_ids t) -> NoDup (stored_ids (t ++ [r])).
Proof.
  unfold Database.insert_row. case_match; [discriminate|].
  destruct (bool_decide (get r "post_id" = VNone)) eqn:Hnull; simpl.
  - intros _ Hnd. rewrite stored_ids_app. unfold stored_ids at 2. simpl.
    rewrite Hnull. simpl. now rewrite app_nil_r.
  - destruct (existsb _ t) eqn:Hex; [discriminate|]. intros _ Hnd.
    rewrite stored_ids_app. unfold stored_ids at 2. simpl. rewrite Hnull. simpl.
    apply NoDup_app. split; [exact Hnd|]. split; [|apply NoDup_singleton].
    intros v Hv Hr. apply list_elem_of_singleton in Hr as ->.
    unfold stored_ids in Hv. apply list_elem_of_In, filter_In in Hv as [Hv _].
    apply in_map_iff in Hv as (r' & Heq & Hin).
    assert (Hyes : existsb (fun r' : dict =>
                             bool_decide (get r' "post_id" = get r "post_id")) t
                   = true).
    { apply existsb_exists. exists r'. split; [exact Hin|].
      now apply bool_decide_eq_true_2. }
    congruence.
Qed.

Lemma unique_ids_frame w w' :
  table w' = table w -> clock w <= clock w' -> unique_ids w -> unique_ids w'.
Proof. unfold unique_ids. now intros -> _. Qed.

Lemma unique_ids_insert w (post_data : dict) j n :
  unique_ids w ->
  post_data !! "first_collected" = Some (VInt (clock w)) ->
  post_data !! "last_updated" = Some (VInt (clock w)) ->
  Database.insert_row (Database.new_row post_data) (table w)
  = (Ret tt, (table w ++ [Database.new_row post_data])%list) ->
  unique_ids (World (table w ++ [Database.new_row post_data]) (clock w) j n).
Proof. intros Hu _ _ E. now apply insert_row_unique. Qed.

Lemma unique_ids_update w post_id (fields : dict) j n :
  unique_ids w ->
  fields !! "post_id" = None ->
  fields !! "first_collected" = None ->
  fields !! "last_updated" = Some (VInt (clock w)) ->
  unique_ids
    (World (map (fun r : dict =>
                   if Database.has_id post_id r then update r fields else r)
                (table w))
           (clock w) j n).
Proof.
  intros Hu Hid _ _. unfold unique_ids, stored_ids in *. simpl table.
  rewrite map_map.
  erewrite map_ext; [exact Hu|].
  intros r. simpl. destruct (Database.has_id post_id r); [|reflexivity].
  unfold get. now rewrite update_lookup, Hid.
Qed.

(** A run of the ingest workflow never files a post under an id that is
    already in the table, whatever the environment does. *)
Lemma collect_new_posts_unique env hashtag :
  keeps unique_ids (VKCollector.collect_new_posts env hashtag).
Proof.
  apply keeps_collect_new_posts.
  - exact unique_ids_frame.
  - exact unique_ids_insert.
Qed.

Lemma update_all_posts_unique env :
  keeps unique_ids (VKCollector.update_all_posts env).
Proof.
  apply keeps_update_all_posts.
  - exact unique_ids_frame.
  - exact unique_ids_update.
Qed.

Lemma reachable_unique w : reachable w -> unique_ids w.
Proof.
  induction 1 as [t | env hashtag w _ IH | env w _ IH].
  - constructor.
  - now apply collect_new_posts_unique.
  - now apply update_all_posts_unique.
Qed.

(** C2. A run of [collect_new_posts] stores no [post_id] twice.  When
    during that run the store answers every statement and the name
    lookups do not crash, the run returns a count, and a second run, in
    any environment, in which the search returns the same posts finds
    every post already filed: it returns 0 and leaves the table as the
    first run left it. *)
Theorem collect_new_posts_twice env1 env2 hashtag posts w0 r1 w1 :
  VKCollector.collect_new_posts env1 hashtag w0 = (r1, w1) ->
  (unique_ids w0 -> unique_ids w1)
  /\ (undisturbed env1 ->
      (forall q c, newsfeed_search env1 (tick w0) q c = Response (Some posts)) ->
      (forall q c, newsfeed_search env2 (tick w1) q c = Response (Some posts)) ->
      (exists added, r1 = Ret added)
      /\ exists w2,
           VKCollector.collect_new_posts env2 hashtag w1 = (Ret 0%nat, w2)
           /\ table w2 = table w1).
Proof.
  intros Hrun. split.
  { intros Hu. change w1 with (snd (r1, w1)). rewrite <- Hrun.
    now apply collect_new_posts_unique. }
  intros Hq Hs1 Hs2.
  rewrite collect_new_posts_run, search_posts_run, Hs1 in Hrun.
  rewrite collect_new_posts_run, search_posts_run, Hs2.
  cbn [from_option id] in *.
  destruct posts as [|post posts].
  { inversion Hrun; subst. split; [eauto|]. eexists; split; reflexivity. }
  destruct (collect_loop_files env1 hashtag (post :: posts) 0%nat
              (VKAPIClient.after_call "newsfeed.search" true w0) Hq)
    as (n' & w' & E & _ & Hfiled).
  assert (Heq : (r1, w1) = (Ret n', w')) by (rewrite <- Hrun; exact E).
  inversion Heq; subst. split; [eauto|].
  destruct (collect_loop_known env2 hashtag (post :: posts) 0%nat
              (VKAPIClient.after_call "newsfeed.search" true w'))
    as (w2 & E2 & Ht2).
  { intros p Hp Hv. unfold known. simpl table. now apply Hfiled. }
  exists w2. split; [exact E2 | exact Ht2].
Qed.

Lemma undisturbed_busy : undisturbed Sample.busy.
Proof. repeat split; intros; discriminate. Qed.

Lemma collect_new_posts_twice_witness :
  undisturbed Sample.busy
  /\ unique_ids (snd (VKCollector.collect_new_posts Sample.busy "tag"
                       Sample.empty_store))
  /\ exists w2,
       VKCollector.collect_new_posts Sample.busy "tag"
         (snd (VKCollector.collect_new_posts Sample.busy "tag" Sample.empty_store))
       = (Ret 0%nat, w2)
       /\ table w2
          = table (snd (VKCollector.collect_new_posts Sample.busy "tag"
                          Sample.empty_store)).
Proof.
  split; [exact undisturbed_busy|].
  destruct (collect_new_posts_twice Sample.busy Sample.busy "tag"
              [ VkPost (Some (-5)) None (Some 7) (Some "hello") (Some 100)
                  (Some (Counter (Some 10))) (Some (Counter (Some 2)))
                  None (Some NotADict) None true;
                VkPost None (Some 3) (Some 9) None (Some 200)
                  None None None None None true ]
              Sample.empty_store _ _ (surjective_pairing _)) as [Hu Hrun].
  split.
  - apply Hu. constructor.
  - apply Hrun; [exact undisturbed_busy | reflexivity | reflexivity].
Defined.

(* ------------------------------------------------------------------ *)
(** ** The collector: timestamps *)
(* ------------------------------------------------------------------ *)

Lemma stamped_later t t' r : t <= t' -> stamped t r -> stamped t' r.
Proof.
  intros Ht (fc & lu & Hfc & Hlu & Hle & Hb). exists fc, lu. repeat split; auto. lia.
Qed.

Lemma stamped_table_frame w w' :
  table w' = table w -> clock w <= clock w' -> stamped_table w -> stamped_table w'.
Proof.
  intros Ht Hc H r Hr. rewrite Ht in Hr. eapply stamped_later; eauto.
Qed.

Lemma new_row_stamps (pd : dict) t :
  pd !! "first_collected" = Some (VInt t) ->
  pd !! "last_updated" = Some (VInt t) ->
  stamped t (Database.new_row pd).
Proof.
  intros Hfc Hlu. exists t, t.
  change (Database.new_row pd !! "first_collected")
    with (Some (get pd "first_collected")).
  change (Database.new_row pd !! "last_updated")
    with (Some (get pd "last_updated")).
  unfold get. rewrite Hfc, Hlu. repeat split; lia.
Qed.

Lemma stamped_table_insert w (post_data : dict) j n :
  stamped_table w ->
  post_data !! "first_collected" = Some (VInt (clock w)) ->
  post_data !! "last_updated" = Some (VInt (clock w)) ->
  Database.insert_row (Database.new_row post_data) (table w)
  = (Ret tt, (table w ++ [Database.new_row post_data])%list) ->
  stamped_table (World (table w ++ [Database.new_row post_data]) (clock w) j n).
Proof.
  intros Hw Hfc Hlu _ r Hr. simpl in *. apply elem_of_app in Hr as [Hr | Hr].
  - now apply Hw.
  - apply list_elem_of_singleton in Hr as ->. now apply new_row_stamps.
Qed.

Lemma refreshed_stamps (r fields : dict) t :
  stamped t r ->
  fields !! "first_collected" = None ->
  fields !! "last_updated" = Some (VInt t) ->
  stamped t (update r fields).
Proof.
  intros (fc & lu & Hfc & Hlu & Hle & Hb) Hnone Hsome.
  exists fc, t. rewrite !update_lookup, Hnone, Hsome. repeat split; auto; lia.
Qed.

Lemma stamped_table_update w post_id (fields : dict) j n :
  stamped_table w ->
  fields !! "post_id" = None ->
  fields !! "first_collected" = None ->
  fields !! "last_updated" = Some (VInt (clock w)) ->
  stamped_table
    (World (map (fun r : dict =>
                   if Database.has_id post_id r then update r fields else r)
                (table w))
           (clock w) j n).
Proof.
  intros Hw _ Hfc Hlu r Hr. simpl in *.
  apply list_elem_of_fmap in Hr as (r0 & -> & Hr0).
  destruct (Database.has_id post_id r0); [|now apply Hw].
  apply refreshed_stamps; auto.
Qed.

Lemma reachable_stamped w : reachable w -> stamped_table w.
Proof.
  induction 1 as [t | env hashtag w _ IH | env w _ IH].
  - intros r Hr. inversion Hr.
  - apply keeps_collect_new_posts;
      [exact stamped_table_frame | exact stamped_table_insert | exact IH].
  - apply keeps_update_all_posts;
      [exact stamped_table_frame | exact stamped_table_update | exact IH].
Qed.

(** C9. In every state that the store reaches from an empty table
    through ingest and refresh runs, with a clock that does not run
    backwards, each row holds two integer timestamps with
    [first_collected <= last_updated]. *)
Theorem first_collected_le_last_updated w (r : dict) :
  reachable w ->
  r ∈ table w ->
  exists first_collected last_updated,
    r !! "first_collected" = Some (VInt first_collected)
    /\ r !! "last_updated" = Some (VInt last_updated)
    /\ first_collected <= last_updated.
Proof.
  intros Hw Hr.
  destruct (reachable_stamped w Hw r Hr) as (fc & lu & Hfc & Hlu & Hle & _).
  eauto.
Qed.

Lemma first_collected_le_last_updated_witness :
  Forall
    (fun r : dict =>
       exists first_collected last_updated,
         r !! "first_collected" = Some (VInt first_collected)
         /\ r !! "last_updated" = Some (VInt last_updated)
         /\ first_collected <= last_updated)
    (table (snd (VKCollector.update_all_posts Sample.busy
                   (snd (VKCollector.collect_new_posts Sample.busy "tag"
                           Sample.empty_store))))).
Proof.
  apply Forall_forall. intros r Hr.
  refine (first_collected_le_last_updated _ r _ Hr).
  apply reach_update, reach_collect, reach_start.
Defined.

(* ------------------------------------------------------------------ *)
(** ** The aggregator: engagement rate *)
(* ------------------------------------------------------------------ *)

(** The float model on values computed by CPython 3.11: [1/8] and
    [round(1/8, 2)], [round(2.675, 2)], [7/3*100] and its rounding, the
    largest quotient that is still a float and the first that is not. *)
Example float_samples :
  PyFloat.int_truediv 1 8 = Ret (S754_finite false 4503599627370496 (-55))
  /\ PyFloat.round2 (S754_finite false 4503599627370496 (-55))
     = S754_finite false 8646911284551352 (-56)
  /\ rbind (PyFloat.int_truediv 2675 1000) (fun x => Ret (PyFloat.round2 x))
     = PyFloat.int_truediv 267 100
  /\ rbind (PyFloat.int_truediv 7 3) (fun x => Ret (PyFloat.mul_int x 100))
     = Ret (S754_finite false 8209686820727467 (-45))
  /\ PyFloat.round2 (S754_finite false 8209686820727467 (-45))
     = S754_finite false 8209569539487171 (-45)
  /\ PyFloat.int_truediv (PyFloat.huge - 1) 1
     = Ret (S754_finite false 9007199254740991 971)
  /\ PyFloat.div (PyFloat.exact PyFloat.huge) (PyFloat.exact 1)
     = S754_infinity false
  /\ PyFloat.int_truediv PyFloat.huge 1 = Raise OverflowError
  /\ PyFloat.int_truediv 0 (-5) = Ret (S754_zero true).
Proof. repeat split; vm_compute; reflexivity. Qed.

Section RateFacts.
Import DataAggregator.

Lemma int_cell_field post key :
  int_cell post key ->
  get_or post key (VInt 0) = VInt (int_field key post)
  /\ - 2 ^ 63 <= int_field key post < 2 ^ 63.
Proof.
  unfold int_cell, int_field. destruct (get_or post key (VInt 0)); try tauto.
Qed.

Lemma huge_large : 2 ^ 66 <= PyFloat.huge.
Proof. vm_compute. discriminate. Qed.

Lemma int_truediv_int64 a b :
  Z.abs a < 2 ^ 66 -> b <> 0 ->
  PyFloat.int_truediv a b = Ret (PyFloat.div (PyFloat.exact a) (PyFloat.exact b)).
Proof.
  intros Ha Hb. unfold PyFloat.int_truediv.
  destruct (Z.eqb_spec b 0) as [|_]; [contradiction|].
  pose proof huge_large as Hh.
  destruct (Z.leb_spec (PyFloat.huge * Z.abs b) (Z.abs a)) as [Hle|]; [|reflexivity].
  assert (PyFloat.huge * 1 <= PyFloat.huge * Z.abs b)
    by (apply Z.mul_le_mono_nonneg_l; lia).
  lia.
Qed.

Lemma engagement_rate_zero_views (post : dict) :
  get_or post "post_views" (VInt 0) = VInt 0 ->
  calculate_engagement_rate post = Ret PyFloat.zero.
Proof. intros H. unfold calculate_engagement_rate. now rewrite H. Qed.

Lemma engagement_rate_formula (post : dict) :
  metrics_typed post ->
  int_field "post_views" post <> 0 ->
  calculate_engagement_rate post
  = Ret (PyFloat.round2
           (PyFloat.mul_int
              (PyFloat.div
                 (PyFloat.exact (int_field "likes" post + int_field "comments" post
                                 + int_field "reposts" post))
                 (PyFloat.exact (int_field "post_views" post)))
              100)).
Proof.
  intros (Hv & Hl & Hc & Hr) Hnz.
  apply int_cell_field in Hv as [Ev Bv]. apply int_cell_field in Hl as [El Bl].
  apply int_cell_field in Hc as [Ec Bc]. apply int_cell_field in Hr as [Er Br].
  unfold calculate_engagement_rate. rewrite Ev, El, Ec, Er.
  rewrite bool_decide_eq_false_2 by congruence.
  cbn [as_int rbind].
  rewrite int_truediv_int64; [reflexivity | | exact Hnz].
  change (2 ^ 66) with 73786976294838206464.
  change (2 ^ 63) with 9223372036854775808 in *. lia.
Qed.

Lemma engagement_rate_returns (post : dict) :
  metrics_typed post -> exists er, calculate_engagement_rate post = Ret er.
Proof.
  intros Hw. destruct (Z.eq_dec (int_field "post_views" post) 0) as [Hz|Hnz].
  - exists PyFloat.zero. apply engagement_rate_zero_views.
    destruct Hw as (Hv & _). apply int_cell_field in Hv as [-> _].
    now rewrite Hz.
  - eexists. now apply engagement_rate_formula.
Qed.

End RateFacts.

(** C7. For a post without views [calculate_engagement_rate] returns
    [0.0] whatever the other cells hold.  For a post with integer
    metrics and views other than 0 it returns, without raising,
    [(likes + comments + reposts) / views * 100] rounded to two decimals,
    each operation being the binary64 one.  For 100 views, 2 likes, 1
    comment and no repost the result is [3.0]. *)
Theorem engagement_rate_value (post : dict) :
  metrics_typed post ->
  (int_field "post_views" post = 0 ->
   DataAggregator.calculate_engagement_rate post = Ret (S754_zero false))
  /\ (int_field "post_views" post <> 0 ->
      DataAggregator.calculate_engagement_rate post
      = Ret (PyFloat.round2
               (PyFloat.mul_int
                  (PyFloat.div
                     (PyFloat.exact (int_field "likes" post
                                     + int_field "comments" post
                                     + int_field "reposts" post))
                     (PyFloat.exact (int_field "post_views" post)))
                  100)))
  /\ (forall other : dict,
        get_or other "post_views" (VInt 0) = VInt 0 ->
        DataAggregator.calculate_engagement_rate other = Ret (S754_zero false))
  /\ DataAggregator.calculate_engagement_rate
       {[ "post_views" := VInt 100; "likes" := VInt 2; "comments" := VInt 1;
          "reposts" := VInt 0 ]}
     = Ret (PyFloat.of_int 3).
Proof.
  intros Hw. split; [|split; [|split]].
  - intros Hz. apply engagement_rate_zero_views.
    destruct Hw as (Hv & _). apply int_cell_field in Hv as [-> _].
    now rewrite Hz.
  - now apply engagement_rate_formula.
  - apply engagement_rate_zero_views.
  - vm_compute. reflexivity.
Qed.

Lemma engagement_rate_value_witness :
  DataAggregator.calculate_engagement_rate Sample.stored_row
  = Ret (PyFloat.of_int 3).
Proof.
  assert (Hw : metrics_typed Sample.stored_row)
    by (vm_compute; repeat apply conj; first [reflexivity | discriminate]).
  destruct (engagement_rate_value Sample.stored_row Hw) as (_ & H & _).
  rewrite H by (vm_compute; discriminate).
  vm_compute. reflexivity.
Defined.

(* ------------------------------------------------------------------ *)
(** ** The aggregator: totals *)
(* ------------------------------------------------------------------ *)

Section TotalFacts.
Import DataAggregator.

Lemma fold_left_add_sigma {A} (f : A -> Z) l a :
  fold_left Z.add (map f l) a = a + sigma f l.
Proof.
  revert a. induction l as [|x l IH]; intros a; simpl; [lia|].
  rewrite IH. lia.
Qed.

Lemma map_result_ints key posts :
  Forall (fun p => int_cell p key) posts ->
  map_result (fun p => as_int (get_or p key (VInt 0))) posts
  = Ret (map (int_field key) posts).
Proof.
  induction 1 as [|p posts Hp _ IH]; simpl; [reflexivity|].
  apply int_cell_field in Hp as [-> _]. simpl. now rewrite IH.
Qed.

Lemma sum_of_typed key posts :
  Forall (fun p => int_cell p key) posts ->
  sum_of key posts = Ret (sigma (int_field key) posts).
Proof.
  intros H. unfold sum_of. rewrite (map_result_ints key posts H). simpl.
  now rewrite fold_left_add_sigma.
Qed.

Lemma map_result_rates posts :
  Forall metrics_typed posts ->
  exists rates,
    map_result calculate_engagement_rate posts = Ret rates
    /\ Forall2 (fun p er => calculate_engagement_rate p = Ret er) posts rates.
Proof.
  induction 1 as [|p posts Hp _ (rates & E & IH)]; simpl.
  - exists []. split; [reflexivity | constructor].
  - destruct (engagement_rate_returns p Hp) as (er & Her).
    exists (er :: rates). rewrite Her, E. split; [reflexivity|].
    now constructor.
Qed.

End TotalFacts.

(** C8. Over a corpus with integer metrics [get_total_stats] returns the
    number of posts, the sums of views, likes, comments and reposts, and
    as [avg_er] the sum of the engagement rates of the individual posts
    divided by their number, rounded to two decimals; over an empty
    corpus every field is zero. *)
Theorem total_stats_value env float_sum w all_posts w1 :
  Database.get_all_posts env w = (Ret all_posts, w1) ->
  Forall metrics_typed all_posts ->
  exists rates,
    Forall2 (fun p er => DataAggregator.calculate_engagement_rate p = Ret er)
            all_posts rates
    /\ DataAggregator.get_total_stats env float_sum w
       = (Ret match all_posts with
              | [] => TotalStats 0 0 0 0 0 (S754_zero false)
              | _ =>
                  TotalStats (Z.of_nat (length all_posts))
                    (sigma (int_field "post_views") all_posts)
                    (sigma (int_field "likes") all_posts)
                    (sigma (int_field "comments") all_posts)
                    (sigma (int_field "reposts") all_posts)
                    (PyFloat.round2
                       (PyFloat.div (float_sum rates)
                          (PyFloat.of_int (Z.of_nat (length rates)))))
              end, w1).
Proof.
  intros Hscan Hty.
  destruct (map_result_rates all_posts Hty) as (rates & Erates & Hrates).
  exists rates. split; [exact Hrates|].
  unfold DataAggregator.get_total_stats, bind. rewrite Hscan.
  destruct all_posts as [|p posts]; [reflexivity|].
  assert (Hcol : forall key,
             (forall q, metrics_typed q -> int_cell q key) ->
             DataAggregator.sum_of key (p :: posts)
             = Ret (sigma (int_field key) (p :: posts))).
  { intros key Hkey. apply sum_of_typed.
    eapply Forall_impl; [exact Hty | exact Hkey]. }
  unfold lift.
  rewrite (Hcol "post_views") by (intros q H; apply H).
  rewrite (Hcol "likes") by (intros q H; apply H).
  rewrite (Hcol "comments") by (intros q H; apply H).
  rewrite (Hcol "reposts") by (intros q H; apply H).
  rewrite Erates.
  destruct rates as [|er rates]; [inversion Hrates|].
  unfold PyFloat.truediv_int.
  destruct (Z.eqb_spec (Z.of_nat (length (er :: rates))) 0) as [Hz|_];
    [simpl in Hz; lia|].
  reflexivity.
Qed.

(* ------------------------------------------------------------------ *)
(** ** The aggregator: daily series *)
(* ------------------------------------------------------------------ *)

Section DailyFacts.
Import DataAggregator.
Variable cal : calendar.

Lemma add_to_day_typed (daily_data : gmap Z bucket) post d :
  well_typed post ->
  fromtimestamp_date cal (int_field "date_published" post) = Ret d ->
  add_to_day cal daily_data post
  = Ret (<[ d := count_post (day_entry daily_data d) post ]> daily_data).
Proof.
  intros (Hd & Hv & Hl & Hc & Hr) Hdate.
  apply int_cell_field in Hd as [Ed _]. apply int_cell_field in Hv as [Ev _].
  apply int_cell_field in Hl as [El _]. apply int_cell_field in Hc as [Ec _].
  apply int_cell_field in Hr as [Er _].
  unfold add_to_day. rewrite Ed. cbn [as_int rbind]. rewrite Hdate.
  cbn [rbind]. rewrite Ev, El, Ec, Er. reflexivity.
Qed.

Lemma day_entry_insert (daily_data : gmap Z bucket) d0 b d :
  day_entry (<[ d0 := b ]> daily_data) d
  = if d0 =? d then b else day_entry daily_data d.
Proof.
  unfold day_entry.
  destruct (Z.eqb_spec d0 d) as [->|Hne].
  - now rewrite lookup_insert_eq.
  - now rewrite lookup_insert_ne.
Qed.

Lemma group_by_day_entry posts :
  Forall well_typed posts ->
  Forall (dated cal) posts ->
  forall daily_data : gmap Z bucket,
  exists grouped : gmap Z bucket,
    group_by_day cal posts daily_data = Ret grouped
    /\ forall d, day_entry grouped d
                 = fold_left count_post (on_day cal d posts) (day_entry daily_data d).
Proof.
  induction 1 as [|p posts Hp _ IH]; intros Hdated daily_data; simpl.
  - exists daily_data. split; [reflexivity|]. intros d. reflexivity.
  - inversion Hdated as [|? ? [d0 Hd0] Hrest]; subst.
    rewrite (add_to_day_typed daily_data p d0 Hp Hd0). simpl.
    destruct (IH Hrest (<[ d0 := count_post (day_entry daily_data d0) p ]>
                          daily_data)) as (grouped & E & Hg).
    exists grouped. split; [exact E|]. intros d. rewrite Hg.
    rewrite day_entry_insert. unfold on_day, published_on. simpl.
    rewrite Hd0.
    destruct (Z.eqb_spec d0 d) as [->|Hne]; reflexivity.
Qed.

Lemma fold_count_post posts day :
  let total := fold_left count_post posts day in
  day_date total = day_date day
  /\ day_new_posts total = day_new_posts day + Z.of_nat (length posts)
  /\ day_views total = day_views day + sigma (int_field "post_views") posts
  /\ day_likes total = day_likes day + sigma (int_field "likes") posts
  /\ day_comments total = day_comments day + sigma (int_field "comments") posts
  /\ day_reposts total = day_reposts day + sigma (int_field "reposts") posts
  /\ day_total_posts total = day_total_posts day.
Proof.
  revert day. induction posts as [|p posts IH]; intros day; simpl.
  - repeat split; lia.
  - destruct (IH (count_post day p)) as (H1 & H2 & H3 & H4 & H5 & H6 & H7).
    simpl in *. rewrite H1, H2, H3, H4, H5, H6, H7. repeat split; lia.
Qed.

Lemma accumulate_length t l : length (accumulate t l) = length l.
Proof. revert t. induction l as [|b l IH]; intros t; simpl; [|rewrite IH]; reflexivity. Qed.

Lemma accumulate_lookup l :
  forall t i (b' : bucket),
    accumulate t l !! i = Some b' ->
    exists b, l !! i = Some b
      /\ day_date b' = day_date b /\ day_new_posts b' = day_new_posts b
      /\ day_views b' = day_views b /\ day_likes b' = day_likes b
      /\ day_comments b' = day_comments b /\ day_reposts b' = day_reposts b
      /\ day_total_posts b' = Some (t + sigma day_new_posts (take (S i) l)).
Proof.
  induction l as [|b l IH]; intros t i b' H; simpl in H; [discriminate H|].
  destruct i as [|i]; simpl in H.
  - inversion H; subst. exists b. simpl. repeat split. f_equal. lia.
  - destruct (IH _ _ _ H) as (b0 & Hb0 & H1 & H2 & H3 & H4 & H5 & H6 & H7).
    exists b0. simpl. repeat split; auto. rewrite H7. f_equal.
    change (take (S (S i)) (b :: l)) with (b :: take (S i) l). simpl. lia.
Qed.

Lemma accumulate_new_posts t l :
  map day_new_posts (accumulate t l) = map day_new_posts l.
Proof. revert t. induction l as [|b l IH]; intros t; simpl; [|rewrite IH]; reflexivity. Qed.

Lemma accumulate_dates t l :
  map day_date (accumulate t l) = map day_date l.
Proof. revert t. induction l as [|b l IH]; intros t; simpl; [|rewrite IH]; reflexivity. Qed.

Lemma sigma_map {A} (f : A -> Z) l : sigma f l = sigma id (map f l).
Proof. induction l as [|x l IH]; simpl; [|rewrite IH]; reflexivity. Qed.

Lemma sigma_take_new_posts t l n :
  sigma day_new_posts (take n (accumulate t l)) = sigma day_new_posts (take n l).
Proof.
  rewrite (sigma_map _ (take n (accumulate t l))), (sigma_map _ (take n l)).
  change (map day_new_posts (take n (accumulate t l)))
    with (day_new_posts <$> take n (accumulate t l)).
  change (map day_new_posts (take n l)) with (day_new_posts <$> take n l).
  rewrite !fmap_take. change (sigma id (take n (map day_new_posts (accumulate t l)))
                               = sigma id (take n (map day_new_posts l))).
  now rewrite accumulate_new_posts.
Qed.

Lemma fold_left_min l a :
  let m := fold_left Z.min l a in
  m <= a /\ (forall x, x ∈ l -> m <= x) /\ (m = a \/ m ∈ l).
Proof.
  revert a. induction l as [|x l IH]; intros a; simpl.
  - split; [lia|]. split; [intros x Hx; inversion Hx | now left].
  - destruct (IH (Z.min a x)) as (H1 & H2 & H3). split; [lia|]. split.
    + intros y Hy. apply elem_of_cons in Hy as [->|Hy]; [lia | auto].
    + destruct H3 as [H3|H3].
      * destruct (Z.min_spec a x) as [[_ E]|[_ E]];
          [left; now rewrite H3 | right; rewrite H3, E; constructor].
      * right. now constructor.
Qed.

Lemma min_published_earliest p posts :
  Forall well_typed (p :: posts) ->
  exists m, min_published (p :: posts) = Ret m /\ earliest (p :: posts) m.
Proof.
  intros Hty. unfold min_published.
  rewrite (map_result_ints "date_published" (p :: posts))
    by (eapply Forall_impl; [exact Hty | intros q H; apply H]).
  simpl. eexists. split; [reflexivity|].
  destruct (fold_left_min (map (int_field "date_published") posts)
              (int_field "date_published" p)) as (H1 & H2 & H3).
  split.
  - destruct H3 as [H3|H3].
    + exists p. split; [constructor | now rewrite H3].
    + apply list_elem_of_fmap in H3 as (q & Hq & Hin).
      exists q. split; [now constructor | now rewrite Hq].
  - intros q Hq. apply elem_of_cons in Hq as [->|Hq]; [exact H1|].
    apply H2. apply list_elem_of_fmap. eauto.
Qed.

Lemma day_entry_empty d : day_entry ∅ d = empty_day d.
Proof. unfold day_entry. now rewrite lookup_empty. Qed.

Lemma grouped_entry (grouped : gmap Z bucket) posts d :
  (forall d, day_entry grouped d
             = fold_left count_post (on_day cal d posts) (day_entry ∅ d)) ->
  let b := day_entry grouped d in
  day_date b = d
  /\ day_new_posts b = Z.of_nat (length (on_day cal d posts))
  /\ day_views b = sigma (int_field "post_views") (on_day cal d posts)
  /\ day_likes b = sigma (int_field "likes") (on_day cal d posts)
  /\ day_comments b = sigma (int_field "comments") (on_day cal d posts)
  /\ day_reposts b = sigma (int_field "reposts") (on_day cal d posts).
Proof.
  intros Hg. simpl. rewrite Hg, day_entry_empty.
  destruct (fold_count_post (on_day cal d posts) (empty_day d))
    as (H1 & H2 & H3 & H4 & H5 & H6 & _).
  simpl in *. rewrite H1, H2, H3, H4, H5, H6. repeat split; lia.
Qed.

Lemma series_facts (grouped : gmap Z bucket) posts start today :
  (forall d, day_entry grouped d
             = fold_left count_post (on_day cal d posts) (day_entry ∅ d)) ->
  let series :=
    accumulate 0 (map (day_entry grouped) (seqZ start (today - start + 1))) in
  map day_date series = seqZ start (today - start + 1)
  /\ (forall b, b ∈ series ->
        day_new_posts b = Z.of_nat (length (on_day cal (day_date b) posts))
        /\ day_views b = sigma (int_field "post_views") (on_day cal (day_date b) posts)
        /\ day_likes b = sigma (int_field "likes") (on_day cal (day_date b) posts)
        /\ day_comments b
           = sigma (int_field "comments") (on_day cal (day_date b) posts)
        /\ day_reposts b
           = sigma (int_field "reposts") (on_day cal (day_date b) posts))
  /\ (forall i b, series !! i = Some b ->
        day_total_posts b = Some (sigma day_new_posts (take (S i) series))).
Proof.
  intros Hg series. subst series.
  set (days := seqZ start (today - start + 1)).
  split; [|split].
  - rewrite accumulate_dates, map_map.
    transitivity (map id days); [|apply List.map_id].
    apply map_ext. intros d.
    apply (grouped_entry grouped posts d Hg).
  - intros b Hb. apply list_elem_of_lookup in Hb as (i & Hi).
    apply accumulate_lookup in Hi
      as (b0 & Hb0 & -> & -> & -> & -> & -> & -> & _).
    change (map (day_entry grouped) days) with (day_entry grouped <$> days) in Hb0.
    apply list_lookup_fmap_Some in Hb0 as (d & -> & Hd).
    destruct (grouped_entry grouped posts d Hg) as (H1 & H2 & H3 & H4 & H5 & H6).
    simpl in *. rewrite H1. auto.
  - intros i b Hi. rewrite sigma_take_new_posts.
    apply accumulate_lookup in Hi as (b0 & _ & _ & _ & _ & _ & _ & _ & ->).
    f_equal.
Qed.

(** Before the last day of the calendar the loop over the days runs to
    its end. *)
Lemma fill_range_before_max (daily_data : gmap Z bucket) start_date end_date :
  end_date < date_max cal ->
  fill_range cal daily_data start_date end_date
  = Ret (map (day_entry daily_data) (seqZ start_date (end_date - start_date + 1))).
Proof.
  intros H. unfold fill_range.
  replace (date_max cal <=? end_date) with false by (symmetry; apply Z.leb_gt; lia).
  now rewrite andb_false_r.
Qed.

Lemma configured_start_code START_DATE :
  match START_DATE with
  | Some (String c s) => strptime_date cal (String c s)
  | _ => None
  end = configured_start cal START_DATE.
Proof. destruct START_DATE as [[|c s]|]; reflexivity. Qed.

End DailyFacts.

(** C4, as the code has it.  Over an empty corpus [get_daily_dynamics]
    returns the empty list.  Over a corpus that is not empty, has
    integer cells and publication times for which the host calendar has
    a date, and on a day that is not the last of the calendar, it
    returns one entry per day, in order, from the start date (the
    configured date when it is set and parses, else the day of an
    earliest post) to today included; each entry counts the posts
    published on its day and sums their metrics, hence zeros on a day
    without posts; and [total_posts] of an entry is the sum of
    [new_posts] over the entries up to and including it. *)
Theorem daily_dynamics_series env cal START_DATE w all_posts w1 today w2 end_date :
  Database.get_all_posts env w = (Ret all_posts, w1) ->
  Forall well_typed all_posts ->
  Forall (dated cal) all_posts ->
  now env w1 = (Ret today, w2) ->
  fromtimestamp_date cal today = Ret end_date ->
  end_date < date_max cal ->
  (all_posts = [] ->
   DataAggregator.get_daily_dynamics env cal START_DATE w = (Ret [], w1))
  /\ (all_posts <> [] ->
      exists series start,
        DataAggregator.get_daily_dynamics env cal START_DATE w = (Ret series, w2)
        /\ series_start cal START_DATE all_posts start
        /\ map day_date series = seqZ start (end_date - start + 1)
        /\ (forall b, b ∈ series ->
              day_new_posts b
              = Z.of_nat (length (on_day cal (day_date b) all_posts))
              /\ day_views b
                 = sigma (int_field "post_views") (on_day cal (day_date b) all_posts)
              /\ day_likes b
                 = sigma (int_field "likes") (on_day cal (day_date b) all_posts)
              /\ day_comments b
                 = sigma (int_field "comments") (on_day cal (day_date b) all_posts)
              /\ day_reposts b
                 = sigma (int_field "reposts") (on_day cal (day_date b) all_posts))
        /\ (forall i b, series !! i = Some b ->
              day_total_posts b = Some (sigma day_new_posts (take (S i) series)))).
Proof.
  intros Hscan Hty Hdated Hnow Hend Hmax. split.
  { intros ->. unfold DataAggregator.get_daily_dynamics, bind.
    now rewrite Hscan. }
  intros Hne.
  unfold DataAggregator.get_daily_dynamics, bind. rewrite Hscan.
  destruct all_posts as [|p posts]; [contradiction|].
  rewrite configured_start_code.
  destruct (group_by_day_entry cal (p :: posts) Hty Hdated ∅) as (grouped & Eg & Hg).
  unfold series_start.
  destruct (configured_start cal START_DATE) as [d|].
  - unfold ret, lift. rewrite Hnow, Hend, Eg, (fill_range_before_max _ _ _ _ Hmax).
    eexists _, d. split; [reflexivity|]. split; [reflexivity|].
    apply (series_facts cal grouped (p :: posts) _ _ Hg).
  - destruct (min_published_earliest p posts Hty) as (m & Em & Hm).
    assert (Hstart : exists start, fromtimestamp_date cal m = Ret start).
    { destruct Hm as [(q & Hq & <-) _].
      apply (proj1 (Forall_forall _ _) Hdated q Hq). }
    destruct Hstart as (start & Es).
    unfold ret, lift. rewrite Em, Es, Hnow, Hend, Eg,
      (fill_range_before_max _ _ _ _ Hmax).
    eexists _, start. split; [reflexivity|].
    split; [eauto|].
    apply (series_facts cal grouped (p :: posts) _ _ Hg).
Qed.

(* ------------------------------------------------------------------ *)
(** ** The aggregator on the sample corpus *)
(* ------------------------------------------------------------------ *)

Example strptime_samples :
  strptime_date Sample.utc "1970-01-02" = Some 1
  /\ strptime_date Sample.utc "2024-02-29" = Some 19782
  /\ strptime_date Sample.utc "2023-02-29" = None
  /\ strptime_date Sample.utc "yesterday" = None.
Proof. repeat split; vm_compute; reflexivity. Qed.

Lemma two_days_scan :
  Database.get_all_posts Sample.quiet Sample.two_days
  = (Ret [Sample.late_post; Sample.early_post], tock Sample.two_days).
Proof. rewrite get_all_posts_run. reflexivity. Qed.

Lemma two_days_typed : Forall well_typed [Sample.late_post; Sample.early_post].
Proof.
  constructor; [|constructor; [|constructor]];
    (vm_compute; repeat apply conj; first [reflexivity | discriminate]).
Qed.

Lemma two_days_dated : Forall (dated Sample.utc) [Sample.late_post; Sample.early_post].
Proof.
  constructor; [exists 5 | constructor; [exists 1 | constructor]];
    vm_compute; reflexivity.
Qed.

Lemma total_stats_value_witness :
  exists rates,
    Forall2 (fun p er => DataAggregator.calculate_engagement_rate p = Ret er)
            [Sample.late_post; Sample.early_post] rates
    /\ DataAggregator.get_total_stats Sample.quiet PyFloat.sum_left Sample.two_days
       = (Ret (TotalStats 2
                 (sigma (int_field "post_views") [Sample.late_post; Sample.early_post])
                 (sigma (int_field "likes") [Sample.late_post; Sample.early_post])
                 (sigma (int_field "comments") [Sample.late_post; Sample.early_post])
                 (sigma (int_field "reposts") [Sample.late_post; Sample.early_post])
                 (PyFloat.round2
                    (PyFloat.div (PyFloat.sum_left rates)
                       (PyFloat.of_int (Z.of_nat (length rates)))))),
          tock Sample.two_days).
Proof.
  exact (total_stats_value Sample.quiet PyFloat.sum_left Sample.two_days
           [Sample.late_post; Sample.early_post] (tock Sample.two_days)
           two_days_scan
           (Forall_impl _ _ _ two_days_typed (fun p H => proj2 H))).
Defined.

(** On the sample corpus the mean of the two rates, 100 and 0, is 50,
    whereas all likes over all views would give 1. *)
Example avg_er_is_mean_of_rates :
  avg_er <$> fst_result
    (DataAggregator.get_total_stats Sample.quiet PyFloat.sum_left Sample.two_days)
  = Some (PyFloat.of_int 50)
  /\ PyFloat.round2
       (PyFloat.mul_int (PyFloat.div (PyFloat.exact (1 + 0)) (PyFloat.exact (1 + 99)))
          100)
     = PyFloat.of_int 1.
Proof. split; vm_compute; reflexivity. Qed.

Lemma daily_dynamics_series_witness :
  exists series start,
    DataAggregator.get_daily_dynamics Sample.quiet Sample.utc (Some "1970-01-02")
      Sample.two_days
    = (Ret series, World (table Sample.two_days) 435600 [] 2)
    /\ series_start Sample.utc (Some "1970-01-02")
         [Sample.late_post; Sample.early_post] start
    /\ map day_date series = seqZ start (5 - start + 1)
    /\ (forall i b, series !! i = Some b ->
          day_total_posts b = Some (sigma day_new_posts (take (S i) series))).
Proof.
  destruct (daily_dynamics_series Sample.quiet Sample.utc (Some "1970-01-02")
              Sample.two_days [Sample.late_post; Sample.early_post]
              (tock Sample.two_days) 435600
              (World (table Sample.two_days) 435600 [] 2) 5
              two_days_scan two_days_typed two_days_dated eq_refl eq_refl
              ltac:(vm_compute; reflexivity))
    as [_ Hseries].
  destruct Hseries as (series & start & E & Hs & Hd & _ & Ht);
    [discriminate|].
  exists series, start. auto.
Defined.

(** Posts on 2 and 6 January only, start date 2 January, today 6
    January: five entries, the three days between with no post, and
    the running total 1, 1, 1, 1, 2. *)
Example daily_dynamics_gap_filled :
  fst_result
    (DataAggregator.get_daily_dynamics Sample.quiet Sample.utc (Some "1970-01-02")
       Sample.two_days)
  = Some [ Bucket 1 1 1 1 0 0 (Some 1); Bucket 2 0 0 0 0 0 (Some 1);
           Bucket 3 0 0 0 0 0 (Some 1); Bucket 4 0 0 0 0 0 (Some 1);
           Bucket 5 1 99 0 0 0 (Some 2) ].
Proof. vm_compute. reflexivity. Qed.

(** A post dated in the year 33658, which the calendar cannot hold,
    makes the report raise what [datetime.fromtimestamp] raises; and on
    the last day of the calendar the loop over the days raises when it
    steps past it. *)
Example daily_dynamics_raises :
  fst (DataAggregator.get_daily_dynamics Sample.quiet Sample.utc (Some "1970-01-02")
         (World [Database.new_row
                   {[ "post_id" := VStr "3_9"; "source_type" := VStr "user";
                      "owner_id" := VInt 3;
                      "date_published" := VInt 1000000000000 ]}]
                435600 [] 0))
  = Raise ValueError
  /\ fst (DataAggregator.get_daily_dynamics Sample.quiet Sample.utc
            (Some "1970-01-02")
            (World [Sample.early_post] (date_max Sample.utc * 86400) [] 0))
     = Raise OverflowError.
Proof. split; vm_compute; reflexivity. Qed.

(** C4, counterexample to the claim as stated: with no post stored and
    the start date set to 2 January 1970, on 6 January the days from the
    start date to today are 1, 2, 3, 4, 5 and [get_daily_dynamics]
    returns no entry at all. *)
Lemma daily_dynamics_empty_corpus :
  configured_start Sample.utc (Some "1970-01-02") = Some 1
  /\ fromtimestamp_date Sample.utc (clock Sample.no_post) = Ret 5
  /\ seqZ 1 (5 - 1 + 1) = [1; 2; 3; 4; 5]
  /\ DataAggregator.get_daily_dynamics Sample.quiet Sample.utc (Some "1970-01-02")
       Sample.no_post = (Ret [], tock Sample.no_post).
Proof. repeat split; vm_compute; reflexivity. Qed.

(* ------------------------------------------------------------------ *)
(** ** The store: acceptance, read-back and queries *)
(* ------------------------------------------------------------------ *)

Section StoreQueries.
Import Database.
Variable env : environment.

Lemma get_post_count_run w :
  get_post_count env w =
  (Ret (if sql_fault env (tick w) then 0%nat else length (table w)), tock w).
Proof.
  unfold get_post_count, try_except, _get_cursor, select_count.
  now destruct (sql_fault env (tick w)).
Qed.

Lemma get_posts_by_date_range_run start_date end_date w :
  get_posts_by_date_range env start_date end_date w =
  if sql_fault env (tick w) then (Ret [], tock w)
  else if (fits_integer start_date && fits_integer end_date)%bool
  then (Ret (merge_sort newer_first
               (List.filter (between start_date end_date) (table w))), tock w)
  else (Raise OverflowError, tock w).
Proof.
  unfold get_posts_by_date_range, try_except, _get_cursor, select_range.
  destruct (sql_fault env (tick w)); [reflexivity|].
  now destruct (fits_integer start_date && fits_integer end_date)%bool.
Qed.

Lemma new_row_column (pd : dict) k v :
  k ∈ columns -> pd !! k = Some v -> new_row pd !! k = Some v.
Proof.
  intros Hk Hv. apply list_elem_of_In in Hk. unfold columns in Hk. simpl in Hk.
  repeat (destruct Hk as [<- | Hk];
          [match goal with
           | |- new_row pd !! ?key = _ =>
               first [ change (Some (get pd key) = Some v)
                     | change (Some (get_or pd key (VInt 0)) = Some v) ]
           end;
           unfold get, get_or; now rewrite Hv |]).
  destruct Hk.
Qed.

Lemma new_row_other (pd : dict) k : k ∉ columns -> new_row pd !! k = None.
Proof.
  intros Hk. unfold new_row. apply not_elem_of_list_to_map_1. exact Hk.
Qed.

Lemma insert_row_accepts (r : dict) t :
  insert_row r t = (Ret tt, (t ++ [r])%list)
  <-> get r "source_type" <> VNone /\ get r "owner_id" <> VNone
      /\ (get r "post_id" = VNone
          \/ forall r' : dict, r' ∈ t -> get r' "post_id" <> get r "post_id").
Proof.
  unfold insert_row.
  destruct (bool_decide (get r "source_type" = VNone)) eqn:Hs; simpl.
  { apply bool_decide_eq_true_1 in Hs. split; [discriminate | tauto]. }
  destruct (bool_decide (get r "owner_id" = VNone)) eqn:Ho; simpl.
  { apply bool_decide_eq_true_1 in Ho. split; [discriminate | tauto]. }
  apply bool_decide_eq_false_1 in Hs, Ho.
  destruct (bool_decide (get r "post_id" = VNone)) eqn:Hp; simpl.
  { apply bool_decide_eq_true_1 in Hp. tauto. }
  apply bool_decide_eq_false_1 in Hp.
  destruct (existsb _ t) eqn:Hex.
  - split; [discriminate|]. intros (_ & _ & [H | H]); [contradiction|].
    apply existsb_exists in Hex as (r' & Hin & Heq).
    apply bool_decide_eq_true_1 in Heq. apply list_elem_of_In in Hin.
    now destruct (H r' Hin).
  - split; [|reflexivity]. intros _. repeat split; auto. right.
    intros r' Hin Heq.
    assert (Hyes : existsb (fun r' : dict =>
                              bool_decide (get r' "post_id" = get r "post_id")) t
                   = true); [|congruence].
    apply existsb_exists. exists r'. split; [now apply list_elem_of_In|].
    now apply bool_decide_eq_true_2.
Qed.

End StoreQueries.

Lemma add_post_outcome env (post_data : dict) w :
  exists b : bool,
    Database.add_post env post_data w
    = (Ret b,
       if b then World (table w ++ [Database.new_row post_data])%list (clock w)
                       (journal w) (S (tick w))
       else tock w)
    /\ (b = true <->
        sql_fault env (tick w) = false
        /\ get post_data "source_type" <> VNone
        /\ get post_data "owner_id" <> VNone
        /\ (get post_data "post_id" = VNone
            \/ forall r : dict, r ∈ table w ->
                 get r "post_id" <> get post_data "post_id")).
Proof.
  rewrite add_post_run. destruct (sql_fault env (tick w)).
  { exists false. split; [reflexivity|]. split; [discriminate|].
    intros (H & _). discriminate H. }
  pose proof (insert_row_accepts (Database.new_row post_data) (table w)) as Hacc.
  destruct (insert_row_cases (Database.new_row post_data) (table w)) as [E | E];
    rewrite E.
  - exists true. split; [reflexivity|]. split; [|reflexivity]. intros _.
    split; [reflexivity|]. now apply Hacc.
  - exists false. split; [reflexivity|]. split; [discriminate|].
    intros (_ & H). apply Hacc in H. rewrite E in H. discriminate H.
Qed.


Lemma stored_row_storable : Database.storable (Database.new_row Sample.stored_row).
Proof. apply (bool_decide_unpack _). vm_compute. exact I. Qed.


(** A record that [add_post] has accepted, with values that the
    columns can hold, can be read back: the table has one more row,
    which holds every supplied column under its name and no key that is
    not a column; from then on the count is one higher and
    [post_exists] finds the id. *)
Theorem add_post_then_found env env' (post_data : dict) w w' :
  Database.storable (Database.new_row post_data) ->
  Database.add_post env post_data w = (Ret true, w') ->
  (exists row : dict,
     table w' = (table w ++ [row])%list
     /\ (forall k v, k ∈ Database.columns -> post_data !! k = Some v ->
                     row !! k = Some v)
     /\ (forall k, k ∉ Database.columns -> row !! k = None))
  /\ (sql_fault env' (tick w') = false ->
      fst_result (Database.get_post_count env' w') = Some (S (length (table w)))
      /\ forall pid, post_data !! "post_id" = Some (VStr pid) ->
           fst_result (Database.post_exists env' pid w') = Some true).
Proof.
  intros _ Hadd.
  destruct (add_post_outcome env post_data w) as (b & E & _).
  rewrite E in Hadd. destruct b; [|discriminate Hadd].
  inversion Hadd; subst w'; clear Hadd E. split.
  - exists (Database.new_row post_data). split; [reflexivity|]. split.
    + intros k v. apply new_row_column.
    + apply new_row_other.
  - intros Hf. rewrite get_post_count_run, Hf. cbn [fst_result table]. split.
    + rewrite length_app. cbn [length]. f_equal. lia.
    + intros pid Hp. rewrite post_exists_run, Hf. cbn [fst_result table].
      f_equal. rewrite existsb_app. cbn [existsb].
      replace (Database.has_id pid (Database.new_row post_data)) with true;
        [now rewrite orb_true_r|].
      symmetry. apply bool_decide_eq_true_2.
      apply new_row_column; [|exact Hp].
      apply list_elem_of_In. simpl. tauto.
Qed.

Lemma stored_row_accepted :
  Database.add_post Sample.quiet Sample.stored_row Sample.empty_store
  = (Ret true, World [Database.new_row Sample.stored_row] 1000 [] 1).
Proof.
  rewrite add_post_run. cbn [Sample.quiet sql_fault Sample.empty_store table tick].
  rewrite (insert_row_fresh _ _ "-12345_67890"); [reflexivity | ..];
    try (vm_compute; discriminate); reflexivity.
Qed.

Lemma add_post_then_found_witness :
  (exists row : dict,
     [Database.new_row Sample.stored_row] = [row]
     /\ row !! "likes" = Some (VInt 2))
  /\ fst_result (Database.post_exists Sample.quiet "-12345_67890"
                   (World [Database.new_row Sample.stored_row] 1000 [] 1))
     = Some true.
Proof.
  destruct (add_post_then_found Sample.quiet Sample.quiet Sample.stored_row
              Sample.empty_store _ stored_row_storable stored_row_accepted)
    as ((row & Ht & Hcol & _) & Hread).
  split.
  - exists row. split; [exact Ht|]. apply Hcol; [|reflexivity].
    apply list_elem_of_In. unfold Database.columns. cbn [In]. tauto.
  - apply Hread; reflexivity.
Defined.
Lemma ascii_compare_trans a b c o :
  Ascii.compare a b = o -> Ascii.compare b c = o -> Ascii.compare a c = o.
Proof.
  unfold Ascii.compare. destruct o; intros H1 H2.
  - apply N.compare_eq in H1, H2. rewrite H1, H2. apply N.compare_refl.
  - apply N.compare_lt_iff in H1. apply N.compare_lt_iff in H2.
    apply N.compare_lt_iff. eapply N.lt_trans; eauto.
  - apply N.compare_gt_iff in H1. apply N.compare_gt_iff in H2.
    apply N.compare_gt_iff. eapply N.lt_trans; eauto.
Qed.

Lemma string_compare_lt_trans s1 s2 s3 :
  String.compare s1 s2 <> Gt -> String.compare s2 s3 <> Gt ->
  String.compare s1 s3 <> Gt.
Proof.
  revert s2 s3. induction s1 as [|a s1 IH]; intros [|b s2] [|c s3]; simpl;
    try congruence.
  destruct (Ascii.compare a b) eqn:Hab; try congruence;
    destruct (Ascii.compare b c) eqn:Hbc; try congruence; intros H1 H2.
  - apply Ascii.compare_eq_iff in Hab, Hbc. subst.
    replace (Ascii.compare c c) with Eq
      by (symmetry; unfold Ascii.compare; apply N.compare_refl).
    eauto.
  - apply Ascii.compare_eq_iff in Hab. subst. now rewrite Hbc.
  - apply Ascii.compare_eq_iff in Hbc. subst. now rewrite Hab.
  - now rewrite (ascii_compare_trans a b c Lt Hab Hbc).
Qed.

Lemma string_leb_trans s1 s2 s3 :
  String.leb s1 s2 = true -> String.leb s2 s3 = true -> String.leb s1 s3 = true.
Proof.
  unfold String.leb. intros H1 H2.
  pose proof (string_compare_lt_trans s1 s2 s3) as H.
  destruct (String.compare s1 s2), (String.compare s2 s3), (String.compare s1 s3);
    try reflexivity; try discriminate; exfalso; apply H; congruence.
Qed.

Lemma value_leb_total a b :
  Database.value_leb a b = true \/ Database.value_leb b a = true.
Proof.
  destruct a as [|x|x], b as [|y|y]; simpl; auto.
  - destruct (Z.leb_spec x y); auto. right. apply Z.leb_le. lia.
  - apply String.leb_total.
Qed.

Lemma value_leb_trans a b c :
  Database.value_leb a b = true -> Database.value_leb b c = true ->
  Database.value_leb a c = true.
Proof.
  destruct a as [|x|x], b as [|y|y], c as [|z|z]; simpl; try congruence.
  - rewrite !Z.leb_le. lia.
  - apply string_leb_trans.
Qed.

#[local] Instance newer_first_total : Total Database.newer_first.
Proof. intros r1 r2. unfold Database.newer_first. apply value_leb_total. Qed.

#[local] Instance newer_first_trans : Transitive Database.newer_first.
Proof.
  intros r1 r2 r3. unfold Database.newer_first. intros H1 H2.
  eapply value_leb_trans; eauto.
Qed.

(** [get_all_posts] never raises and never writes.  When the storage
    answers it returns the rows of the table, each as often as it is
    stored, every row before all rows published earlier, and the count
    query gives the length of that list; when the storage fails both
    queries answer as for an empty table. *)
Theorem get_all_posts_newest_first env w :
  exists posts,
    Database.get_all_posts env w = (Ret posts, tock w)
    /\ Database.get_post_count env w = (Ret (length posts), tock w)
    /\ (sql_fault env (tick w) = true -> posts = [])
    /\ (sql_fault env (tick w) = false ->
        posts ≡ₚ table w /\ StronglySorted Database.newer_first posts).
Proof.
  rewrite get_all_posts_run, get_post_count_run.
  destruct (sql_fault env (tick w)).
  - exists []. repeat split; auto; discriminate.
  - exists (merge_sort Database.newer_first (table w)).
    pose proof (merge_sort_Permutation Database.newer_first (table w)) as Hp.
    split; [reflexivity|]. split; [now rewrite (Permutation_length Hp)|].
    split; [discriminate|]. intros _. split; [exact Hp|].
    apply StronglySorted_merge_sort; apply _.
Qed.

Lemma between_spec start_date end_date (r : dict) :
  Database.between start_date end_date r = true
  <-> exists d, r !! "date_published" = Some (VInt d)
                /\ start_date <= d <= end_date.
Proof.
  unfold Database.between, get.
  destruct (r !! "date_published") as [[|d|s]|]; simpl; split;
    try discriminate; try (intros (d' & [=] & _); fail).
  - intros H. apply andb_true_iff in H as [H1 H2].
    apply Z.leb_le in H1, H2. eauto.
  - intros (d' & [= <-] & H1 & H2). apply andb_true_iff.
    split; now apply Z.leb_le.
Qed.

(** [get_posts_by_date_range] with bounds that fit an SQLite integer,
    over a storage that answers: it returns exactly the stored rows
    whose [date_published] is an integer between the two bounds, both
    included, each as often as it is stored and newest first; with the
    bounds in the wrong order that is no row.  It writes nothing. *)
Theorem date_range_selects env start_date end_date w :
  Database.fits_integer start_date = true ->
  Database.fits_integer end_date = true ->
  sql_fault env (tick w) = false ->
  exists posts,
    Database.get_posts_by_date_range env start_date end_date w
    = (Ret posts, tock w)
    /\ posts ≡ₚ List.filter (Database.between start_date end_date) (table w)
    /\ (forall r : dict,
          r ∈ posts <->
          r ∈ table w
          /\ exists d, r !! "date_published" = Some (VInt d)
                       /\ start_date <= d <= end_date)
    /\ StronglySorted Database.newer_first posts
    /\ (end_date < start_date -> posts = []).
Proof.
  intros Hs He Hf. rewrite get_posts_by_date_range_run, Hf, Hs, He. simpl.
  set (hits := List.filter (Database.between start_date end_date) (table w)).
  pose proof (merge_sort_Permutation Database.newer_first hits) as Hp.
  exists (merge_sort Database.newer_first hits).
  split; [reflexivity|]. split; [exact Hp|]. split; [|split].
  - intros r. rewrite Hp. unfold hits.
    rewrite list_elem_of_In, filter_In, <- list_elem_of_In.
    now rewrite between_spec.
  - apply StronglySorted_merge_sort; apply _.
  - intros Hlt.
    assert (Hnil : hits = []).
    { unfold hits. clear -Hlt. induction (table w) as [|r t IH]; [reflexivity|].
      simpl. destruct (Database.between start_date end_date r) eqn:E; [|exact IH].
      apply between_spec in E as (d & _ & H). lia. }
    rewrite Hnil. reflexivity.
Qed.

Lemma date_range_selects_witness :
  exists posts,
    Database.get_posts_by_date_range Sample.quiet 86400 172800 Sample.two_days
    = (Ret posts, tock Sample.two_days)
    /\ forall r : dict,
         r ∈ posts <->
         r ∈ table Sample.two_days
         /\ exists d, r !! "date_published" = Some (VInt d)
                      /\ 86400 <= d <= 172800.
Proof.
  destruct (date_range_selects Sample.quiet 86400 172800 Sample.two_days
              eq_refl eq_refl eq_refl) as (posts & E & _ & Hin & _).
  exists posts. split; [exact E | exact Hin].
Defined.

(** A bound outside the 64 bits of an SQLite integer is refused by the
    driver: the query raises [OverflowError] to its caller, which the
    handler for storage errors does not catch. *)
Lemma date_range_overflow env start_date end_date w :
  sql_fault env (tick w) = false ->
  (Database.fits_integer start_date && Database.fits_integer end_date)%bool = false ->
  Database.get_posts_by_date_range env start_date end_date w
  = (Raise OverflowError, tock w).
Proof.
  intros Hf Hb. now rewrite get_posts_by_date_range_run, Hf, Hb.
Qed.

(* ------------------------------------------------------------------ *)
(** ** The VK client: what is asked, and the lookups *)
(* ------------------------------------------------------------------ *)

Section LookupFacts.
Import VKAPIClient.
Variable env : environment.

Lemma get_group_info_answer group_id w :
  get_group_info env group_id w =
  match groups_getById env (tick w) group_id with
  | Response (group :: _) =>
      (Ret (Some (default "Unknown Group" group)), after_call "groups.getById" true w)
  | Response [] | ApiFailure _ | HttpFailure =>
      (Ret None, after_call "groups.getById" true w)
  | Crash => (Raise RuntimeError, after_call "groups.getById" false w)
  end.
Proof.
  unfold get_group_info, try_except, bind, request.
  destruct (groups_getById _ _ _) as [[|g rest]| | |]; reflexivity.
Qed.

Lemma get_user_info_answer user_id w :
  get_user_info env user_id w =
  match users_get env (tick w) user_id with
  | Response (user :: _) =>
      (Ret (Some (PyStr.strip (default "" (first_name user) ++ " "
                               ++ default "" (last_name user)))),
       after_call "users.get" true w)
  | Response [] | ApiFailure _ | HttpFailure =>
      (Ret None, after_call "users.get" true w)
  | Crash => (Raise RuntimeError, after_call "users.get" false w)
  end.
Proof.
  unfold get_user_info, try_except, bind, request.
  destruct (users_get _ _ _) as [[|g rest]| | |]; reflexivity.
Qed.

End LookupFacts.

(** [search_posts] sends one search request.  Its query is the
    hashtag of the caller, with a [#] put in front when the caller left
    it out, and the count it asks for is the count of the caller, or 200
    when that is more; so the query starts with [#] and the count is at
    most 200.  It returns the items of the answer, or the empty list when
    the request is refused.  Hence a hashtag given without [#] is
    searched as the same hashtag given with it, and a count above 200 as
    200. *)
Theorem search_posts_normalises env hashtag count w :
  VKAPIClient.search_posts env hashtag count w
  = match newsfeed_search env (tick w)
            (if PyStr.startswith "#" hashtag then hashtag else "#" ++ hashtag)
            (if count <=? 200 then count else 200) with
    | Response items =>
        (Ret (default [] items), VKAPIClient.after_call "newsfeed.search" true w)
    | ApiFailure _ | HttpFailure =>
        (Ret [], VKAPIClient.after_call "newsfeed.search" false w)
    | Crash =>
        (Raise RuntimeError, VKAPIClient.after_call "newsfeed.search" false w)
    end
  /\ PyStr.startswith "#"
       (if PyStr.startswith "#" hashtag then hashtag else "#" ++ hashtag) = true
  /\ (if count <=? 200 then count else 200) <= 200
  /\ (PyStr.startswith "#" hashtag = false ->
      VKAPIClient.search_posts env hashtag count w
      = VKAPIClient.search_posts env ("#" ++ hashtag) count w)
  /\ (200 <= count ->
      VKAPIClient.search_posts env hashtag count w
      = VKAPIClient.search_posts env hashtag 200 w).
Proof.
  assert (Hmin : forall c, Z.min c 200 = if c <=? 200 then c else 200).
  { intros c. destruct (Z.leb_spec c 200); lia. }
  split; [|split; [|split; [|split]]].
  - rewrite search_posts_run, Hmin. reflexivity.
  - destruct (PyStr.startswith "#" hashtag) eqn:E; [exact E | reflexivity].
  - destruct (Z.leb_spec count 200); lia.
  - intros H. rewrite !search_posts_run, H. reflexivity.
  - intros H. rewrite !search_posts_run.
    rewrite (Z.min_r count 200) by lia. reflexivity.
Qed.

(* ------------------------------------------------------------------ *)
(** ** The parser: the video of a post, and the record of a post *)
(* ------------------------------------------------------------------ *)

Section VideoFacts.
Import VKPostParser.

Lemma first_video_none attachments (video_info : dict) :
  Forall (fun a => a_type a <> Some "video") attachments ->
  first_video attachments video_info = video_info.
Proof.
  induction 1 as [|a rest Ha _ IH]; simpl; [reflexivity|].
  now rewrite bool_decide_eq_false_2.
Qed.

Lemma first_video_found pre a rest (video_info : dict) :
  Forall (fun b => a_type b <> Some "video") pre ->
  a_type a = Some "video" ->
  first_video (pre ++ a :: rest) video_info
  = <[ "video_title" := of_opt_str (v_title (default (Video None None None) (a_video a))) ]>
      (<[ "video_duration" := of_opt_int (v_duration (default (Video None None None) (a_video a))) ]>
         (<[ "video_views" := VInt (default 0 (v_views (default (Video None None None) (a_video a)))) ]>
            (<[ "has_video" := VInt 1 ]> video_info))).
Proof.
  intros Hpre Ha. induction Hpre as [|b pre Hb _ IH]; simpl.
  - now rewrite bool_decide_eq_true_2.
  - now rewrite bool_decide_eq_false_2.
Qed.

(** A list of attachments has no video, or a first one. *)
Lemma first_video_split (attachments : list attachment) :
  Forall (fun a => a_type a <> Some "video") attachments
  \/ exists pre a rest,
       attachments = (pre ++ a :: rest)%list
       /\ Forall (fun b => a_type b <> Some "video") pre
       /\ a_type a = Some "video".
Proof.
  induction attachments as [|a l IH]; [left; constructor|].
  destruct (decide (a_type a = Some "video")) as [Ha | Ha].
  - right. exists [], a, l. repeat split; auto.
  - destruct IH as [IH | (pre & b & rest & -> & Hpre & Hb)].
    + left. now constructor.
    + right. exists (a :: pre), b, rest. repeat split; auto.
Qed.

Lemma video_fields (x y z u : value) :
  (<[ "video_title" := u ]>
     (<[ "video_duration" := z ]>
        (<[ "video_views" := y ]> (<[ "has_video" := x ]> no_video))) : dict)
  = {[ "has_video" := x; "video_views" := y; "video_duration" := z;
       "video_title" := u ]}.
Proof.
  apply map_eq. intros k.
  destruct (decide (k = "has_video")) as [-> | H1]; [reflexivity|].
  destruct (decide (k = "video_views")) as [-> | H2]; [reflexivity|].
  destruct (decide (k = "video_duration")) as [-> | H3]; [reflexivity|].
  destruct (decide (k = "video_title")) as [-> | H4]; [reflexivity|].
  unfold no_video. rewrite !lookup_insert_ne by congruence.
  now rewrite !lookup_singleton_ne by congruence.
Qed.

Lemma extract_video_info_cases post :
  extract_video_info post = no_video
  \/ exists video,
       extract_video_info post
       = {[ "has_video" := VInt 1;
            "video_views" := VInt (default 0 (v_views video));
            "video_duration" := of_opt_int (v_duration video);
            "video_title" := of_opt_str (v_title video) ]}.
Proof.
  unfold extract_video_info.
  destruct (default [] (p_attachments post)) as [|a l] eqn:E; [now left|].
  destruct (first_video_split (a :: l)) as [Hnone | (pre & b & rest & -> & Hpre & Hb)].
  - left. now apply first_video_none.
  - right. exists (default (Video None None None) (a_video b)).
    rewrite first_video_found by assumption. apply video_fields.
Qed.

End VideoFacts.

(** [extract_video_info] reports the first attachment of type [video]
    and nothing after it: a post with no such attachment has
    [has_video = 0], no views, no duration and no title; otherwise
    [has_video = 1] and the three fields are those of the first video,
    with 0 views and no duration or title where the video, or the
    attachment's [video] entry as a whole, does not give them. *)
Theorem extract_video_info_first post :
  (Forall (fun a => a_type a <> Some "video") (default [] (p_attachments post)) ->
   VKPostParser.extract_video_info post
   = {[ "has_video" := VInt 0; "video_views" := VInt 0;
        "video_duration" := VNone; "video_title" := VNone ]})
  /\ (forall pre a rest,
        p_attachments post = Some (pre ++ a :: rest)%list ->
        Forall (fun b => a_type b <> Some "video") pre ->
        a_type a = Some "video" ->
        VKPostParser.extract_video_info post
        = {[ "has_video" := VInt 1;
             "video_views" :=
               VInt (default 0 (v_views (default (Video None None None) (a_video a))));
             "video_duration" :=
               of_opt_int (v_duration (default (Video None None None) (a_video a)));
             "video_title" :=
               of_opt_str (v_title (default (Video None None None) (a_video a))) ]}).
Proof.
  split.
  - intros Hnone. unfold VKPostParser.extract_video_info.
    destruct (default [] (p_attachments post)); [reflexivity|].
    now apply first_video_none.
  - intros pre a rest Hatt Hpre Ha. unfold VKPostParser.extract_video_info.
    rewrite Hatt. cbn [from_option id].
    destruct (pre ++ a :: rest)%list eqn:E; [now destruct pre|].
    rewrite <- E, first_video_found by assumption. apply video_fields.
Qed.

Lemma parse_post_data_value env post source_type owner_name hashtag w :
  VKPostParser.parse_post_data env post source_type owner_name hashtag w
  = (Ret (parsed_at post source_type owner_name hashtag
            (clock w + Z.of_nat (elapsed env (tick w)))),
     World (table w) (clock w + Z.of_nat (elapsed env (tick w))) (journal w)
           (S (tick w))).
Proof. reflexivity. Qed.

Lemma parse_metrics_value env post w :
  VKPostParser.parse_metrics env post w
  = (Ret (metrics_at post (clock w + Z.of_nat (elapsed env (tick w)))),
     World (table w) (clock w + Z.of_nat (elapsed env (tick w))) (journal w)
           (S (tick w))).
Proof. reflexivity. Qed.

Lemma parsed_at_dom post source_type owner_name hashtag t :
  dom (parsed_at post source_type owner_name hashtag t)
  = list_to_set Database.columns.
Proof.
  unfold parsed_at, VKPostParser._extract_metrics.
  destruct (extract_video_info_cases post) as [E | (video & E)]; rewrite E;
    apply (bool_decide_unpack _); vm_compute; exact I.
Qed.

Lemma new_row_full (pd : dict) :
  dom pd = list_to_set Database.columns -> Database.new_row pd = pd.
Proof.
  intros Hdom. apply map_eq. intros k.
  destruct (decide (k ∈ Database.columns)) as [Hk | Hk].
  - assert (Hin : k ∈ dom pd) by (rewrite Hdom; now apply elem_of_list_to_set).
    apply elem_of_dom in Hin as (v & Hv). rewrite Hv.
    now apply new_row_column.
  - rewrite new_row_other by exact Hk. symmetry. apply not_elem_of_dom.
    rewrite Hdom. now rewrite elem_of_list_to_set.
Qed.

(** The record that [parse_post_data] builds has the eighteen columns
    of the table as its keys, no more and no fewer, so [add_post] binds
    no default and drops nothing: the row it inserts is the record
    itself. *)
Theorem parsed_post_stored_verbatim env post source_type owner_name hashtag w :
  exists (post_data : dict) w',
    VKPostParser.parse_post_data env post source_type owner_name hashtag w
    = (Ret post_data, w')
    /\ dom post_data = list_to_set Database.columns
    /\ Database.new_row post_data = post_data
    /\ forall env' w1 w2,
         Database.add_post env' post_data w1 = (Ret true, w2) ->
         table w2 = (table w1 ++ [post_data])%list.
Proof.
  rewrite parse_post_data_value. eexists _, _. split; [reflexivity|].
  pose proof (parsed_at_dom post source_type owner_name hashtag
                (clock w + Z.of_nat (elapsed env (tick w)))) as Hdom.
  split; [exact Hdom|]. split; [now apply new_row_full|].
  intros env' w1 w2 Hadd.
  destruct (add_post_outcome env' (parsed_at post source_type owner_name hashtag
                                     (clock w + Z.of_nat (elapsed env (tick w)))) w1)
    as (b & E & _).
  rewrite E in Hadd. destruct b; [|discriminate Hadd].
  inversion Hadd; subst w2. cbn [table]. now rewrite new_row_full.
Qed.

(* ------------------------------------------------------------------ *)
(** ** The collector: what a run does to the table and the journal *)
(* ------------------------------------------------------------------ *)

Lemma str_of_int_not_empty n : PyStr.str_of_int n <> "".
Proof.
  intros H. pose proof (int_of_str_of_int n) as Hr. rewrite H in Hr.
  discriminate Hr.
Qed.

Lemma paced_app ms1 ms2 : paced (ms1 ++ ms2) = (paced ms1 ++ paced ms2)%list.
Proof. unfold paced. apply flat_map_app. Qed.

Section IngestEffect.
Variable env : environment.

(** The outcome of [_get_owner_info]: the kind follows the sign of the
    id, the name is the one the service gave if it gave one that is
    not empty, and a stand-in made from the id otherwise. *)
Lemma get_owner_info_effect owner w :
  let method := if owner <? 0 then "groups.getById" else "users.get" in
  let stand_in := if owner <? 0 then "Group " ++ PyStr.str_of_int (Z.abs owner)
                  else "User " ++ PyStr.str_of_int owner in
  (exists name,
     VKCollector._get_owner_info env owner w
     = (Ret (source_kind owner, name), VKAPIClient.after_call method true w)
     /\ name <> ""
     /\ ((if owner <? 0
          then forall g rest, groups_getById env (tick w) (Z.abs owner)
                              <> Response (g :: rest)
          else forall u rest, users_get env (tick w) owner <> Response (u :: rest))
         -> name = stand_in))
  \/ (VKCollector._get_owner_info env owner w
      = (Raise RuntimeError, VKAPIClient.after_call method false w)
      /\ if owner <? 0 then groups_getById env (tick w) (Z.abs owner) = Crash
         else users_get env (tick w) owner = Crash).
Proof.
  unfold VKCollector._get_owner_info, source_kind, bind. cbv zeta.
  destruct (owner <? 0).
  - rewrite get_group_info_answer.
    destruct (groups_getById env (tick w) (Z.abs owner)) as [[|g rest]| | |];
      try (left; eexists; split; [reflexivity|]; split;
           [discriminate | reflexivity]).
    + left. destruct g as [[|c s]|]; simpl; eexists;
        (split; [reflexivity|]); (split; [discriminate|]);
        intros H; now destruct (H _ _ eq_refl).
    + right. split; reflexivity.
  - rewrite get_user_info_answer.
    destruct (users_get env (tick w) owner) as [[|u rest]| | |];
      try (left; eexists; split; [reflexivity|]; split;
           [discriminate | reflexivity]).
    + left.
      destruct (PyStr.strip _) as [|c s]; eexists;
        (split; [reflexivity|]); (split; [discriminate|]);
        intros H; now destruct (H _ _ eq_refl).
    + right. split; reflexivity.
Qed.

Lemma filed_from_filed posts hashtag t0 t1 row :
  filed_from posts hashtag t0 t1 row -> filed row.
Proof.
  intros (post & owner & name & t & _ & Hid & Ho & Hname & _ & ->).
  exists post, owner, name, hashtag, t. auto.
Qed.

Lemma filed_from_wider posts posts' hashtag t0 t1 t0' t1' row :
  (forall post, post ∈ posts -> post ∈ posts') -> t0' <= t0 -> t1 <= t1' ->
  filed_from posts hashtag t0 t1 row -> filed_from posts' hashtag t0' t1' row.
Proof.
  intros Hsub H0 H1 (post & owner & name & t & Hin & Hid & Ho & Hname & Ht & ->).
  exists post, owner, name, t. repeat split; auto; lia.
Qed.

Lemma process_new_post_effect post hashtag w :
  exists (b : bool) w' ms,
    VKCollector.process_new_post env post hashtag w = (Ret b, w')
    /\ (if b then exists row,
               filed_from [post] hashtag (clock w) (clock w') row
               /\ table w' = (table w ++ [row])%list
        else table w' = table w)
    /\ clock w <= clock w'
    /\ (length ms <= 1)%nat
    /\ Forall (fun m => m = "groups.getById" \/ m = "users.get") ms
    /\ (orderly env -> journal w' = (journal w ++ paced ms)%list).
Proof.
  unfold VKCollector.process_new_post, try_except.
  destruct (py_or (p_owner_id post) (p_from_id post)) as [owner|] eqn:Ho.
  2:{ exists false, w, []. repeat split; auto; [lia|]. intros _. simpl.
      now rewrite app_nil_r. }
  destruct (negb (truthy (Some owner)) || negb (truthy (p_id post)))%bool eqn:Hid.
  { exists false, w, []. repeat split; auto; [lia|]. intros _. simpl.
    now rewrite app_nil_r. }
  assert (Hv : identified post = true).
  { unfold identified. rewrite Ho. apply orb_false_iff in Hid as [H1 H2].
    apply negb_false_iff in H1, H2. now rewrite H1, H2. }
  unfold bind.
  destruct (get_owner_info_effect owner w) as [(name & -> & Hname & _) | (-> & Hcrash)].
  - rewrite parse_post_data_value.
    set (w1 := VKAPIClient.after_call _ true w).
    set (t := clock w1 + Z.of_nat (elapsed env (tick w1))).
    set (w2 := World (table w1) t (journal w1) (S (tick w1))).
    destruct (add_post_outcome env (parsed_at post (source_kind owner) name hashtag t) w2)
      as (b & -> & _).
    assert (Hm : Forall (fun m => m = "groups.getById" \/ m = "users.get")
                   [if owner <? 0 then "groups.getById" else "users.get"]).
    { constructor; [|constructor]. destruct (owner <? 0); auto. }
    assert (Hclock : clock w <= t) by (unfold t, w1; simpl; lia).
    destruct b.
    + exists true. eexists.
      exists [if owner <? 0 then "groups.getById" else "users.get"].
      split; [reflexivity|]. split; [|split; [|split; [|split]]]; auto.
      * eexists. split; [|reflexivity].
        exists post, owner, name, t.
        split; [left|]. split; [exact Hv|]. split; [exact Ho|].
        split; [exact Hname|]. split; [|reflexivity].
        cbn [clock w2]. lia.
      * intros _. simpl. now rewrite <- app_assoc.
    + exists false. eexists.
      exists [if owner <? 0 then "groups.getById" else "users.get"].
      split; [reflexivity|]. split; [|split; [|split; [|split]]]; auto.
      intros _. simpl. now rewrite <- app_assoc.
  - exists false. eexists. exists []. split; [reflexivity|].
    split; [reflexivity|]. split; [simpl; lia|].
    split; [simpl; lia|]. split; [constructor|].
    intros (_ & _ & Hg & Hu). exfalso.
    destruct (owner <? 0); [now apply Hg in Hcrash | now apply Hu in Hcrash].
Qed.

#[local] Abbreviation collect_step hashtag :=
  (fun post added_count =>
     try_except
       (let owner_id := py_or (p_owner_id post) (p_from_id post) in
        let post_id := p_id post in
        if (negb (truthy owner_id) || negb (truthy post_id))%bool
        then ret added_count
        else
          let unique_post_id := VKPostParser.parse_post_id owner_id post_id in
          let* known := Database.post_exists env unique_post_id in
          if known then ret added_count
          else
            let* added := VKCollector.process_new_post env post hashtag in
            if added then ret (S added_count) else ret added_count)
       [ (Exception, ret added_count) ]).

Lemma collect_step_effect hashtag post n w :
  exists n' w' rows ms,
    collect_step hashtag post n w = (Ret n', w')
    /\ table w' = (table w ++ rows)%list
    /\ Forall (filed_from [post] hashtag (clock w) (clock w')) rows
    /\ clock w <= clock w'
    /\ n' = (n + length rows)%nat
    /\ (length ms <= 1)%nat
    /\ Forall (fun m => m = "groups.getById" \/ m = "users.get") ms
    /\ (orderly env -> journal w' = (journal w ++ paced ms)%list).
Proof.
  unfold try_except. cbv zeta.
  destruct (negb (truthy (py_or (p_owner_id post) (p_from_id post)))
            || negb (truthy (p_id post)))%bool.
  { exists n, w, [], []. simpl. rewrite !app_nil_r.
    repeat split; auto. lia. }
  unfold bind. rewrite post_exists_run.
  assert (Hnew :
            exists n' w' rows ms,
              (let (r, w1) :=
                 let (r, w1) := VKCollector.process_new_post env post hashtag (tock w) in
                 match r with
                 | Ret a => (if a then ret (S n) else ret n) w1
                 | Raise e => (Raise e, w1)
                 end in
               match r with
               | Ret a => (Ret a, w1)
               | Raise e => handle [(Exception, ret n)] e w1
               end) = (Ret n', w')
              /\ table w' = (table w ++ rows)%list
              /\ Forall (filed_from [post] hashtag (clock w) (clock w')) rows
              /\ clock w <= clock w'
              /\ n' = (n + length rows)%nat
              /\ (length ms <= 1)%nat
              /\ Forall (fun m => m = "groups.getById" \/ m = "users.get") ms
              /\ (orderly env -> journal w' = (journal w ++ paced ms)%list)).
  { destruct (process_new_post_effect post hashtag (tock w))
      as (b & w' & ms & -> & Ht & Hc & Hlen & Hms & Hj).
    cbn [tock clock table journal] in *.
    destruct b.
    - destruct Ht as (row & Hrow & Ht).
      exists (S n), w', [row], ms. split; [reflexivity|].
      split; [exact Ht|]. split; [repeat constructor; exact Hrow|].
      split; [exact Hc|]. split; [simpl; lia|]. auto.
    - exists n, w', [], ms. split; [reflexivity|].
      split; [now rewrite app_nil_r|]. split; [constructor|].
      split; [exact Hc|]. split; [simpl; lia|]. auto. }
  destruct (sql_fault env (tick w)); [exact Hnew|].
  destruct (existsb _ (table w)) eqn:Hex; [|exact Hnew].
  eexists n, _, [], []. split; [reflexivity|]. simpl. rewrite !app_nil_r.
  split; [reflexivity|]. split; [constructor|]. split; [lia|].
  split; [lia|]. split; [lia|]. split; [constructor|]. auto.
Qed.

Lemma collect_loop_effect hashtag posts n w :
  exists n' w' rows ms,
    for_each posts (collect_step hashtag) n w = (Ret n', w')
    /\ table w' = (table w ++ rows)%list
    /\ Forall (filed_from posts hashtag (clock w) (clock w')) rows
    /\ clock w <= clock w'
    /\ n' = (n + length rows)%nat
    /\ (length ms <= length posts)%nat
    /\ Forall (fun m => m = "groups.getById" \/ m = "users.get") ms
    /\ (orderly env -> journal w' = (journal w ++ paced ms)%list).
Proof.
  revert n w. induction posts as [|post posts IH]; intros n w.
  - exists n, w, [], []. simpl. rewrite !app_nil_r. repeat split; auto. lia.
  - rewrite for_each_cons.
    destruct (collect_step_effect hashtag post n w)
      as (n1 & w1 & rows1 & ms1 & E & Ht1 & Hf1 & Hc1 & Hn1 & Hl1 & Hm1 & Hj1).
    cbv beta in E |- *. rewrite E.
    destruct (IH n1 w1)
      as (n' & w' & rows & ms & E' & Ht & Hf & Hc & Hn & Hl & Hm & Hj).
    exists n', w', (rows1 ++ rows)%list, (ms1 ++ ms)%list.
    split; [exact E'|]. split; [now rewrite Ht, Ht1, app_assoc|].
    split.
    { apply Forall_app. split.
      - eapply Forall_impl; [exact Hf1|]. intros row.
        apply filed_from_wider; [|lia|lia].
        intros q Hq. apply list_elem_of_singleton in Hq as ->. left.
      - eapply Forall_impl; [exact Hf|]. intros row.
        apply filed_from_wider; [|lia|lia].
        intros q Hq. now right. }
    split; [lia|].
    split; [rewrite length_app; lia|].
    split; [rewrite length_app; simpl; lia|].
    split; [now apply Forall_app|].
    intros Ho. now rewrite Hj, Hj1, paced_app, app_assoc.
Qed.

End IngestEffect.

Lemma collect_new_posts_effect env hashtag w :
  exists r w' rows ms,
    VKCollector.collect_new_posts env hashtag w = (r, w')
    /\ table w' = (table w ++ rows)%list
    /\ Forall filed rows
    /\ match r with
       | Ret added => length rows = added
       | Raise e => e = RuntimeError /\ rows = []
       end
    /\ Forall (fun m => m = "groups.getById" \/ m = "users.get") ms
    /\ forall items,
         orderly env ->
         (forall q c, newsfeed_search env (tick w) q c = Response items) ->
         journal w' = (journal w ++ paced ("newsfeed.search" :: ms))%list
         /\ (length ms <= length (default [] items))%nat.
Proof.
  rewrite collect_new_posts_run, search_posts_run.
  destruct (newsfeed_search env (tick w) _ _) as [items| | |] eqn:Hs.
  - destruct (default [] items) as [|post posts] eqn:Hitems.
    + exists (Ret 0%nat). eexists. exists [], []. split; [reflexivity|].
      simpl. rewrite app_nil_r. repeat split; auto.
      * now rewrite <- app_assoc.
      * lia.
    + destruct (collect_loop_effect env hashtag (post :: posts) 0%nat
                  (VKAPIClient.after_call "newsfeed.search" true w))
        as (n' & w' & rows & ms & E & Ht & Hf & _ & Hn & Hl & Hm & Hj).
      exists (Ret n'), w', rows, ms. split; [exact E|].
      split; [exact Ht|].
      split; [eapply Forall_impl; [exact Hf|]; apply filed_from_filed|].
      split; [simpl in Hn; lia|].
      split; [exact Hm|]. intros items' Ho Hall. split.
      * rewrite (Hj Ho). cbn [VKAPIClient.after_call journal].
        rewrite <- !app_assoc. reflexivity.
      * rewrite Hall in Hs. inversion Hs; subst items'. now rewrite Hitems.
  - exists (Ret 0%nat). eexists. exists [], []. split; [reflexivity|].
    simpl. rewrite app_nil_r. repeat split; auto;
      rewrite H0 in Hs; discriminate Hs.
  - exists (Ret 0%nat). eexists. exists [], []. split; [reflexivity|].
    simpl. rewrite app_nil_r. repeat split; auto;
      rewrite H0 in Hs; discriminate Hs.
  - exists (Raise RuntimeError). eexists. exists [], []. split; [reflexivity|].
    simpl. rewrite app_nil_r. repeat split; auto;
      rewrite H0 in Hs; discriminate Hs.
Qed.

(** A run of [collect_new_posts], in any environment, only appends to
    the table: the rows that were there stay as they were and where
    they were.  When the search is answered, the run returns the number
    of rows appended, and each of them is the record that
    [parse_post_data] builds, at a reading of the clock within the run
    and under the hashtag of the run, for one of the posts that the
    search found and that carries both identifiers, filed under the
    kind that the sign of the owner id gives and with a name that is
    not empty.  When the search is refused, the run returns 0 and
    appends nothing.  The run raises exactly when the search itself
    fails in a way the client does not handle, and then nothing is
    appended. *)
Theorem collect_new_posts_appends env hashtag w :
  exists r w' rows,
    VKCollector.collect_new_posts env hashtag w = (r, w')
    /\ table w' = (table w ++ rows)%list
    /\ clock w <= clock w'
    /\ match newsfeed_search env (tick w)
                (if PyStr.startswith "#" hashtag then hashtag else "#" ++ hashtag)
                100 with
       | Response items =>
           r = Ret (length rows)
           /\ Forall (filed_from (default [] items) hashtag (clock w) (clock w'))
                     rows
       | ApiFailure _ | HttpFailure => r = Ret 0%nat /\ rows = []
       | Crash => r = Raise RuntimeError /\ rows = []
       end.
Proof.
  rewrite collect_new_posts_run, search_posts_run.
  change (Z.min 100 200) with 100.
  destruct (newsfeed_search env (tick w) _ _) as [items| | |] eqn:Hs.
  - destruct (default [] items) as [|post posts] eqn:Hitems.
    + exists (Ret 0%nat). eexists. exists []. split; [reflexivity|].
      simpl. rewrite app_nil_r. repeat split; auto. lia.
    + destruct (collect_loop_effect env hashtag (post :: posts) 0%nat
                  (VKAPIClient.after_call "newsfeed.search" true w))
        as (n' & w' & rows & ms & E & Ht & Hf & Hc & Hn & _).
      exists (Ret n'), w', rows. split; [exact E|].
      split; [exact Ht|]. split; [exact Hc|].
      split; [f_equal; simpl in Hn; lia | exact Hf].
  - exists (Ret 0%nat). eexists. exists []. split; [reflexivity|].
    simpl. rewrite app_nil_r. repeat split; auto. lia.
  - exists (Ret 0%nat). eexists. exists []. split; [reflexivity|].
    simpl. rewrite app_nil_r. repeat split; auto. lia.
  - exists (Raise RuntimeError). eexists. exists []. split; [reflexivity|].
    simpl. rewrite app_nil_r. repeat split; auto. lia.
Qed.

(** When the search is answered and no request fails in a way the
    client does not handle, every request of an ingest run is followed
    by a pause: the search first, then at most one name lookup for each
    post found. *)
Theorem collect_new_posts_paced env hashtag w items :
  orderly env ->
  (forall q c, newsfeed_search env (tick w) q c = Response items) ->
  exists lookups,
    journal (snd (VKCollector.collect_new_posts env hashtag w))
    = (journal w ++ paced ("newsfeed.search" :: lookups))%list
    /\ Forall (fun m => m = "groups.getById" \/ m = "users.get") lookups
    /\ (length lookups <= length (default [] items))%nat.
Proof.
  intros Ho Hs.
  destruct (collect_new_posts_effect env hashtag w)
    as (r & w' & rows & ms & E & _ & _ & _ & Hm & Hj).
  rewrite E. exists ms. destruct (Hj items Ho Hs) as [Hj1 Hj2]. auto.
Qed.

Lemma orderly_busy : orderly Sample.busy.
Proof. repeat split; intros; discriminate. Qed.

Lemma collect_new_posts_paced_witness :
  exists lookups,
    journal (snd (VKCollector.collect_new_posts Sample.busy "tag" Sample.empty_store))
    = paced ("newsfeed.search" :: lookups)
    /\ (length lookups <= 2)%nat.
Proof.
  destruct (collect_new_posts_paced Sample.busy "tag" Sample.empty_store _
              orderly_busy (fun _ _ => eq_refl))
    as (lookups & Hj & _ & Hl).
  exists lookups. split; [exact Hj | exact Hl].
Defined.

(* ------------------------------------------------------------------ *)
(** ** The collector: what a refresh does *)
(* ------------------------------------------------------------------ *)

Lemma metrics_at_key post t k :
  is_Some (metrics_at post t !! k) -> k ∈ refreshed_columns.
Proof.
  intros Hk. destruct (decide (k ∈ refreshed_columns)) as [Hin | Hnot]; [exact Hin|].
  exfalso. unfold metrics_at in Hk. rewrite parse_metrics_no_key in Hk.
  - now destruct Hk.
  - intros ->. apply Hnot. apply list_elem_of_In. simpl. tauto.
  - intros Hin. apply Hnot. apply list_elem_of_In. apply list_elem_of_In in Hin.
    unfold VKPostParser.video_keys in Hin. simpl in *. tauto.
Qed.

Lemma refreshed_columns_are_columns k :
  k ∈ refreshed_columns -> Database.is_column k = true.
Proof.
  intros Hk. apply list_elem_of_In in Hk. simpl in Hk.
  repeat (destruct Hk as [<- | Hk]; [reflexivity|]). destruct Hk.
Qed.

Lemma metrics_at_other post t k :
  k ∉ refreshed_columns -> metrics_at post t !! k = None.
Proof.
  intros Hk. destruct (metrics_at post t !! k) eqn:E; [|reflexivity].
  exfalso. apply Hk. apply (metrics_at_key post t). now rewrite E.
Qed.

Lemma update_rows_metrics_at pid post t tbl :
  Database.update_rows pid (metrics_at post t) tbl
  = (Ret (length (List.filter (Database.has_id pid) tbl)),
     map (fun r => if Database.has_id pid r then update r (metrics_at post t) else r)
         tbl).
Proof.
  unfold Database.update_rows.
  rewrite bool_decide_eq_false_2.
  2:{ intros H. assert (Hl : metrics_at post t !! "last_updated" = None)
        by (rewrite H; apply lookup_empty).
      unfold metrics_at in Hl. rewrite lookup_insert_eq in Hl. discriminate Hl. }
  replace (forallb Database.is_column (map fst (map_to_list (metrics_at post t))))
    with true.
  2:{ symmetry. apply forallb_forall. intros k Hk.
      apply in_map_iff in Hk as ([k' v] & <- & Hin).
      apply list_elem_of_In, elem_of_map_to_list in Hin. simpl.
      apply refreshed_columns_are_columns, (metrics_at_key post t).
      now rewrite Hin. }
  cbn [negb].
  replace (Database.update_violates pid (metrics_at post t) tbl) with false.
  2:{ unfold Database.update_violates.
      rewrite !metrics_at_other;
        [reflexivity | ..];
        rewrite list_elem_of_In; simpl; intros H;
        repeat (destruct H as [H | H]; [discriminate H|]); exact H. }
  now rewrite andb_false_r.
Qed.

Lemma refreshed_trans r1 r2 r3 :
  refreshed r1 r2 -> refreshed r2 r3 -> refreshed r1 r3.
Proof.
  intros H12 H23. induction H23 as [r | r r' post t H IH]; [exact H12|].
  apply refreshed_again. now apply IH.
Qed.

Lemma refreshed_table_refl tbl : Forall2 refreshed tbl tbl.
Proof. induction tbl; constructor; [constructor | assumption]. Qed.

Lemma refreshed_table_trans t1 t2 t3 :
  Forall2 refreshed t1 t2 -> Forall2 refreshed t2 t3 -> Forall2 refreshed t1 t3.
Proof.
  intros H12. revert t3. induction H12; intros t3 H23; inversion H23; subst;
    constructor; eauto using refreshed_trans.
Qed.

Lemma refreshed_table_step pid post t tbl :
  Forall2 refreshed tbl
    (map (fun r => if Database.has_id pid r then update r (metrics_at post t) else r)
         tbl).
Proof.
  induction tbl as [|r tbl IH]; simpl; constructor; [|exact IH].
  destruct (Database.has_id pid r); repeat constructor.
Qed.

Lemma refreshed_identity r r' k :
  refreshed r r' -> k ∉ refreshed_columns -> r' !! k = r !! k.
Proof.
  intros H Hk. induction H; [reflexivity|].
  now rewrite update_lookup, metrics_at_other.
Qed.

Section RefreshEffect.
Variable env : environment.

(** [update_post_metrics], case by case. *)
Lemma update_post_metrics_run pid w :
  VKCollector.update_post_metrics env pid w =
  match fst (VKCollector.split_post_id pid w) with
  | Ret (VKCollector.Ids o p) =>
      match wall_getById env (tick w)
              (PyStr.str_of_int o ++ "_" ++ PyStr.str_of_int p) with
      | Response (post :: _) =>
          let w1 := VKAPIClient.after_call "wall.getById" true w in
          let t := clock w + Z.of_nat (elapsed env (S (tick w))) in
          if negb (post_truthy post) then (Ret false, w1)
          else if sql_fault env (S (S (tick w)))
          then (Ret false, World (table w) t (journal w1) (S (S (S (tick w)))))
          else
            (Ret (0 <? length (List.filter (Database.has_id pid) (table w)))%nat,
             World (map (fun r => if Database.has_id pid r
                                  then update r (metrics_at post t) else r)
                        (table w))
                   t (journal w1) (S (S (S (tick w)))))
      | Crash => (Ret false, VKAPIClient.after_call "wall.getById" false w)
      | _ => (Ret false, VKAPIClient.after_call "wall.getById" true w)
      end
  | _ => (Ret false, w)
  end.
Proof.
  unfold VKCollector.update_post_metrics, try_except, bind.
  destruct (split_post_id_pure pid w) as (r & ->). simpl fst.
  destruct r as [[|o p]|e]; [reflexivity | | ].
  2:{ simpl. now destruct (is_value_error e). }
  rewrite get_post_by_id_run.
  destruct (wall_getById _ _ _) as [[|post rest]| | |]; try reflexivity.
  cbv zeta. destruct (negb (post_truthy post)); [reflexivity|].
  rewrite parse_metrics_value, update_post_run.
  cbn [VKAPIClient.after_call table clock journal tick tock].
  destruct (sql_fault env (S (S (tick w)))); [reflexivity|].
  rewrite update_rows_metrics_at. now destruct (0 <? _)%nat.
Qed.

Lemma update_post_metrics_effect pid w :
  exists (b : bool) w' ms,
    VKCollector.update_post_metrics env pid w = (Ret b, w')
    /\ Forall2 refreshed (table w) (table w')
    /\ (ms = [] \/ ms = ["wall.getById"])
    /\ ((forall n q, wall_getById env n q <> Crash) ->
        journal w' = (journal w ++ paced ms)%list).
Proof.
  rewrite update_post_metrics_run.
  destruct (fst (VKCollector.split_post_id pid w)) as [[|o p]|e].
  1,3: exists false, w, []; split; [reflexivity|];
       split; [apply refreshed_table_refl|]; split; [auto|];
       intros _; simpl; now rewrite app_nil_r.
  destruct (wall_getById env (tick w) _) as [[|post rest]| | |] eqn:Hw.
  2:{ cbv zeta. destruct (negb (post_truthy post));
        [|destruct (sql_fault env (S (S (tick w))))].
      - eexists false, _, ["wall.getById"]. split; [reflexivity|].
        split; [apply refreshed_table_refl|]. split; [auto|].
        intros _. simpl. now rewrite <- app_assoc.
      - eexists false, _, ["wall.getById"]. split; [reflexivity|].
        split; [apply refreshed_table_refl|]. split; [auto|].
        intros _. simpl. now rewrite <- app_assoc.
      - eexists _, _, ["wall.getById"]. split; [reflexivity|].
        split; [apply refreshed_table_step|]. split; [auto|].
        intros _. simpl. now rewrite <- app_assoc. }
  1-3: eexists false, _, ["wall.getById"]; split; [reflexivity|];
       split; [apply refreshed_table_refl|]; split; [auto|];
       intros _; simpl; now rewrite <- app_assoc.
  eexists false, _, []. split; [reflexivity|].
  split; [apply refreshed_table_refl|]. split; [auto|].
  intros H. now destruct (H _ _ Hw).
Qed.

#[local] Abbreviation refresh_step :=
  (fun (post : dict) '(updated_count, error_count) =>
     try_except
       (let post_id := get post "post_id" in
        if VKCollector.falsy post_id then ret (updated_count, S error_count)
        else
          match post_id with
          | VStr post_id =>
              let* updated := VKCollector.update_post_metrics env post_id in
              if updated then ret (S updated_count, error_count)
              else ret (updated_count, S error_count)
          | _ => ret (updated_count, S error_count)
          end)
       [ (Exception, ret (updated_count, S error_count)) ]).

Lemma refresh_step_effect (post : dict) u e w :
  exists s' w' ms,
    refresh_step post (u, e) w = (Ret s', w')
    /\ Forall2 refreshed (table w) (table w')
    /\ (ms = [] \/ ms = ["wall.getById"])
    /\ ((forall n q, wall_getById env n q <> Crash) ->
        journal w' = (journal w ++ paced ms)%list).
Proof.
  unfold try_except, bind. cbv zeta.
  assert (Hskip : exists s' w' ms,
             (Ret (u, S e), w) = (Ret s', w')
             /\ Forall2 refreshed (table w) (table w')
             /\ (ms = [] \/ ms = ["wall.getById"])
             /\ ((forall n q, wall_getById env n q <> Crash) ->
                 journal w' = (journal w ++ paced ms)%list)).
  { eexists _, w, []. split; [reflexivity|].
    split; [apply refreshed_table_refl|]. split; [auto|].
    intros _. simpl. now rewrite app_nil_r. }
  destruct (VKCollector.falsy (get post "post_id")); [exact Hskip|].
  destruct (get post "post_id") as [|n|pid]; [exact Hskip | exact Hskip |].
  destruct (update_post_metrics_effect pid w) as (b & w' & ms & -> & Ht & Hm & Hj).
  destruct b; eexists _, w', ms; (split; [reflexivity|]); auto.
Qed.

Lemma refresh_loop_effect (posts : list dict) s w :
  exists s' w' k,
    for_each posts refresh_step s w = (Ret s', w')
    /\ Forall2 refreshed (table w) (table w')
    /\ (k <= length posts)%nat
    /\ ((forall n q, wall_getById env n q <> Crash) ->
        journal w' = (journal w ++ paced (replicate k "wall.getById"))%list).
Proof.
  revert s w. induction posts as [|post posts IH]; intros s w.
  - exists s, w, 0%nat. split; [reflexivity|].
    split; [apply refreshed_table_refl|]. split; [simpl; lia|].
    intros _. simpl. now rewrite app_nil_r.
  - rewrite for_each_cons. destruct s as [u e].
    destruct (refresh_step_effect post u e w) as (s1 & w1 & ms & E & Ht1 & Hm & Hj1).
    cbv beta in E |- *. rewrite E.
    destruct (IH s1 w1) as (s' & w' & k & E' & Ht & Hk & Hj).
    exists s', w', (length ms + k)%nat. split; [exact E'|].
    split; [eapply refreshed_table_trans; eauto|].
    split; [destruct Hm as [-> | ->]; simpl; lia|].
    intros Hno. rewrite (Hj Hno), (Hj1 Hno), <- app_assoc. f_equal.
    rewrite replicate_add, paced_app. f_equal.
    destruct Hm as [-> | ->]; reflexivity.
Qed.

Lemma update_all_posts_effect w :
  exists s' w' k,
    VKCollector.update_all_posts env w = (Ret s', w')
    /\ Forall2 refreshed (table w) (table w')
    /\ (k <= length (table w))%nat
    /\ ((forall n q, wall_getById env n q <> Crash) ->
        journal w' = (journal w ++ paced (replicate k "wall.getById"))%list).
Proof.
  unfold VKCollector.update_all_posts, bind. rewrite get_all_posts_run.
  assert (Hnone : exists s' w' k,
             (Ret (0%nat, 0%nat), tock w) = (Ret s', w')
             /\ Forall2 refreshed (table w) (table w')
             /\ (k <= length (table w))%nat
             /\ ((forall n q, wall_getById env n q <> Crash) ->
                 journal w' = (journal w ++ paced (replicate k "wall.getById"))%list)).
  { eexists _, (tock w), 0%nat. split; [reflexivity|].
    split; [apply refreshed_table_refl|]. split; [lia|].
    intros _. simpl. now rewrite app_nil_r. }
  destruct (sql_fault env (tick w)); [exact Hnone|].
  pose proof (merge_sort_Permutation Database.newer_first (table w)) as Hperm.
  apply Permutation_length in Hperm.
  destruct (merge_sort Database.newer_first (table w)) as [|post posts];
    [exact Hnone|].
  destruct (refresh_loop_effect (post :: posts) (0%nat, 0%nat) (tock w))
    as (s' & w' & k & E & Ht & Hk & Hj).
  exists s', w', k. split; [exact E|]. split; [exact Ht|].
  split; [rewrite <- Hperm; exact Hk|]. exact Hj.
Qed.

End RefreshEffect.

(** A refresh run, in any environment, neither adds nor removes nor
    reorders rows, and in each row it leaves every column alone that is
    not a metric, a video field or [last_updated]: the id, the owner,
    the source type, the link, the text, the publication time, the
    hashtag and [first_collected] are as ingest wrote them. *)
Theorem update_all_posts_keeps_identity env w :
  Forall2 (fun r r' : dict =>
             forall k, k ∉ refreshed_columns -> r' !! k = r !! k)
          (table w) (table (snd (VKCollector.update_all_posts env w))).
Proof.
  destruct (update_all_posts_effect env w) as (s' & w' & k & -> & Ht & _).
  simpl. eapply Forall2_impl; [exact Ht|].
  intros r r' Hr key Hkey. now apply refreshed_identity.
Qed.

(** When no lookup fails in a way the client does not handle, every
    request of a refresh run is followed by a pause, and the run sends
    at most one request for each stored post. *)
Theorem update_all_posts_paced env w :
  (forall n q, wall_getById env n q <> Crash) ->
  exists k,
    (k <= length (table w))%nat
    /\ journal (snd (VKCollector.update_all_posts env w))
       = (journal w ++ paced (replicate k "wall.getById"))%list.
Proof.
  intros Hno.
  destruct (update_all_posts_effect env w) as (s' & w' & k & -> & _ & Hk & Hj).
  exists k. split; [exact Hk|]. now apply Hj.
Qed.

Lemma update_all_posts_paced_witness :
  exists k,
    (k <= 1)%nat
    /\ journal (snd (VKCollector.update_all_posts Sample.quiet Sample.one_post))
       = paced (replicate k "wall.getById").
Proof.
  destruct (update_all_posts_paced Sample.quiet Sample.one_post)
    as (k & Hk & Hj).
  - intros n q. discriminate.
  - exists k. split; [exact Hk | exact Hj].
Defined.

Lemma split_post_id_ids pid w o p :
  fst (VKCollector.split_post_id pid w) = Ret (VKCollector.Ids o p)
  <-> exists a b, PyStr.split "_" pid = [a; b]
                  /\ PyStr.int_of_str a = Some o /\ PyStr.int_of_str b = Some p.
Proof.
  unfold VKCollector.split_post_id.
  destruct (PyStr.split "_" pid) as [|a [|b [|c l]]]; simpl;
    try (split; [discriminate | intros (a' & b' & [=] & _)]).
  destruct (PyStr.int_of_str a) as [o'|] eqn:Ea;
    destruct (PyStr.int_of_str b) as [p'|] eqn:Eb; simpl; split;
    try discriminate.
  - intros [= <- <-]. eauto.
  - intros (a' & b' & [= <- <-] & Ho & Hp). congruence.
  - intros (a' & b' & [= <- <-] & Ho & Hp). congruence.
  - intros (a' & b' & [= <- <-] & Ho & Hp). congruence.
  - intros (a' & b' & [= <- <-] & Ho & Hp). congruence.
Qed.



(** An answer whose first post is a dictionary without keys counts as
    no post: the stored row is left alone and the storage is not asked;
    a post with any key is parsed, here to zeros. *)
Example empty_post_not_refreshed :
  let answering post :=
    Environment (fun _ => false) (fun _ _ _ => Response None)
      (fun _ _ => Response [post]) (fun _ _ => Response [])
      (fun _ _ => Response []) (fun _ => 0%nat) in
  VKCollector.update_post_metrics
    (answering (VkPost None None None None None None None None None None false))
    "-12345_67890" Sample.one_post
  = (Ret false, VKAPIClient.after_call "wall.getById" true Sample.one_post)
  /\ fst (VKCollector.update_post_metrics
            (answering (VkPost None None None None None None None None None None
                          true))
            "-12345_67890" Sample.one_post)
     = Ret true.
Proof. split; vm_compute; reflexivity. Qed.

(** A stored id that does not split on the underscore into exactly
    two parts, or of which [int] refuses a part, an ASCII text, costs
    nothing: [update_post_metrics] answers [False] without a request to
    the service, a reading of the clock or a statement to the storage. *)
Theorem update_post_metrics_malformed env pid w :
  (forall a b, PyStr.split "_" pid = [a; b] -> unreadable a \/ unreadable b) ->
  VKCollector.update_post_metrics env pid w = (Ret false, w).
Proof.
  intros Hbad. rewrite update_post_metrics_run.
  pose proof (split_post_id_ids pid w) as Hids.
  destruct (fst (VKCollector.split_post_id pid w)) as [[|o p]|e];
    try reflexivity.
  destruct (proj1 (Hids o p) eq_refl) as (a & b & Hs & Ha & Hb).
  destruct (Hbad a b Hs) as [[_ H] | [_ H]]; congruence.
Qed.

Lemma update_post_metrics_malformed_witness :
  VKCollector.update_post_metrics Sample.busy "12_34_56" Sample.one_post
  = (Ret false, Sample.one_post)
  /\ VKCollector.update_post_metrics Sample.busy "wall_12" Sample.one_post
     = (Ret false, Sample.one_post).
Proof.
  split.
  - apply update_post_metrics_malformed. intros a b H. discriminate H.
  - apply update_post_metrics_malformed. intros a b H.
    inversion H; subst. left. split; reflexivity.
Defined.

(* ------------------------------------------------------------------ *)
(** ** The collector: the shape of the rows it keeps *)
(* ------------------------------------------------------------------ *)

Lemma filed_well_formed row : filed row -> well_formed row.
Proof.
  intros (post & owner & name & hashtag & t & Hid & Ho & Hname & ->).
  rewrite new_row_full by apply parsed_at_dom.
  unfold identified in Hid. rewrite Ho in Hid.
  apply andb_true_iff in Hid as [Hown Hpost].
  destruct (p_id post) as [p|] eqn:Hp; [|discriminate Hpost].
  simpl in Hown, Hpost. apply negb_true_iff, Z.eqb_neq in Hown, Hpost.
  exists owner, p, name.
  pose proof (parsed_at_dom post (source_kind owner) name hashtag t) as Hdom.
  split; [exact Hown|]. split; [exact Hpost|]. split; [exact Hname|].
  unfold parsed_at in *. rewrite Ho, Hp in *.
  unfold VKPostParser._extract_metrics in *.
  destruct (extract_video_info_cases post) as [E | (video & E)];
    rewrite E in *; clear E;
    do 5 (split; [reflexivity|]);
    (split; [repeat constructor; eexists; reflexivity|]);
    (split; [|exact Hdom]);
    [left | right]; reflexivity.
Qed.

Lemma metrics_at_dom post t :
  dom (metrics_at post t) = list_to_set refreshed_columns.
Proof.
  unfold metrics_at, VKPostParser._extract_metrics.
  destruct (extract_video_info_cases post) as [E | (video & E)]; rewrite E;
    apply (bool_decide_unpack _); vm_compute; exact I.
Qed.

Lemma refreshed_well_formed r r' :
  refreshed r r' -> well_formed r -> well_formed r'.
Proof.
  induction 1 as [r | r r' post t _ IH]; [auto|].
  intros Hr. specialize (IH Hr). clear Hr.
  destruct IH as (owner & p & name & Ho & Hp & Hname & Hid & Hown & Hst & Hnm
                  & Hurl & Hints & Hvideo & Hdom).
  exists owner, p, name.
  assert (Hkeep : forall k, k ∉ refreshed_columns ->
                            update r' (metrics_at post t) !! k = r' !! k).
  { intros k Hk. now rewrite update_lookup, metrics_at_other. }
  assert (Hnot : forall k, In k refreshed_columns -> k ∈ refreshed_columns)
    by (intros k; apply list_elem_of_In).
  split; [exact Ho|]. split; [exact Hp|]. split; [exact Hname|].
  split; [rewrite Hkeep; [exact Hid|]|].
  2: split; [rewrite Hkeep; [exact Hown|]|].
  3: split; [rewrite Hkeep; [exact Hst|]|].
  4: split; [rewrite Hkeep; [exact Hnm|]|].
  5: split; [rewrite Hkeep; [exact Hurl|]|].
  1-5: try (rewrite list_elem_of_In; simpl; intros H;
            repeat (destruct H as [H | H]; [discriminate H|]); exact H).
  split; [|split].
  - assert (Hfresh : forall k, k ∈ [ "post_views"; "likes"; "comments"; "reposts";
                                      "video_views"; "last_updated" ] ->
                               exists n, metrics_at post t !! k = Some (VInt n)).
    { intros k Hk. apply list_elem_of_In in Hk. simpl in Hk.
      unfold metrics_at, VKPostParser._extract_metrics.
      destruct (extract_video_info_cases post) as [E | (video & E)]; rewrite E;
        repeat (destruct Hk as [<- | Hk]; [eexists; reflexivity|]);
        destruct Hk. }
    inversion Hints as [|? ? Hdate Hrest]; subst.
    constructor.
    { rewrite Hkeep; [exact Hdate|]. rewrite list_elem_of_In. simpl.
      intros H. repeat (destruct H as [H | H]; [discriminate H|]). exact H. }
    repeat match goal with
           | H : Forall _ (_ :: _) |- _ => inversion H; clear H; subst
           end.
    repeat constructor;
      match goal with
      | |- exists n, update r' (metrics_at post t) !! "first_collected" = _ =>
          rewrite Hkeep; [assumption|];
          rewrite list_elem_of_In; simpl; intros H;
          repeat (destruct H as [H | H]; [discriminate H|]); exact H
      | |- exists n, update r' (metrics_at post t) !! ?k = _ =>
          destruct (Hfresh k) as (n & Hn);
          [apply list_elem_of_In; simpl; tauto|];
          exists n; now rewrite update_lookup, Hn
      end.
  - rewrite update_lookup.
    unfold metrics_at, VKPostParser._extract_metrics.
    destruct (extract_video_info_cases post) as [E | (video & E)]; rewrite E.
    + left. reflexivity.
    + right. reflexivity.
  - unfold update. rewrite dom_union_L, metrics_at_dom, Hdom.
    apply (bool_decide_unpack _). vm_compute. exact I.
Qed.

Lemma reachable_well_formed w : reachable w -> Forall well_formed (table w).
Proof.
  induction 1 as [t | env hashtag w _ IH | env w _ IH].
  - constructor.
  - destruct (collect_new_posts_effect env hashtag w)
      as (r & w' & rows & ms & E & Ht & Hf & _).
    rewrite E. cbn [snd]. rewrite Ht.
    apply Forall_app. split; [exact IH|].
    eapply Forall_impl; [exact Hf|]. apply filed_well_formed.
  - destruct (update_all_posts_effect env w) as (s' & w' & k & -> & Ht & _).
    simpl. clear -IH Ht. induction Ht; [constructor|].
    inversion IH; subst. constructor; eauto using refreshed_well_formed.
Qed.

(** Every row of a store that was filled by ingest runs and changed by
    refresh runs only, whatever the remote service and the storage did
    on the way, is well formed: its [post_id] is the owner id and the
    post number joined by an underscore, so the id parsing of the
    refresh workflow reads both back; the source type is ['group'] for
    a negative owner id and ['user'] otherwise; the owner name is not
    empty; the link is the wall address of the id; counts and times are
    integers; and the row has exactly the columns of the table. *)
Theorem reachable_rows_well_formed w (r : dict) :
  reachable w -> r ∈ table w -> well_formed r.
Proof.
  intros Hw Hr. pose proof (reachable_well_formed w Hw) as H.
  rewrite Forall_forall in H. now apply H.
Qed.

Lemma reachable_rows_well_formed_witness :
  Forall well_formed
    (table (snd (VKCollector.update_all_posts Sample.busy
                   (snd (VKCollector.collect_new_posts Sample.busy "tag"
                           Sample.empty_store))))).
Proof.
  apply Forall_forall. intros r Hr.
  refine (reachable_rows_well_formed _ r _ Hr).
  apply reach_update, reach_collect, reach_start.
Defined.

(** [_get_owner_info] sends one request, [groups.getById] for a
    negative owner id and [users.get] for any other, pauses after it
    unless it fails in a way the client does not handle, and leaves the
    table and the clock alone.  A negative owner id is filed as a group,
    any other as a user.  The name is the one the service gave: the
    name of the first group of the answer, or the first and the last
    name of the first user joined by a space, without the whitespace
    around them.  When the service gave none or an empty one, the name
    is [Group] or [User] followed by the number; a group without a name
    is an [Unknown Group].  So the name is never empty.  The call raises
    exactly when the request fails in a way the client does not
    handle. *)
Theorem owner_info_kind_and_name env owner_id w :
  (owner_id < 0 ->
   exists r paused,
     VKCollector._get_owner_info env owner_id w
     = (r, VKAPIClient.after_call "groups.getById" paused w)
     /\ match groups_getById env (tick w) (Z.abs owner_id) with
        | Response (Some (String c s) :: _) =>
            r = Ret ("group", String c s) /\ paused = true
        | Response (None :: _) =>
            r = Ret ("group", "Unknown Group") /\ paused = true
        | Response (Some "" :: _) | Response [] | ApiFailure _ | HttpFailure =>
            r = Ret ("group", "Group " ++ PyStr.str_of_int (Z.abs owner_id))
            /\ paused = true
        | Crash => r = Raise RuntimeError /\ paused = false
        end)
  /\ (0 <= owner_id ->
      exists r paused,
        VKCollector._get_owner_info env owner_id w
        = (r, VKAPIClient.after_call "users.get" paused w)
        /\ match users_get env (tick w) owner_id with
           | Response (user :: _) =>
               let full_name :=
                 PyStr.strip (default "" (first_name user) ++ " "
                              ++ default "" (last_name user)) in
               r = Ret ("user",
                        if bool_decide (full_name = "")
                        then "User " ++ PyStr.str_of_int owner_id
                        else full_name)
               /\ paused = true
           | Response [] | ApiFailure _ | HttpFailure =>
               r = Ret ("user", "User " ++ PyStr.str_of_int owner_id)
               /\ paused = true
           | Crash => r = Raise RuntimeError /\ paused = false
           end)
  /\ (forall source_type owner_name w',
        VKCollector._get_owner_info env owner_id w
        = (Ret (source_type, owner_name), w') ->
        owner_name <> "").
Proof.
  split; [|split].
  - intros Hneg. apply Z.ltb_lt in Hneg.
    unfold VKCollector._get_owner_info, bind. rewrite Hneg.
    rewrite get_group_info_answer.
    destruct (groups_getById env (tick w) (Z.abs owner_id))
      as [[|[[|c s]|] rest]| | |]; eexists _, _; split;
      solve [reflexivity | split; reflexivity].
  - intros Hpos. apply Z.ltb_ge in Hpos.
    unfold VKCollector._get_owner_info, bind. rewrite Hpos.
    rewrite get_user_info_answer.
    destruct (users_get env (tick w) owner_id) as [[|user rest]| | |];
      cbv zeta.
    2:{ destruct (PyStr.strip _) as [|c s]; eexists _, _; split;
          solve [reflexivity | split; reflexivity]. }
    all: eexists _, _; split; solve [reflexivity | split; reflexivity].
  - intros source_type owner_name w' E.
    destruct (get_owner_info_effect env owner_id w)
      as [(name & E' & Hname & _) | (E' & _)]; cbv zeta in *;
      rewrite E' in E; [|discriminate E].
    now injection E as _ <- _.
Qed.

(** Whitespace beyond ASCII is stripped too: a user whose names are a
    no-break space and nothing gets the stand-in. *)
Example strip_samples :
  let nbsp := String (ascii_of_nat 194) (String (ascii_of_nat 160) "") in
  let wide := String (ascii_of_nat 227)
                (String (ascii_of_nat 128) (String (ascii_of_nat 128) "")) in
  PyStr.strip (" Ann Lee" ++ nbsp) = "Ann Lee"
  /\ PyStr.strip (wide ++ "Ann" ++ wide ++ "Lee" ++ wide) = "Ann" ++ wide ++ "Lee"
  /\ PyStr.strip (nbsp ++ " ") = ""
  /\ fst (VKCollector._get_owner_info
            (Environment (fun _ => false) (fun _ _ _ => Response None)
               (fun _ _ => Response []) (fun _ _ => Response [])
               (fun _ _ => Response [VkUser (Some nbsp) None])
               (fun _ => 0%nat))
            3 Sample.empty_store)
     = Ret ("user", "User 3").
Proof. repeat split; vm_compute; reflexivity. Qed.

(* ------------------------------------------------------------------ *)
(** ** The aggregator: the last day *)
(* ------------------------------------------------------------------ *)

Lemma sigma_perm {A} (f : A -> Z) l l' : l ≡ₚ l' -> sigma f l = sigma f l'.
Proof. induction 1; simpl; lia. Qed.

Lemma filter_perm {A} (f : A -> bool) l l' :
  l ≡ₚ l' -> List.filter f l ≡ₚ List.filter f l'.
Proof.
  induction 1 as [|x l l' _ IH|x y l|l1 l2 l3 _ IH1 _ IH2]; simpl.
  - reflexivity.
  - destruct (f x); [now constructor | exact IH].
  - destruct (f x), (f y); try reflexivity. constructor.
  - now rewrite IH1.
Qed.

Lemma sigma_filter_le {A} (f : A -> Z) (keep : A -> bool) l :
  Forall (fun x => 0 <= f x) l ->
  0 <= sigma f (List.filter keep l) <= sigma f l.
Proof.
  induction 1 as [|x l Hx _ IH]; simpl; [lia|].
  destruct (keep x); simpl; lia.
Qed.

Lemma sigma_nonneg {A} (f : A -> Z) l :
  Forall (fun x => 0 <= f x) l -> 0 <= sigma f l.
Proof. induction 1; simpl; lia. Qed.

Section LastDayFacts.
Import DataAggregator.

Lemma published_since_typed bound posts :
  Forall (fun p => int_cell p "date_published") posts ->
  published_since bound posts = Ret (since bound posts).
Proof.
  induction 1 as [|p posts Hp _ IH]; simpl; [reflexivity|].
  apply int_cell_field in Hp as [-> _]. simpl. now rewrite IH.
Qed.

Lemma since_typed bound posts :
  Forall well_typed posts -> Forall well_typed (since bound posts).
Proof.
  unfold since. induction 1 as [|p posts Hp _ IH]; simpl; [constructor|].
  destruct (bound <=? _); [now constructor | exact IH].
Qed.

(** The figures of [get_last_24h_stats] over a list of posts. *)
Lemma last_day_figures posts :
  Forall well_typed posts ->
  forall w,
    match posts with
    | [] => ret (PeriodStats 0 0 0 0 0)
    | _ =>
        let new_posts := Z.of_nat (length posts) in
        let* views := lift (sum_of "post_views" posts) in
        let* likes := lift (sum_of "likes" posts) in
        let* comments := lift (sum_of "comments" posts) in
        let* reposts := lift (sum_of "reposts" posts) in
        ret (PeriodStats new_posts views likes comments reposts)
    end w
    = (Ret (PeriodStats (Z.of_nat (length posts))
              (sigma (int_field "post_views") posts)
              (sigma (int_field "likes") posts)
              (sigma (int_field "comments") posts)
              (sigma (int_field "reposts") posts)), w).
Proof.
  intros Hty w. destruct posts as [|p posts]; [reflexivity|].
  assert (Hcol : forall key,
             (forall q, well_typed q -> int_cell q key) ->
             sum_of key (p :: posts) = Ret (sigma (int_field key) (p :: posts))).
  { intros key Hkey. apply sum_of_typed.
    eapply Forall_impl; [exact Hty | exact Hkey]. }
  unfold bind, lift.
  rewrite (Hcol "post_views") by (intros q H; apply H).
  rewrite (Hcol "likes") by (intros q H; apply H).
  rewrite (Hcol "comments") by (intros q H; apply H).
  rewrite (Hcol "reposts") by (intros q H; apply H).
  reflexivity.
Qed.

Lemma last_24h_stats_run env day_earlier w :
  Forall well_typed (table w) ->
  let recent :=
    if sql_fault env (S (tick w)) then []
    else since (day_earlier (clock w + Z.of_nat (elapsed env (tick w)))) (table w) in
  get_last_24h_stats env day_earlier w
  = (Ret (PeriodStats (Z.of_nat (length recent))
            (sigma (int_field "post_views") recent)
            (sigma (int_field "likes") recent)
            (sigma (int_field "comments") recent)
            (sigma (int_field "reposts") recent)),
     World (table w) (clock w + Z.of_nat (elapsed env (tick w))) (journal w)
           (S (S (tick w)))).
Proof.
  intros Hty. cbv zeta.
  unfold get_last_24h_stats, bind, now. rewrite get_all_posts_run.
  cbn [table tick clock journal tock].
  destruct (sql_fault env (S (tick w))); [reflexivity|].
  set (bound := day_earlier _).
  pose proof (merge_sort_Permutation Database.newer_first (table w)) as Hperm.
  set (sorted := merge_sort Database.newer_first (table w)) in *.
  assert (Hsorted : Forall well_typed sorted).
  { apply Forall_forall. intros p Hp. rewrite Hperm in Hp.
    rewrite Forall_forall in Hty. now apply Hty. }
  unfold lift at 1.
  rewrite published_since_typed
    by (eapply Forall_impl; [exact Hsorted | intros q H; apply H]).
  rewrite (last_day_figures (since bound sorted)) by now apply since_typed.
  pose proof (filter_perm (fun p => bound <=? int_field "date_published" p)
                sorted (table w) Hperm) as Hsince.
  fold (since bound sorted) in Hsince. fold (since bound (table w)) in Hsince.
  rewrite (Permutation_length Hsince).
  now rewrite !(sigma_perm _ _ _ Hsince).
Qed.

End LastDayFacts.

(** Over a table with integer metrics and publication times,
    [get_last_24h_stats] counts the posts published at the bound
    computed from the clock or later, and adds up their views, likes,
    comments and reposts; when the storage fails, or no post is that
    recent, every figure is 0.  It writes nothing. *)
Theorem last_24h_stats_value env day_earlier w :
  Forall well_typed (table w) ->
  exists recent w',
    DataAggregator.get_last_24h_stats env day_earlier w
    = (Ret (PeriodStats (Z.of_nat (length recent))
              (sigma (int_field "post_views") recent)
              (sigma (int_field "likes") recent)
              (sigma (int_field "comments") recent)
              (sigma (int_field "reposts") recent)), w')
    /\ recent
       = (if sql_fault env (S (tick w)) then []
          else since (day_earlier (clock w + Z.of_nat (elapsed env (tick w))))
                     (table w))
    /\ table w' = table w.
Proof.
  intros Hty. eexists _, _. split; [now apply last_24h_stats_run|].
  split; reflexivity.
Qed.

Lemma two_days_table_typed : Forall well_typed (table Sample.two_days).
Proof.
  unfold Sample.two_days. cbn [table].
  constructor; [|constructor; [|constructor]];
    (vm_compute; repeat apply conj; first [reflexivity | discriminate]).
Qed.

Lemma last_24h_stats_value_witness :
  exists w',
    DataAggregator.get_last_24h_stats Sample.quiet (fun t => t - 86400)
      Sample.two_days
    = (Ret (PeriodStats 1 99 0 0 0), w').
Proof.
  destruct (last_24h_stats_value Sample.quiet (fun t => t - 86400) Sample.two_days
              two_days_table_typed) as (recent & w' & E & Hrecent & _).
  exists w'. rewrite E, Hrecent.
  apply (f_equal (fun x => (Ret x, w'))). vm_compute. reflexivity.
Defined.

Lemma total_stats_run env float_sum w :
  sql_fault env (tick w) = false ->
  Forall metrics_typed (table w) ->
  exists er,
    DataAggregator.get_total_stats env float_sum w
    = (Ret (TotalStats (Z.of_nat (length (table w)))
              (sigma (int_field "post_views") (table w))
              (sigma (int_field "likes") (table w))
              (sigma (int_field "comments") (table w))
              (sigma (int_field "reposts") (table w)) er),
       tock w).
Proof.
  intros Hf Hty.
  unfold DataAggregator.get_total_stats, bind. rewrite get_all_posts_run, Hf.
  pose proof (merge_sort_Permutation Database.newer_first (table w)) as Hperm.
  set (sorted := merge_sort Database.newer_first (table w)) in *.
  assert (Hsorted : Forall metrics_typed sorted).
  { apply Forall_forall. intros p Hp. rewrite Hperm in Hp.
    rewrite Forall_forall in Hty. now apply Hty. }
  rewrite <- (Permutation_length Hperm), <- !(sigma_perm _ _ _ Hperm).
  clearbody sorted. clear Hperm Hty.
  destruct sorted as [|p posts]; [eexists; reflexivity|].
  assert (Hcol : forall key,
             (forall q, metrics_typed q -> int_cell q key) ->
             DataAggregator.sum_of key (p :: posts)
             = Ret (sigma (int_field key) (p :: posts))).
  { intros key Hkey. apply sum_of_typed.
    eapply Forall_impl; [exact Hsorted | exact Hkey]. }
  destruct (map_result_rates (p :: posts) Hsorted) as (rates & Erates & Hrates).
  unfold lift.
  rewrite (Hcol "post_views") by (intros q H; apply H).
  rewrite (Hcol "likes") by (intros q H; apply H).
  rewrite (Hcol "comments") by (intros q H; apply H).
  rewrite (Hcol "reposts") by (intros q H; apply H).
  rewrite Erates.
  destruct rates as [|er rates]; [inversion Hrates|].
  unfold PyFloat.truediv_int.
  destruct (Z.eqb_spec (Z.of_nat (length (er :: rates))) 0) as [Hz|_];
    [simpl in Hz; lia|].
  eexists. reflexivity.
Qed.

(** The report of the last day stays within the totals.  Over a table
    with integer metrics none of which is negative, when the storage
    answers the first scan, [get_total_stats] followed by
    [get_last_24h_stats] gives a count of recent posts that is at most
    the count of all posts, and recent views, likes, comments and
    reposts that are at most the respective totals. *)
Theorem last_24h_within_totals env float_sum day_earlier w :
  sql_fault env (tick w) = false ->
  Forall well_typed (table w) ->
  Forall (fun p => Forall (fun key => 0 <= int_field key p)
                     ["post_views"; "likes"; "comments"; "reposts"])
         (table w) ->
  exists totals w1 recent w2,
    DataAggregator.get_total_stats env float_sum w = (Ret totals, w1)
    /\ DataAggregator.get_last_24h_stats env day_earlier w1 = (Ret recent, w2)
    /\ 0 <= period_new_posts recent <= total_posts totals
    /\ 0 <= period_views recent <= total_views totals
    /\ 0 <= period_likes recent <= total_likes totals
    /\ 0 <= period_comments recent <= total_comments totals
    /\ 0 <= period_reposts recent <= total_reposts totals.
Proof.
  intros Hf Hty Hpos.
  destruct (total_stats_run env float_sum w Hf) as (er & Etot).
  { eapply Forall_impl; [exact Hty | intros q H; apply H]. }
  eexists _, _, _, _. split; [exact Etot|].
  split; [apply last_24h_stats_run; exact Hty|].
  cbn [period_new_posts period_views period_likes period_comments period_reposts
       total_posts total_views total_likes total_comments total_reposts
       tock table tick clock].
  assert (Hkey : forall key,
             In key ["post_views"; "likes"; "comments"; "reposts"] ->
             Forall (fun p => 0 <= int_field key p) (table w)).
  { intros key Hk. eapply Forall_impl; [exact Hpos|].
    intros p Hp. rewrite Forall_forall in Hp. apply Hp.
    now apply list_elem_of_In. }
  assert (Hsum : forall key,
             In key ["post_views"; "likes"; "comments"; "reposts"] ->
             0 <= sigma (int_field key) (table w)).
  { intros key Hk. apply sigma_nonneg. now apply Hkey. }
  destruct (sql_fault env (S (S (tick w)))).
  - cbn [length sigma Z.of_nat].
    pose proof (Hsum "post_views" ltac:(simpl; tauto)).
    pose proof (Hsum "likes" ltac:(simpl; tauto)).
    pose proof (Hsum "comments" ltac:(simpl; tauto)).
    pose proof (Hsum "reposts" ltac:(simpl; tauto)).
    lia.
  - unfold since.
    split; [|repeat split; apply sigma_filter_le; apply Hkey; simpl; tauto].
    split; [lia|]. apply inj_le.
    clear. induction (table w) as [|p t IH]; simpl; [lia|].
    destruct (_ <=? _); simpl; lia.
Qed.

Lemma last_24h_within_totals_witness :
  exists totals w1 recent w2,
    DataAggregator.get_total_stats Sample.quiet PyFloat.sum_left Sample.two_days
    = (Ret totals, w1)
    /\ DataAggregator.get_last_24h_stats Sample.quiet (fun t => t - 86400) w1
       = (Ret recent, w2)
    /\ period_views recent <= total_views totals.
Proof.
  destruct (last_24h_within_totals Sample.quiet PyFloat.sum_left
              (fun t => t - 86400) Sample.two_days eq_refl two_days_table_typed)
    as (totals & w1 & recent & w2 & E1 & E2 & _ & Hv & _).
  - unfold Sample.two_days. cbn [table].
    repeat constructor; vm_compute; discriminate.
  - exists totals, w1, recent, w2. split; [exact E1|]. split; [exact E2|].
    apply Hv.
Defined.
(* ------------------------------------------------------------------ *)
(** ** The aggregator: rankings *)
(* ------------------------------------------------------------------ *)

Section RankFacts.
Import DataAggregator.
Context {A : Type}.
Implicit Types (x y : value * A) (l : list (value * A)).

#[local] Abbreviation int_keyed l :=
  (Forall (fun x : value * A => exists n, fst x = VInt n) l).
#[local] Abbreviation descending :=
  (fun x y : value * A => int_key y <= int_key x).

Lemma cell_lt_int x y :
  (exists n, fst x = VInt n) -> (exists n, fst y = VInt n) ->
  cell_lt (fst x) (fst y) = Ret (int_key x <? int_key y).
Proof. intros (n & Hn) (m & Hm). unfold int_key. now rewrite Hn, Hm. Qed.

Lemma insert_desc_int x l :
  (exists n, fst x = VInt n) -> int_keyed l ->
  exists l',
    insert_desc cell_lt x l = Ret l'
    /\ l' ≡ₚ x :: l
    /\ (StronglySorted descending l -> StronglySorted descending l')
    /\ forall keep : value * A -> bool,
         (forall y, keep y = true -> int_key y = int_key x) ->
         List.filter keep l' = List.filter keep (x :: l).
Proof.
  intros Hx Hl. induction Hl as [|y l Hy Hl IH].
  - exists [x]. split; [reflexivity|]. split; [reflexivity|].
    split; [intros _; repeat constructor | reflexivity].
  - simpl. rewrite (cell_lt_int x y Hx Hy).
    destruct (Z.ltb_spec (int_key x) (int_key y)) as [Hlt | Hge].
    + destruct IH as (l' & -> & Hperm & Hsort & Hstable). simpl.
      exists (y :: l'). split; [reflexivity|]. split; [|split].
      * rewrite Hperm. apply perm_swap.
      * intros Hs. apply StronglySorted_inv in Hs as [Hs Hall].
        constructor; [now apply Hsort|].
        rewrite Hperm. constructor; [lia | exact Hall].
      * intros keep Hkeep. simpl. rewrite (Hstable keep Hkeep). simpl.
        destruct (keep y) eqn:Ey; [|reflexivity].
        apply Hkeep in Ey. lia.
    + exists (x :: y :: l). split; [reflexivity|]. split; [reflexivity|].
      split; [|reflexivity].
      intros Hs. constructor; [exact Hs|].
      apply StronglySorted_inv in Hs as [Hs Hall].
      constructor; [lia|].
      eapply Forall_impl; [exact Hall|]. simpl. intros z Hz. lia.
Qed.

Lemma sort_desc_int l :
  int_keyed l ->
  exists l',
    sort_desc cell_lt l = Ret l'
    /\ l' ≡ₚ l
    /\ StronglySorted descending l'
    /\ forall v, List.filter (fun y => int_key y =? v) l'
                 = List.filter (fun y => int_key y =? v) l.
Proof.
  induction 1 as [|x l Hx Hl (l1 & E & Hperm & Hsort & Hstable)]; simpl.
  - exists []. repeat split; constructor.
  - rewrite E. simpl.
    destruct (insert_desc_int x l1 Hx) as (l' & E' & Hperm' & Hsort' & Hstable').
    { apply Forall_forall. intros y Hy. rewrite Hperm in Hy.
      rewrite Forall_forall in Hl. now apply Hl. }
    exists l'. split; [exact E'|]. split; [now rewrite Hperm', Hperm|].
    split; [now apply Hsort'|]. intros v.
    destruct (Z.eqb_spec (int_key x) v) as [Hv | Hv].
    + rewrite Hstable'.
      * cbn [List.filter]. rewrite Hstable. subst v. now rewrite Z.eqb_refl.
      * intros y Hy. apply Z.eqb_eq in Hy. lia.
    + transitivity (List.filter (fun y => int_key y =? v) l1);
        [|now rewrite Hstable].
      clear -Hv Hperm' E' Hx Hl Hperm.
      assert (Hl1 : int_keyed l1).
      { apply Forall_forall. intros y Hy. rewrite Hperm in Hy.
        rewrite Forall_forall in Hl. now apply Hl. }
      clear Hperm Hl Hperm'. revert l' E'.
      induction Hl1 as [|y l1 Hy Hl1 IH]; intros l' E'; simpl in E'.
      * inversion E'; subst. cbn [List.filter].
        now rewrite (proj2 (Z.eqb_neq (int_key x) v) Hv).
      * rewrite (cell_lt_int x y Hx Hy) in E'.
        destruct (int_key x <? int_key y).
        -- destruct (insert_desc cell_lt x l1) as [l2|e]; [|discriminate E'].
           simpl in E'. inversion E'; subst. cbn [List.filter].
           now rewrite (IH l2 eq_refl).
        -- inversion E'; subst. cbn [List.filter].
           now rewrite (proj2 (Z.eqb_neq (int_key x) v) Hv).
Qed.

End RankFacts.

Section TopFacts.
Import DataAggregator.

Lemma map_result_ret {A B} (f : A -> B) l :
  map_result (fun x => Ret (f x)) l = Ret (map f l).
Proof. induction l as [|x l IH]; simpl; [reflexivity|]. now rewrite IH. Qed.

Lemma zip_map_self {A B} (f : A -> B) (l : list A) :
  zip (map f l) l = map (fun x => (f x, x)) l.
Proof. induction l as [|x l IH]; simpl; [reflexivity|]. now rewrite IH. Qed.

Lemma filter_map_snd {A B} (f : B -> bool) (l : list (A * B)) :
  List.filter f (map snd l) = map snd (List.filter (fun e => f (snd e)) l).
Proof.
  induction l as [|e l IH]; simpl; [reflexivity|].
  destruct (f (snd e)); simpl; now rewrite IH.
Qed.

Lemma filter_ext_in {A} (f g : A -> bool) l :
  Forall (fun x => f x = g x) l -> List.filter f l = List.filter g l.
Proof.
  induction 1 as [|x l Hx _ IH]; simpl; [reflexivity|].
  now rewrite Hx, IH.
Qed.

(** Ranking by an integer column. *)
Lemma sorted_reverse_int key (posts : list dict) :
  Forall (fun p => int_cell p key) posts ->
  exists ranked,
    sorted_reverse cell_lt (fun p => Ret (get_or p key (VInt 0))) posts = Ret ranked
    /\ ranked ≡ₚ posts
    /\ StronglySorted (fun p q : dict => int_field key q <= int_field key p) ranked
    /\ forall v, List.filter (fun p => int_field key p =? v) ranked
                 = List.filter (fun p => int_field key p =? v) posts.
Proof.
  intros Hty. unfold sorted_reverse.
  rewrite map_result_ret. cbn [rbind]. rewrite zip_map_self.
  set (entries := map (fun p : dict => (get_or p key (VInt 0), p)) posts).
  assert (Hlink : Forall (fun e : value * dict =>
                            fst e = get_or (snd e) key (VInt 0)) entries).
  { unfold entries. apply Forall_forall. intros e He.
    apply list_elem_of_fmap in He as (p & -> & _). reflexivity. }
  assert (Hint : Forall (fun e : value * dict => exists n, fst e = VInt n) entries).
  { unfold entries. clear -Hty. induction Hty as [|p posts Hp _ IH]; simpl;
      constructor; [|exact IH].
    apply int_cell_field in Hp as [Hp _]. simpl. eauto. }
  destruct (sort_desc_int entries Hint) as (sorted & -> & Hperm & Hsort & Hstable).
  cbn [rbind]. exists (map snd sorted). split; [reflexivity|].
  assert (Hlink' : Forall (fun e : value * dict =>
                             fst e = get_or (snd e) key (VInt 0)) sorted).
  { apply Forall_forall. intros e He. rewrite Hperm in He.
    rewrite Forall_forall in Hlink. now apply Hlink. }
  assert (Hkey : forall e : value * dict,
             fst e = get_or (snd e) key (VInt 0) ->
             int_key e = int_field key (snd e)).
  { intros e He. unfold int_key, int_field. now rewrite He. }
  assert (Hposts : map snd entries = posts).
  { unfold entries. rewrite map_map. simpl. apply List.map_id. }
  split; [|split].
  - rewrite <- Hposts. now apply Permutation_map.
  - clear -Hsort Hlink' Hkey. induction Hsort as [|e l Hs IH Hall]; simpl;
      [constructor|].
    inversion Hlink'; subst. constructor; [now apply IH|].
    apply Forall_forall. intros q Hq.
    apply list_elem_of_fmap in Hq as (e' & -> & He').
    match goal with
    | H1 : fst e = _, H2 : Forall _ l |- _ =>
        rewrite <- (Hkey e H1);
        rewrite <- (Hkey e' (proj1 (Forall_forall _ _) H2 e' He'))
    end.
    exact (proj1 (Forall_forall _ _) Hall e' He').
  - intros v. rewrite <- Hposts, !filter_map_snd. f_equal.
    rewrite <- (filter_ext_in (fun e => int_key e =? v)).
    2:{ eapply Forall_impl; [exact Hlink'|]. intros e He. simpl.
        now rewrite (Hkey e He). }
    rewrite <- (filter_ext_in (fun e => int_key e =? v) _ entries).
    2:{ eapply Forall_impl; [exact Hlink|]. intros e He. simpl.
        now rewrite (Hkey e He). }
    apply Hstable.
Qed.

Lemma slice_to_length {A} limit (l : list A) :
  Z.of_nat (length (slice_to limit l))
  = if 0 <=? limit then Z.min limit (Z.of_nat (length l))
    else Z.max 0 (Z.of_nat (length l) + limit).
Proof.
  unfold slice_to.
  destruct (Z.ltb_spec limit 0), (Z.leb_spec 0 limit); try lia;
    rewrite length_take; lia.
Qed.

Lemma get_top_posts_run env limit sort_by w :
  sort_by <> "er" ->
  sql_fault env (tick w) = false ->
  DataAggregator.get_top_posts env limit sort_by w
  = match sorted_reverse cell_lt
            (fun p => Ret (get_or p (ranking_column sort_by) (VInt 0)))
            (merge_sort Database.newer_first (table w)) with
    | Ret ranked => (Ret (slice_to limit ranked), tock w)
    | Raise e => (Raise e, tock w)
    end.
Proof.
  intros Her Hf. unfold get_top_posts, bind, lift, ranking_column.
  rewrite get_all_posts_run, Hf.
  destruct (merge_sort Database.newer_first (table w)) as [|p posts];
    [cbn; unfold slice_to; destruct (limit <? 0); now rewrite take_nil|].
  rewrite (bool_decide_eq_false_2 (sort_by = "er")) by exact Her.
  destruct (bool_decide (sort_by = "views")) eqn:Ev.
  - apply bool_decide_eq_true_1 in Ev. subst sort_by.
    rewrite (bool_decide_eq_false_2 ("views" = "comments")) by discriminate.
    now destruct (sorted_reverse _ _ _).
  - destruct (bool_decide (sort_by = "comments"));
      now destruct (sorted_reverse _ _ _).
Qed.

End TopFacts.

(** [get_top_posts] by views or by comments (any criterion other than
    ['er'] and ['comments'] ranks by views), over a table with integer
    metrics and a storage that answers.  The answer is the head of a
    ranking of all stored posts in which no post has more than a post
    before it, and posts that tie stand in the order in which
    [get_all_posts] returns them.  A limit of 0 or more keeps that many
    posts, or all if there are fewer; a negative limit drops that many
    posts from the end of the ranking. *)
Theorem top_posts_ranked env limit sort_by w :
  sort_by <> "er" ->
  sql_fault env (tick w) = false ->
  Forall metrics_typed (table w) ->
  exists top rest,
    DataAggregator.get_top_posts env limit sort_by w = (Ret top, tock w)
    /\ (top ++ rest)%list ≡ₚ table w
    /\ StronglySorted
         (fun p q : dict => int_field (ranking_column sort_by) q
                            <= int_field (ranking_column sort_by) p)
         (top ++ rest)
    /\ Z.of_nat (length top)
       = (if 0 <=? limit then Z.min limit (Z.of_nat (length (table w)))
          else Z.max 0 (Z.of_nat (length (table w)) + limit))
    /\ forall all_posts v,
         fst_result (Database.get_all_posts env w) = Some all_posts ->
         List.filter (fun p => int_field (ranking_column sort_by) p =? v)
                     (top ++ rest)
         = List.filter (fun p => int_field (ranking_column sort_by) p =? v)
                       all_posts.
Proof.
  intros Her Hf Hty. rewrite (get_top_posts_run env limit sort_by w Her Hf).
  pose proof (merge_sort_Permutation Database.newer_first (table w)) as Hperm.
  set (all_posts := merge_sort Database.newer_first (table w)) in *.
  assert (Hcol : Forall (fun p => int_cell p (ranking_column sort_by)) all_posts).
  { apply Forall_forall. intros p Hp. rewrite Hperm in Hp.
    rewrite Forall_forall in Hty. specialize (Hty p Hp).
    unfold ranking_column. destruct (bool_decide _); apply Hty. }
  destruct (sorted_reverse_int (ranking_column sort_by) all_posts Hcol)
    as (ranked & -> & Hranked & Hsort & Hstable).
  assert (Hcut : exists k, DataAggregator.slice_to limit ranked = take k ranked).
  { unfold DataAggregator.slice_to. destruct (limit <? 0); eauto. }
  destruct Hcut as (k & Hcut).
  exists (DataAggregator.slice_to limit ranked), (drop k ranked).
  split; [reflexivity|].
  assert (Hjoin : (DataAggregator.slice_to limit ranked ++ drop k ranked)%list
                  = ranked) by (rewrite Hcut; apply take_drop).
  rewrite !Hjoin.
  split; [now rewrite Hranked|]. split; [exact Hsort|]. split.
  - rewrite slice_to_length, (Permutation_length Hranked).
    now rewrite (Permutation_length Hperm).
  - intros posts v Hscan. rewrite get_all_posts_run, Hf in Hscan.
    inversion Hscan; subst posts. apply Hstable.
Qed.

Lemma top_posts_ranked_witness :
  exists top rest,
    DataAggregator.get_top_posts Sample.quiet 1 "views" Sample.two_days
    = (Ret top, tock Sample.two_days)
    /\ (top ++ rest)%list ≡ₚ [Sample.early_post; Sample.late_post]
    /\ Z.of_nat (length top) = 1.
Proof.
  destruct (top_posts_ranked Sample.quiet 1 "views" Sample.two_days)
    as (top & rest & E & Hperm & _ & Hlen & _).
  - discriminate.
  - reflexivity.
  - eapply Forall_impl; [exact two_days_table_typed|]. intros p H. apply H.
  - exists top, rest. split; [exact E|]. split; [exact Hperm | exact Hlen].
Defined.

(** On the sample table the post with 99 views is ranked before the
    post with one, a limit of [-1] drops the last of the two, and
    ranking by engagement puts the post with one like on one view
    first. *)
Example top_posts_samples :
  fst_result (DataAggregator.get_top_posts Sample.quiet 1 "views" Sample.two_days)
  = Some [Sample.late_post]
  /\ fst_result (DataAggregator.get_top_posts Sample.quiet (-1) "likes"
                   Sample.two_days)
     = Some [Sample.late_post]
  /\ fst_result (DataAggregator.get_top_posts Sample.quiet 10 "er" Sample.two_days)
     = Some [Sample.early_post; Sample.late_post].
Proof.
  repeat split; apply (bool_decide_unpack _); vm_compute; exact I.
Qed.

(* ------------------------------------------------------------------ *)
(** ** The aggregator: authors and breakdown *)
(* ------------------------------------------------------------------ *)

Section AuthorFacts.
Import DataAggregator.

Lemma owners_cons kind (p : dict) posts :
  owners kind (p :: posts)
  = if (negb (bool_decide (get p "owner_id" = VNone))
        && match kind with
           | Some k => bool_decide (get p "source_type" = VStr k)
           | None => true
           end)%bool
    then {[ get p "owner_id" ]} ∪ owners kind posts
    else owners kind posts.
Proof. unfold owners. simpl. now destruct (_ && _)%bool. Qed.

Lemma owners_perm kind posts posts' :
  posts ≡ₚ posts' -> owners kind posts = owners kind posts'.
Proof.
  intros H. unfold owners. apply list_to_set_perm_L.
  apply Permutation_map. now apply filter_perm.
Qed.

Lemma union_shuffle (X Y Z : gset value) : X ∪ (Y ∪ Z) = (Y ∪ X) ∪ Z.
Proof. now rewrite (assoc_L (∪)), (comm_L (∪) X Y). Qed.

Lemma fold_add_author posts (a g u : gset value) :
  fold_left add_author posts (a, g, u)
  = (owners None posts ∪ a, owners (Some "group") posts ∪ g,
     owners (Some "user") posts ∪ u).
Proof.
  revert a g u. induction posts as [|p posts IH]; intros a g u.
  - simpl. unfold owners. simpl. now rewrite !(left_id_L ∅ (∪)).
  - cbn [fold_left]. rewrite !owners_cons. unfold add_author at 2.
    destruct (bool_decide (get p "owner_id" = VNone)) eqn:Hn; cbn [negb andb].
    { apply IH. }
    destruct (bool_decide (get p "source_type" = VStr "group")) eqn:Hg.
    { apply bool_decide_eq_true_1 in Hg.
      rewrite (bool_decide_eq_false_2 (get p "source_type" = VStr "user"))
        by (rewrite Hg; discriminate).
      rewrite IH. repeat (apply (f_equal2 pair));
        first [reflexivity | apply union_shuffle]. }
    destruct (bool_decide (get p "source_type" = VStr "user")) eqn:Hu;
      rewrite IH; repeat (apply (f_equal2 pair));
      first [reflexivity | apply union_shuffle].
Qed.

Lemma owners_subset kind posts : owners kind posts ⊆ owners None posts.
Proof.
  unfold owners. intros v Hv. apply elem_of_list_to_set in Hv.
  apply elem_of_list_to_set.
  apply list_elem_of_fmap in Hv as (p & -> & Hp). apply list_elem_of_fmap.
  exists p. split; [reflexivity|].
  apply list_elem_of_In, filter_In in Hp as [Hin Hc].
  apply list_elem_of_In, filter_In. split; [exact Hin|].
  apply andb_true_iff in Hc as [Hc _]. now rewrite Hc.
Qed.

Lemma owners_size kind posts : (size (owners kind posts) <= length posts)%nat.
Proof.
  induction posts as [|p posts IH].
  - exact (Nat.le_refl 0).
  - rewrite owners_cons. destruct (_ && _)%bool; simpl; [|lia].
    rewrite size_union_alt, size_singleton.
    pose proof (subseteq_size (owners kind posts ∖ {[get p "owner_id"]})
                  (owners kind posts)) as Hs.
    assert (Hsub : owners kind posts ∖ {[get p "owner_id"]} ⊆ owners kind posts)
      by (intros v Hv; now apply elem_of_difference in Hv as [Hv _]).
    specialize (Hs Hsub). lia.
Qed.

(** In a table of well formed rows every author is a group or a user,
    and none is both. *)
Lemma owners_split posts :
  Forall well_formed posts ->
  owners None posts = owners (Some "group") posts ∪ owners (Some "user") posts
  /\ owners (Some "group") posts ## owners (Some "user") posts.
Proof.
  intros Hwf.
  assert (Hmem : forall kind v,
             v ∈ owners kind posts <->
             exists p : dict,
               p ∈ posts /\ get p "owner_id" = v /\ v <> VNone
               /\ match kind with
                  | Some k => get p "source_type" = VStr k
                  | None => True
                  end).
  { intros kind v. unfold owners. rewrite elem_of_list_to_set, list_elem_of_fmap.
    split.
    - intros (p & -> & Hp). apply list_elem_of_In, filter_In in Hp as [Hin Hc].
      apply andb_true_iff in Hc as [Hc1 Hc2].
      apply negb_true_iff, bool_decide_eq_false_1 in Hc1.
      exists p. split; [now apply list_elem_of_In|]. split; [reflexivity|].
      split; [exact Hc1|]. destruct kind; [|exact I].
      now apply bool_decide_eq_true_1 in Hc2.
    - intros (p & Hin & <- & Hnn & Hk). exists p. split; [reflexivity|].
      apply list_elem_of_In, filter_In. split; [now apply list_elem_of_In|].
      apply andb_true_iff. split.
      + apply negb_true_iff. now apply bool_decide_eq_false_2.
      + destruct kind; [|reflexivity]. now apply bool_decide_eq_true_2. }
  assert (Hkind : forall p : dict, p ∈ posts ->
             exists o, get p "owner_id" = VInt o
                       /\ get p "source_type" = VStr (source_kind o)).
  { intros p Hp. rewrite Forall_forall in Hwf.
    destruct (Hwf p Hp) as (o & n & name & _ & _ & _ & _ & Ho & Hs & _).
    exists o. unfold get. now rewrite Ho, Hs. }
  split.
  - apply set_eq. intros v. rewrite elem_of_union, !Hmem. split.
    + intros (p & Hin & Hv & Hnn & _).
      destruct (Hkind p Hin) as (o & Ho & Hs). unfold source_kind in Hs.
      destruct (o <? 0); [left | right]; exists p; auto.
    + intros [(p & Hin & Hv & Hnn & _) | (p & Hin & Hv & Hnn & _)];
        exists p; auto.
  - intros v Hg Hu. apply Hmem in Hg as (p & Hin & Hv & _ & Hk).
    apply Hmem in Hu as (q & Hin' & Hv' & _ & Hk').
    destruct (Hkind p Hin) as (o & Ho & Hs).
    destruct (Hkind q Hin') as (o' & Ho' & Hs').
    assert (o = o') by congruence. subst o'.
    rewrite Hs in Hk. rewrite Hs' in Hk'. rewrite Hk in Hk'. discriminate Hk'.
Qed.

Lemma get_unique_authors_count_run env w :
  let posts := if sql_fault env (tick w) then [] else table w in
  get_unique_authors_count env w
  = (Ret (AuthorCounts (Z.of_nat (size (owners None posts)))
            (Z.of_nat (size (owners (Some "group") posts)))
            (Z.of_nat (size (owners (Some "user") posts)))),
     tock w).
Proof.
  cbv zeta. unfold get_unique_authors_count, bind. rewrite get_all_posts_run.
  destruct (sql_fault env (tick w)); [reflexivity|].
  pose proof (merge_sort_Permutation Database.newer_first (table w)) as Hperm.
  rewrite <- !(owners_perm _ _ _ Hperm).
  destruct (merge_sort Database.newer_first (table w)) as [|p posts];
    [reflexivity|].
  rewrite fold_add_author. now rewrite !(right_id_L ∅ (∪)).
Qed.

End AuthorFacts.

(** [get_unique_authors_count] never raises and writes nothing.  When
    the storage answers, the three figures are the numbers of distinct
    owner ids, NULL apart, among all posts, among the posts of groups
    and among the posts of users; the last two are at most the first,
    which is at most the number of posts; and in a store that the
    collector has filled they add up to it.  When the storage fails
    the figures are 0. *)
Theorem unique_authors_counted env w :
  exists counts,
    DataAggregator.get_unique_authors_count env w = (Ret counts, tock w)
    /\ (sql_fault env (tick w) = true -> counts = AuthorCounts 0 0 0)
    /\ (sql_fault env (tick w) = false ->
        authors_total counts = Z.of_nat (size (owners None (table w)))
        /\ authors_groups counts
           = Z.of_nat (size (owners (Some "group") (table w)))
        /\ authors_users counts
           = Z.of_nat (size (owners (Some "user") (table w)))
        /\ 0 <= authors_groups counts <= authors_total counts
        /\ 0 <= authors_users counts <= authors_total counts
        /\ authors_total counts <= Z.of_nat (length (table w))
        /\ (reachable w ->
            authors_total counts = authors_groups counts + authors_users counts)).
Proof.
  rewrite get_unique_authors_count_run. eexists. split; [reflexivity|].
  destruct (sql_fault env (tick w)).
  - split; [reflexivity | discriminate].
  - split; [discriminate|]. intros _.
    cbn [authors_total authors_groups authors_users].
    pose proof (subseteq_size _ _ (owners_subset (Some "group") (table w))).
    pose proof (subseteq_size _ _ (owners_subset (Some "user") (table w))).
    pose proof (owners_size None (table w)).
    repeat split; try lia.
    intros Hw. apply reachable_well_formed in Hw.
    destruct (owners_split (table w) Hw) as [Heq Hdisj].
    rewrite Heq, size_union by exact Hdisj. lia.
Qed.

Section BreakdownFacts.
Import DataAggregator.

Lemma count_if_perm test posts posts' :
  posts ≡ₚ posts' -> count_if test posts = count_if test posts'.
Proof.
  intros H. unfold count_if. f_equal. apply Permutation_length.
  now apply filter_perm.
Qed.

Lemma count_if_bounds test posts :
  0 <= count_if test posts <= Z.of_nat (length posts).
Proof.
  unfold count_if. split; [lia|]. apply inj_le.
  induction posts as [|p posts IH]; simpl; [lia|].
  destruct (test p); simpl; lia.
Qed.

Lemma count_if_disjoint (f g : dict -> bool) posts :
  (forall p, f p = true -> g p = false) ->
  count_if f posts + count_if g posts <= Z.of_nat (length posts)
  /\ (Forall (fun p => f p = true \/ g p = true) posts ->
      count_if f posts + count_if g posts = Z.of_nat (length posts)).
Proof.
  intros Hfg. unfold count_if. induction posts as [|p posts [IH1 IH2]].
  - simpl. split; [lia | reflexivity].
  - cbn [List.filter]. destruct (f p) eqn:Ef.
    + rewrite (Hfg p Ef). cbn [length]. split; [lia|].
      intros H. inversion H; subst. specialize (IH2 ltac:(assumption)). lia.
    + destruct (g p) eqn:Eg; cbn [length].
      * split; [lia|]. intros H. inversion H; subst.
        specialize (IH2 ltac:(assumption)). lia.
      * split; [lia|]. intros H. inversion H as [|? ? [Hp | Hp] _]; congruence.
Qed.

Lemma get_breakdown_by_type_run env w :
  get_breakdown_by_type env w =
  if sql_fault env (tick w) then (Ret (Breakdown 0 0 0 0 (AuthorCounts 0 0 0)), tock w)
  else
    match table w with
    | [] => (Ret (Breakdown 0 0 0 0 (AuthorCounts 0 0 0)), tock w)
    | _ =>
        let with_video :=
          count_if (fun p => bool_decide (get_or p "has_video" (VInt 0) = VInt 1))
                   (table w) in
        match get_unique_authors_count env (tock w) with
        | (Ret counts, w') =>
            (Ret (Breakdown
                    (count_if (fun p => bool_decide (get p "source_type" = VStr "group"))
                              (table w))
                    (count_if (fun p => bool_decide (get p "source_type" = VStr "user"))
                              (table w))
                    with_video
                    (Z.of_nat (length (table w)) - with_video)
                    counts), w')
        | (Raise e, w') => (Raise e, w')
        end
    end.
Proof.
  unfold get_breakdown_by_type, bind. rewrite get_all_posts_run.
  destruct (sql_fault env (tick w)); [reflexivity|].
  pose proof (merge_sort_Permutation Database.newer_first (table w)) as Hperm.
  destruct (merge_sort Database.newer_first (table w)) as [|p posts] eqn:E.
  - apply Permutation_nil_l in Hperm. now rewrite <- Hperm.
  - destruct (table w) as [|q t] eqn:Et;
      [symmetry in Hperm; now apply Permutation_nil_cons in Hperm|].
    cbv zeta. rewrite !(count_if_perm _ _ _ Hperm).
    rewrite (Permutation_length Hperm).
    now destruct (get_unique_authors_count env (tock w)) as [[counts|e] w'].
Qed.

End BreakdownFacts.

(** [get_breakdown_by_type] never raises and writes nothing.  The posts
    with a video and the posts without add up to the number of posts
    read; the posts of groups and the posts of users are at most that
    many, and in a store that the collector has filled exactly that
    many; the authors it reports are those that
    [get_unique_authors_count] finds in its own scan, made after the
    first. *)
Theorem breakdown_adds_up env w :
  exists b w',
    DataAggregator.get_breakdown_by_type env w = (Ret b, w')
    /\ table w' = table w
    /\ by_video_with b + by_video_without b
       = (if sql_fault env (tick w) then 0 else Z.of_nat (length (table w)))
    /\ 0 <= by_video_with b /\ 0 <= by_video_without b
    /\ 0 <= by_source_groups b /\ 0 <= by_source_users b
    /\ by_source_groups b + by_source_users b
       <= by_video_with b + by_video_without b
    /\ (reachable w -> sql_fault env (tick w) = false ->
        by_source_groups b + by_source_users b = Z.of_nat (length (table w)))
    /\ (table w <> [] -> sql_fault env (tick w) = false ->
        DataAggregator.get_unique_authors_count env (tock w)
        = (Ret (unique_authors b), w')).
Proof.
  rewrite get_breakdown_by_type_run.
  destruct (sql_fault env (tick w)).
  { eexists _, _. split; [reflexivity|]. cbn. repeat split; try lia; discriminate. }
  destruct (table w) as [|q t] eqn:Et.
  { eexists _, _. split; [reflexivity|]. cbn. rewrite Et.
    repeat split; try lia; congruence. }
  rewrite <- Et. cbv zeta. rewrite get_unique_authors_count_run.
  eexists _, _. split; [reflexivity|].
  cbn [by_video_with by_video_without by_source_groups by_source_users
       unique_authors tock table].
  pose proof (count_if_bounds
                (fun p => bool_decide (get_or p "has_video" (VInt 0) = VInt 1))
                (table w)) as Hv.
  pose proof (count_if_bounds
                (fun p => bool_decide (get p "source_type" = VStr "group"))
                (table w)) as Hg.
  pose proof (count_if_bounds
                (fun p => bool_decide (get p "source_type" = VStr "user"))
                (table w)) as Hu.
  destruct (count_if_disjoint
              (fun p => bool_decide (get p "source_type" = VStr "group"))
              (fun p => bool_decide (get p "source_type" = VStr "user"))
              (table w)) as [Hle Heq].
  { intros p Hp. apply bool_decide_eq_true_1 in Hp.
    apply bool_decide_eq_false_2. rewrite Hp. discriminate. }
  split; [reflexivity|]. split; [lia|]. split; [lia|]. split; [lia|].
  split; [lia|]. split; [lia|]. split; [lia|]. split; [|reflexivity].
  intros Hw _. apply Heq. apply reachable_well_formed in Hw.
  eapply Forall_impl; [exact Hw|]. intros p (o & n & name & Hp).
  destruct Hp as (_ & _ & _ & _ & _ & Hs & _). unfold get. rewrite Hs.
  unfold source_kind. destruct (o <? 0); [left | right]; reflexivity.
Qed.

(* ------------------------------------------------------------------ *)
(** ** The collect mode of the entry point *)
(* ------------------------------------------------------------------ *)

Lemma client_init_run token_check w :
  VKCollector.__init__ token_check w =
  (match token_check (tick w) with
   | Response _ => Ret tt
   | ApiFailure code => if code =? 5 then Raise (ApiError 5) else Ret tt
   | HttpFailure => Raise ApiHttpError
   | Crash => Raise RuntimeError
   end,
   VKAPIClient.after_call "users.get" false w).
Proof.
  unfold VKCollector.__init__, VKAPIClient.__init__, VKAPIClient._validate_token,
    try_except, bind, VKAPIClient.request, VKAPIClient.after_call.
  destruct (token_check (tick w)) as [a|code| |]; try reflexivity.
  destruct (Z.eqb_spec code 5) as [->|Hne]; [reflexivity|].
  destruct code as [|p|p]; try reflexivity.
  do 3 (destruct p as [p|p|]; try reflexivity); congruence.
Qed.

Lemma client_init_accepted token_check w :
  (exists w', VKCollector.__init__ token_check w = (Ret tt, w'))
  <-> token_accepted (token_check (tick w)).
Proof.
  rewrite client_init_run. unfold token_accepted.
  destruct (token_check (tick w)) as [a|code| |].
  - split; [auto | eauto].
  - destruct (Z.eqb_spec code 5) as [->|Hne].
    + split; [intros [w' H]; discriminate H | congruence].
    + split; [auto | eauto].
  - split; [intros [w' H]; discriminate H | tauto].
  - split; [intros [w' H]; discriminate H | tauto].
Qed.

Lemma collect_new_posts_returns env hashtag w :
  (exists n w', VKCollector.collect_new_posts env hashtag w = (Ret n, w'))
  <-> newsfeed_search env (tick w) (search_query hashtag) 100 <> Crash.
Proof.
  rewrite collect_new_posts_run, search_posts_run.
  change (Z.min 100 200) with 100. fold (search_query hashtag).
  destruct (newsfeed_search env (tick w) _ _) as [items| | |].
  - split; [discriminate|]. intros _.
    destruct (default [] items) as [|post posts]; [eauto|].
    destruct (collect_loop_effect env hashtag (post :: posts) 0%nat
                (VKAPIClient.after_call "newsfeed.search" true w))
      as (n' & w' & rows & ms & E & _).
    exists n', w'. exact E.
  - split; [discriminate | eauto].
  - split; [discriminate | eauto].
  - split; [intros (n & w' & H); discriminate H | congruence].
Qed.


(** In a run of the collect mode in which the token is accepted, the
    search is answered and no request fails in a way the client does not
    handle, the trial of the token is the one request that no pause
    follows: the search comes right after it.  Every later request, the
    search, at most one name lookup for each post found and at most one
    [wall.getById] for each stored post, is followed by a pause. *)
Theorem run_collect_mode_paced env token_check HASHTAG w items :
  token_accepted (token_check (tick w)) ->
  orderly env ->
  (forall q c, newsfeed_search env (S (S (tick w))) q c = Response items) ->
  exists lookups refreshes,
    journal (snd (Main.run_collect_mode env token_check HASHTAG w))
    = (journal w ++ EvCall "users.get"
         :: paced ("newsfeed.search" :: lookups
                   ++ replicate refreshes "wall.getById"))%list
    /\ Forall (fun m => m = "groups.getById" \/ m = "users.get") lookups
    /\ (length lookups <= length (default [] items))%nat
    /\ (refreshes
        <= length (table (snd (Main.run_collect_mode env token_check HASHTAG w))))%nat.
Proof.
  intros Ha Ho Hs.
  apply client_init_accepted in Ha. destruct Ha as [w1 Ei].
  pose proof (client_init_run token_check w) as Hinit.
  rewrite Ei in Hinit. injection Hinit as _ Hw1.
  unfold Main.run_collect_mode, try_except, bind. rewrite Ei.
  unfold now.
  set (w2 := World (table w1) _ (journal w1) (S (tick w1))).
  assert (Htick : tick w2 = S (S (tick w))) by (subst w2 w1; reflexivity).
  assert (Hj2 : journal w2 = (journal w ++ [EvCall "users.get"])%list)
    by (subst w2 w1; reflexivity).
  destruct (collect_new_posts_effect env HASHTAG w2)
    as (r & w3 & rows & ms & E & Ht & Hf & Hr & Hm & Hj).
  rewrite <- Htick in Hs. destruct (Hj items Ho Hs) as [Hj3 Hl].
  assert (Hret : exists n, r = Ret n).
  { destruct r as [n|e]; [eauto|]. exfalso.
    assert (Hc : newsfeed_search env (tick w2) (search_query HASHTAG) 100 <> Crash)
      by (rewrite Hs; discriminate).
    apply collect_new_posts_returns in Hc. destruct Hc as (n & w' & Hc).
    rewrite E in Hc. discriminate Hc. }
  destruct Hret as [n ->]. rewrite E.
  destruct (update_all_posts_effect env w3) as (s' & w4 & k & E4 & Hrf & Hk & Hj4).
  rewrite E4. unfold ret. cbn [snd journal table].
  exists ms, k. split.
  - rewrite (Hj4 (proj1 (proj2 Ho))), Hj3, Hj2.
    change (paced ("newsfeed.search" :: ms ++ replicate k "wall.getById"))
      with (paced (("newsfeed.search" :: ms) ++ replicate k "wall.getById")).
    rewrite paced_app, <- !app_assoc. reflexivity.
  - split; [exact Hm|]. split; [exact Hl|].
    apply Forall2_length in Hrf. rewrite <- Hrf. exact Hk.
Qed.

Lemma run_collect_mode_paced_witness :
  exists lookups refreshes,
    journal (snd (Main.run_collect_mode Sample.busy (fun _ => Response [])
                    "tag" Sample.empty_store))
    = EvCall "users.get"
        :: paced ("newsfeed.search" :: lookups
                  ++ replicate refreshes "wall.getById")
    /\ (length lookups <= 2)%nat.
Proof.
  destruct (run_collect_mode_paced Sample.busy (fun _ => Response []) "tag"
              Sample.empty_store _ I orderly_busy (fun _ _ => eq_refl))
    as (lookups & refreshes & Hj & _ & Hl & _).
  exists lookups, refreshes. split; [exact Hj | exact Hl].
Defined.

(* ------------------------------------------------------------------ *)
(** ** Ingest and refresh together *)
(* ------------------------------------------------------------------ *)




(* ------------------------------------------------------------------ *)
(** ** The sheets: rows and the ER column *)
(* ------------------------------------------------------------------ *)

Section SheetFacts.
Import SheetsFormatter.

(** The rate that both sheets compute for a post with integer metrics. *)
Lemma sheet_rate (post : dict) :
  metrics_typed post ->
  exists er,
    (let+ sum := PyText.add (get_or post "likes" (VInt 0))
                            (get_or post "comments" (VInt 0)) in
     let+ engagement := PyText.add sum (get_or post "reposts" (VInt 0)) in
     let+ has_views := PyText.positive (get_or post "post_views" (VInt 0)) in
     let+ er :=
       if has_views then
         let+ ratio := PyText.truediv engagement (get_or post "post_views" (VInt 0)) in
         Ret (PyFloat.round2 (PyFloat.mul_int ratio 100))
       else Ret PyFloat.zero in
     Ret er) = Ret er
    /\ (let+ has_views := PyText.positive (get_or post "post_views" (VInt 0)) in
        let+ er :=
          if has_views then
            let+ sum := PyText.add (get_or post "likes" (VInt 0))
                                   (get_or post "comments" (VInt 0)) in
            let+ engagement := PyText.add sum (get_or post "reposts" (VInt 0)) in
            let+ ratio := PyText.truediv engagement (get_or post "post_views" (VInt 0)) in
            Ret (PyFloat.round2 (PyFloat.mul_int ratio 100))
          else Ret PyFloat.zero in
        Ret er) = Ret er
    /\ (0 <= int_field "post_views" post ->
        DataAggregator.calculate_engagement_rate post = Ret er)
    /\ (int_field "post_views" post < 0 -> er = PyFloat.zero).
Proof.
  intros Hw.
  destruct (Z.eq_dec (int_field "post_views" post) 0) as [Hz|Hnz].
  - exists PyFloat.zero. destruct Hw as (Hv & Hl & Hc & Hr).
    apply int_cell_field in Hv as [Ev _]. apply int_cell_field in Hl as [El _].
    apply int_cell_field in Hc as [Ec _]. apply int_cell_field in Hr as [Er _].
    rewrite Ev, El, Ec, Er, Hz. cbn. repeat split; auto.
    intros _. apply engagement_rate_zero_views. now rewrite Ev, Hz.
  - pose proof (engagement_rate_formula post Hw Hnz) as Hf.
    destruct Hw as (Hv & Hl & Hc & Hr).
    apply int_cell_field in Hv as [Ev Bv]. apply int_cell_field in Hl as [El Bl].
    apply int_cell_field in Hc as [Ec Bc]. apply int_cell_field in Hr as [Er Br].
    rewrite Ev, El, Ec, Er.
    cbn [PyText.add PyText.positive PyText.truediv rbind].
    destruct (Z.ltb_spec 0 (int_field "post_views" post)) as [Hpos|Hneg].
    + rewrite int_truediv_int64; [| |exact Hnz].
      * eexists. cbn [rbind]. split; [reflexivity|]. split; [reflexivity|].
        split; [intros _; exact Hf | lia].
      * change (2 ^ 66) with 73786976294838206464.
        change (2 ^ 63) with 9223372036854775808 in *. lia.
    + exists PyFloat.zero. cbn [rbind]. repeat split; auto. lia.
Qed.

Lemma all_posts_row_typed strftime (post : dict) :
  well_typed post ->
  (exists date, strftime (int_field "date_published" post) = Ret date) ->
  exists row,
    all_posts_row strftime post = Ret row
    /\ length row = length all_posts_headers
    /\ rate_shown post row.
Proof.
  intros [Hd Hw] [date Hdate].
  destruct (sheet_rate post Hw) as (er & _ & He & H0 & Hneg).
  apply int_cell_field in Hd as [Ed _].
  unfold all_posts_row. cbv zeta.
  destruct (PyText.positive (get_or post "post_views" (VInt 0))) as [b|e];
    [|discriminate He].
  cbn [rbind] in He |- *.
  destruct (if b then _ else _) as [er'|e]; [|discriminate He].
  cbn [rbind] in He |- *. injection He as ->.
  rewrite Ed. cbn [format_date]. rewrite Hdate. cbn [rbind].
  eexists. split; [reflexivity|]. split; [reflexivity|].
  exists er. split; [reflexivity|]. auto.
Qed.

Lemma top_row_typed i (post : dict) :
  metrics_typed post ->
  exists row,
    top_row i post = Ret row
    /\ length row = 7%nat
    /\ head row = Some (CValue (VInt i))
    /\ rate_shown post row.
Proof.
  intros Hw. destruct (sheet_rate post Hw) as (er & He & _ & H0 & Hneg).
  unfold top_row. cbv zeta.
  destruct (PyText.add (get_or post "likes" (VInt 0)) _) as [sum|e];
    [|discriminate He].
  cbn [rbind] in He |- *.
  destruct (PyText.add sum _) as [engagement|e]; [|discriminate He].
  cbn [rbind] in He |- *.
  destruct (PyText.positive _) as [b|e]; [|discriminate He].
  cbn [rbind] in He |- *.
  destruct (if b then _ else _) as [er'|e]; [|discriminate He].
  cbn [rbind] in He |- *. injection He as ->.
  eexists. split; [reflexivity|]. split; [reflexivity|].
  split; [reflexivity|]. exists er. split; [reflexivity|]. auto.
Qed.

Lemma top_rows_typed i (posts : list dict) :
  Forall metrics_typed posts ->
  exists rows,
    top_rows i posts = Ret rows
    /\ length rows = length posts
    /\ forall (k : nat) (post : dict),
         posts !! k = Some post ->
         exists row,
           rows !! k = Some row
           /\ length row = 7%nat
           /\ head row = Some (CValue (VInt (i + Z.of_nat k)))
           /\ rate_shown post row.
Proof.
  intros Hall. revert i. induction Hall as [|post posts Hp Hall IH]; intros i.
  - exists []. split; [reflexivity|]. split; [reflexivity|].
    intros k post Hk. discriminate Hk.
  - destruct (top_row_typed i post Hp) as (row & Er & Hlen & Hhd & Hrate).
    destruct (IH (i + 1)) as (rows & Erows & Hl & Hrows).
    exists (row :: rows). cbn [top_rows]. rewrite Er, Erows. cbn [rbind].
    split; [reflexivity|]. split; [cbn; now rewrite Hl|].
    intros [|k] q Hk.
    + injection Hk as <-. exists row. rewrite Z.add_0_r. auto.
    + destruct (Hrows k q Hk) as (r & Hr & Hlr & Hhr & Hrr).
      exists r. split; [exact Hr|]. split; [exact Hlr|]. split; [|exact Hrr].
      rewrite Hhr. do 3 f_equal. lia.
Qed.

End SheetFacts.

(** For posts with integer metrics and publication times that the host
    can render, [format_all_posts_sheet] does not raise.  It returns the
    header and one row for each post, in the order of the posts, each as
    long as the header.  The ER% cell of a row is what
    [calculate_engagement_rate] returns for the post when the views are
    not negative, and [0.0] when they are. *)
Theorem all_posts_sheet_rows strftime (posts : list dict) :
  Forall well_typed posts ->
  (forall post : dict, post ∈ posts ->
     exists date, strftime (int_field "date_published" post) = Ret date) ->
  exists rows,
    SheetsFormatter.format_all_posts_sheet strftime posts
    = Ret (SheetsFormatter.all_posts_headers :: rows)
    /\ Forall2 (fun (post : dict) row =>
                  length row = length SheetsFormatter.all_posts_headers
                  /\ rate_shown post row)
               posts rows.
Proof.
  intros Hall Hdates. unfold SheetsFormatter.format_all_posts_sheet. cbv zeta.
  assert (H : exists rows,
             map_result (SheetsFormatter.all_posts_row strftime) posts = Ret rows
             /\ Forall2 (fun (post : dict) row =>
                           length row = length SheetsFormatter.all_posts_headers
                           /\ rate_shown post row) posts rows).
  { induction Hall as [|post posts Hp Hall IH].
    - exists []. split; [reflexivity | constructor].
    - destruct (all_posts_row_typed strftime post Hp) as (row & Er & Hlen & Hrate).
      { apply Hdates. apply list_elem_of_here. }
      destruct IH as (rows & Erows & Hrows).
      { intros q Hq. apply Hdates. now apply list_elem_of_further. }
      exists (row :: rows). cbn [map_result]. rewrite Er, Erows.
      split; [reflexivity|]. constructor; auto. }
  destruct H as (rows & -> & Hrows). exists rows. split; [reflexivity | exact Hrows].
Qed.

Lemma all_posts_sheet_rows_witness :
  exists rows,
    SheetsFormatter.format_all_posts_sheet (fun _ => Ret "01.01.2024 10:00")
      [Sample.late_post; Sample.early_post]
    = Ret (SheetsFormatter.all_posts_headers :: rows)
    /\ length rows = 2%nat.
Proof.
  destruct (all_posts_sheet_rows (fun _ => Ret "01.01.2024 10:00")
              [Sample.late_post; Sample.early_post] two_days_typed)
    as (rows & E & Hrows).
  - intros post _. eexists. reflexivity.
  - exists rows. split; [exact E|].
    apply Forall2_length in Hrows. now rewrite <- Hrows.
Defined.

(** For posts with integer metrics [format_top_posts_sheet] does not
    raise.  It returns three tables, by views, by engagement and by
    comments, each under a title and the header and with an empty row
    before the second and the third.  A table has one row of seven cells
    for each post, in the order of the posts and numbered from 1, and
    its ER% cell is what [calculate_engagement_rate] returns for the
    post when the views are not negative, and [0.0] when they are. *)
Theorem top_posts_sheet_tables (top_by_views top_by_er top_by_comments : list dict) :
  Forall metrics_typed top_by_views ->
  Forall metrics_typed top_by_er ->
  Forall metrics_typed top_by_comments ->
  exists by_views by_er by_comments,
    SheetsFormatter.format_top_posts_sheet top_by_views top_by_er top_by_comments
    = Ret ([ SheetsFormatter.top_title "ТОП-10 ПО ПРОСМОТРАМ";
             SheetsFormatter.top_headers ] ++ by_views
           ++ [ SheetsFormatter.top_title "";
                SheetsFormatter.top_title "ТОП-10 ПО ВОВЛЕЧЁННОСТИ (ER)";
                SheetsFormatter.top_headers ] ++ by_er
           ++ [ SheetsFormatter.top_title "";
                SheetsFormatter.top_title "ТОП-10 ПО КОММЕНТАРИЯМ";
                SheetsFormatter.top_headers ] ++ by_comments)%list
    /\ top_table top_by_views by_views
    /\ top_table top_by_er by_er
    /\ top_table top_by_comments by_comments.
Proof.
  intros Hv He Hc.
  assert (Htable : forall posts : list dict,
             Forall metrics_typed posts ->
             exists rows, SheetsFormatter.top_rows 1 posts = Ret rows
                          /\ top_table posts rows).
  { intros posts Hp.
    destruct (top_rows_typed 1 posts Hp) as (rows & E & Hl & Hrows).
    exists rows. split; [exact E|]. split; [exact Hl|].
    intros i post Hi. destruct (Hrows i post Hi) as (row & Hr & Hlr & Hhr & Hrr).
    exists row. split; [exact Hr|]. split; [exact Hlr|]. split; [|exact Hrr].
    rewrite Hhr. do 3 f_equal. lia. }
  destruct (Htable _ Hv) as (by_views & Ev & Tv).
  destruct (Htable _ He) as (by_er & Ee & Te).
  destruct (Htable _ Hc) as (by_comments & Ec & Tc).
  exists by_views, by_er, by_comments.
  unfold SheetsFormatter.format_top_posts_sheet. rewrite Ev, Ee, Ec.
  split; [reflexivity|]. auto.
Qed.

Lemma two_days_metrics : Forall metrics_typed [Sample.late_post; Sample.early_post].
Proof.
  eapply Forall_impl; [exact two_days_typed|]. intros post [_ H]. exact H.
Qed.

Lemma top_posts_sheet_tables_witness :
  exists rows,
    SheetsFormatter.format_top_posts_sheet
      [Sample.late_post; Sample.early_post] [Sample.early_post] []
    = Ret rows
    /\ length rows = 11%nat.
Proof.
  destruct (top_posts_sheet_tables [Sample.late_post; Sample.early_post]
              [Sample.early_post] [] two_days_metrics)
    as (by_views & by_er & by_comments & E & [Lv _] & [Le _] & [Lc _]).
  - apply (Forall_inv_tail two_days_metrics).
  - constructor.
  - eexists. split; [exact E|].
    rewrite !length_app, Lv, Le, Lc. reflexivity.
Defined.

(* ------------------------------------------------------------------ *)
(** ** Numbers with grouped thousands *)
(* ------------------------------------------------------------------ *)

Section GroupFacts.
Import PyStr PyText.

#[local] Abbreviation S_ := string_of_list_ascii.

Lemma string_of_list_app l1 l2 : S_ (l1 ++ l2) = S_ l1 ++ S_ l2.
Proof. induction l1 as [|c l1 IH]; simpl; [reflexivity | now rewrite IH]. Qed.

Lemma string_of_list_length l : String.length (S_ l) = length l.
Proof. induction l as [|c l IH]; simpl; [reflexivity | now rewrite IH]. Qed.

Lemma replace_app old new s1 s2 :
  replace old new (s1 ++ s2) = replace old new s1 ++ replace old new s2.
Proof. induction s1 as [|c s1 IH]; simpl; [reflexivity | now rewrite IH]. Qed.

Lemma replace_absent old new l :
  Forall (fun c => Ascii.eqb c old = false) l -> replace old new (S_ l) = S_ l.
Proof.
  induction 1 as [|c l Hc _ IH]; simpl; [reflexivity | now rewrite Hc, IH].
Qed.

Lemma sep_free_list sep l :
  Forall (fun c => Ascii.eqb c sep = false) l -> sep_free sep (S_ l).
Proof. induction 1; simpl; auto. Qed.

Lemma split_nonempty sep s : split sep s <> [].
Proof.
  induction s as [|c s IH]; simpl; [discriminate|].
  destruct (Ascii.eqb c sep); [discriminate|].
  destruct (split sep s); [contradiction | discriminate].
Qed.

Lemma split_snoc sep x y :
  sep_free sep y -> split sep (x ++ String sep y) = (split sep x ++ [y])%list.
Proof.
  intros Hy. induction x as [|c x IH]; simpl.
  - now rewrite Ascii.eqb_refl, split_sep_free.
  - destruct (Ascii.eqb c sep); [now rewrite IH|].
    rewrite IH. pose proof (split_nonempty sep x) as Hne.
    destruct (split sep x); [contradiction | reflexivity].
Qed.

Lemma string_app_assoc (s1 s2 s3 : string) : (s1 ++ s2) ++ s3 = s1 ++ (s2 ++ s3).
Proof.
  induction s1 as [|c s1 IH]; [reflexivity|].
  change (String c ((s1 ++ s2) ++ s3) = String c (s1 ++ (s2 ++ s3))).
  now rewrite IH.
Qed.

Lemma concat_snoc l y : String.concat "" (l ++ [y]) = String.concat "" l ++ y.
Proof.
  induction l as [|x l IH]; [reflexivity|].
  destruct l as [|x' l].
  - cbn. reflexivity.
  - change (String.concat "" ((x :: x' :: l) ++ [y]))
      with (x ++ String.concat "" ((x' :: l) ++ [y])).
    rewrite IH.
    change (String.concat "" (x :: x' :: l)) with (x ++ String.concat "" (x' :: l)).
    now rewrite string_app_assoc.
Qed.

(** A character that is neither the comma nor the space. *)
#[local] Abbreviation plain c :=
  (Ascii.eqb c "," = false /\ Ascii.eqb c " " = false).

Lemma digit_plain c : is_digit c = true -> plain c.
Proof.
  intros H. split.
  - destruct (Ascii.eqb_spec c ",") as [->|]; [discriminate H | reflexivity].
  - destruct (Ascii.eqb_spec c " ") as [->|]; [discriminate H | reflexivity].
Qed.

Lemma grouped_short l :
  l <> [] -> (length l <= 3)%nat -> Forall (fun c => plain c) l ->
  exists first rest,
    split " " (replace "," " " (S_ (rev (group_thousands l)))) = first :: rest
    /\ String.concat "" (first :: rest) = S_ (rev l)
    /\ Forall (fun g => String.length g = 3%nat) rest
    /\ (1 <= String.length first <= 3)%nat.
Proof.
  intros Hne Hlen Hp.
  assert (Hg : group_thousands l = l).
  { destruct l as [|a [|b [|c [|d l]]]]; try reflexivity. simpl in Hlen. lia. }
  rewrite Hg.
  assert (Hr : Forall (fun c => plain c) (rev l)) by now apply Forall_rev.
  rewrite replace_absent
    by (eapply Forall_impl; [exact Hr | intros c [H _]; exact H]).
  rewrite split_sep_free
    by (apply sep_free_list; eapply Forall_impl; [exact Hr | intros c [_ H]; exact H]).
  exists (S_ (rev l)), []. split; [reflexivity|]. split; [reflexivity|].
  split; [constructor|].
  rewrite string_of_list_length, length_rev.
  destruct l; [contradiction | simpl in *; lia].
Qed.

Lemma grouped n :
  forall l, (length l <= n)%nat -> l <> [] -> Forall (fun c => plain c) l ->
  exists first rest,
    split " " (replace "," " " (S_ (rev (group_thousands l)))) = first :: rest
    /\ String.concat "" (first :: rest) = S_ (rev l)
    /\ Forall (fun g => String.length g = 3%nat) rest
    /\ (1 <= String.length first <= 3)%nat.
Proof.
  induction n as [|n IH]; intros l Hlen Hne Hp.
  - destruct l; [contradiction | simpl in Hlen; lia].
  - destruct l as [|a [|b [|c [|d l]]]];
      try (apply grouped_short; [exact Hne | simpl; lia | exact Hp]).
    destruct (IH (d :: l)) as (first & rest & Es & Ec & Hrest & Hfirst).
    { simpl in *. lia. }
    { discriminate. }
    { inversion Hp as [|? ? _ Hp1]; inversion Hp1 as [|? ? _ Hp2];
        inversion Hp2 as [|? ? _ Hp3]; exact Hp3. }
    assert (Habc : Forall (fun c => plain c) [c; b; a]).
    { inversion Hp as [|? ? Ha Hp1]; inversion Hp1 as [|? ? Hb Hp2];
        inversion Hp2 as [|? ? Hc _]. repeat constructor; tauto. }
    change (group_thousands (a :: b :: c :: d :: l))
      with (a :: b :: c :: ","%char :: group_thousands (d :: l)).
    assert (Hrev : forall x : list ascii,
               rev (a :: b :: c :: x) = (rev x ++ [c; b; a])%list).
    { intros x. simpl. now rewrite <- !app_assoc. }
    rewrite Hrev.
    change (rev (","%char :: group_thousands (d :: l)))
      with (rev (group_thousands (d :: l)) ++ [","%char])%list.
    rewrite <- app_assoc, string_of_list_app, replace_app.
    change (S_ ([","%char] ++ [c; b; a])) with (String "," (S_ [c; b; a])).
    change (replace "," " " (String "," (S_ [c; b; a])))
      with (String " " (replace "," " " (S_ [c; b; a]))).
    rewrite (replace_absent _ _ [c; b; a])
      by (eapply Forall_impl; [exact Habc | intros x [H _]; exact H]).
    rewrite split_snoc
      by (apply sep_free_list; eapply Forall_impl;
          [exact Habc | intros x [_ H]; exact H]).
    rewrite Es. exists first, (rest ++ [S_ [c; b; a]])%list.
    split; [reflexivity|]. split.
    + change (first :: rest ++ [S_ [c; b; a]])%list
        with ((first :: rest) ++ [S_ [c; b; a]])%list.
      rewrite concat_snoc, Ec, (Hrev (d :: l)), string_of_list_app. reflexivity.
    + split; [|exact Hfirst]. apply Forall_app. split; [exact Hrest|].
      constructor; [reflexivity | constructor].
Qed.

Lemma digits_of_nonneg n :
  0 <= n ->
  let ds := list_ascii_of_string (str_of_int n) in
  ds <> [] /\ Forall (fun c => plain c) ds.
Proof.
  intros Hn. destruct n as [|p|p]; [| |lia].
  - split; [discriminate|]. repeat constructor.
  - cbv zeta. rewrite str_of_int_pos.
    pose proof (numeral_digits (Pos.to_uint p)) as Hd.
    split.
    + pose proof (Unsigned.to_uint_nonnil p) as Hnn.
      destruct (Pos.to_uint p); try discriminate. congruence.
    + eapply Forall_impl; [exact Hd | intros c; apply digit_plain].
Qed.

Lemma format_number_split n :
  exists first rest,
    split " " (SheetsFormatter.format_number n) = first :: rest
    /\ String.concat "" (first :: rest) = str_of_int n
    /\ Forall (fun g => String.length g = 3%nat) rest
    /\ (1 <= String.length first - (if (n <? 0)%Z then 1 else 0) <= 3)%nat.
Proof.
  unfold SheetsFormatter.format_number, format_comma.
  destruct (digits_of_nonneg (Z.abs n) (Z.abs_nonneg n)) as [Hne Hp].
  set (ds := list_ascii_of_string (str_of_int (Z.abs n))) in *.
  destruct (grouped (length (rev ds)) (rev ds)) as (first & rest & Es & Ec & Hrest & Hfirst).
  { lia. }
  { intros Hnil. apply Hne. rewrite <- (rev_involutive ds), Hnil. reflexivity. }
  { now apply Forall_rev. }
  rewrite rev_involutive in Ec.
  assert (Hds : S_ ds = str_of_int (Z.abs n))
    by apply string_of_list_ascii_of_string.
  rewrite Hds in Ec.
  destruct (Z.ltb_spec n 0) as [Hneg|Hpos].
  - rewrite replace_app.
    change (replace "," " " "-") with "-".
    change (if true then 1%nat else 0%nat) with 1%nat.
    assert (Hm : forall x,
               split " " ("-" ++ x)
               = match split " " x with
                 | piece :: rest => String "-" piece :: rest
                 | [] => ["-"]
                 end) by reflexivity.
    exists (String "-" first), rest. rewrite Hm, Es.
    split; [reflexivity|]. split.
    + destruct n as [|p|p]; try lia.
      rewrite str_of_int_neg, <- str_of_int_pos.
      change (Z.abs (Z.neg p)) with (Z.pos p) in Ec. rewrite <- Ec.
      destruct rest; reflexivity.
    + split; [exact Hrest|]. simpl. lia.
  - exists first, rest.
    assert (He : forall x : string, "" ++ x = x) by reflexivity.
    rewrite He, Es.
    split; [reflexivity|]. split; [now rewrite Ec, Z.abs_eq|].
    split; [exact Hrest | lia].
Qed.

End GroupFacts.

(* ------------------------------------------------------------------ *)
(** ** The Telegram message *)
(* ------------------------------------------------------------------ *)

Section MessageFacts.
Import PyText.

Lemma len_app s1 s2 : len (s1 ++ s2) = (len s1 + len s2)%nat.
Proof.
  induction s1 as [|c s1 IH]; [reflexivity|].
  change (len (String c (s1 ++ s2)) = (len (String c s1) + len s2)%nat).
  cbn [len]. rewrite IH. now destruct (is_continuation c).
Qed.

Lemma len_prefix n s : (len (prefix n s) <= n)%nat.
Proof.
  revert n. induction s as [|c s IH]; intros n; cbn [prefix len]; [lia|].
  destruct (is_continuation c) eqn:Hc.
  - cbn [len]. rewrite Hc. apply IH.
  - destruct n as [|n]; cbn [len]; [lia|]. rewrite Hc. specialize (IH n). lia.
Qed.

(** Within the limit the text is left as it is; beyond it, the first
    4046 characters are kept and the notice of 44 characters is put
    after them. *)
Lemma truncation_bound (message : string) w :
  exists m,
    (if MessageFormatter.MAX_LENGTH <? Z.of_nat (len message) then
       ret (prefix (Z.to_nat (MessageFormatter.MAX_LENGTH - 50)) message
            ++ newline ++ newline
            ++ "_Сообщение обрезано из-за лимита Telegram_")
     else ret message) w = (Ret m, w)
    /\ (len m <= 4096)%nat.
Proof.
  unfold MessageFormatter.MAX_LENGTH.
  destruct (Z.ltb_spec 4096 (Z.of_nat (len message))) as [Hlong|Hshort].
  - eexists. split; [reflexivity|].
    rewrite len_app.
    pose proof (len_prefix (Z.to_nat (4096 - 50)) message) as Hp.
    change (Z.to_nat (4096 - 50)) with 4046%nat in *.
    assert (Hn : len (newline ++ newline
                      ++ "_Сообщение обрезано из-за лимита Telegram_") = 44%nat)
      by (vm_compute; reflexivity).
    rewrite Hn. lia.
  - exists message. split; [reflexivity | lia].
Qed.

Lemma format_number_int n :
  MessageFormatter._format_number (VInt n) = Ret (SheetsFormatter.format_number n).
Proof. reflexivity. Qed.

Lemma top_post_lines_typed i (posts : list dict) :
  Forall metrics_typed posts ->
  exists lines, MessageFormatter.top_post_lines i posts = Ret lines.
Proof.
  intros Hall. revert i. induction Hall as [|post posts Hp _ IH]; intros i.
  - eexists. reflexivity.
  - destruct Hp as (Hv & Hl & Hc & _).
    apply int_cell_field in Hv as [Ev _]. apply int_cell_field in Hl as [El _].
    apply int_cell_field in Hc as [Ec _].
    destruct (IH (S i)) as [more Hmore].
    cbn [MessageFormatter.top_post_lines]. cbv zeta.
    rewrite Ev, El, Ec, !format_number_int, Hmore. cbn [rbind].
    eexists. reflexivity.
Qed.

End MessageFacts.

(** [format_report_message] reads the clock once and changes nothing
    else.  Whatever the figures, the posts, the link and the renderings
    of the date and of the rate are, a message that it returns has at
    most 4096 characters; and it returns one when the first three of the
    top posts have integer metrics, and when there are no top posts. *)
Theorem report_message_within_limit env strftime_day format_2f total_stats
    last_24h_stats breakdown top_posts sheet_url unique_authors w :
  exists r w',
    MessageFormatter.format_report_message env strftime_day format_2f total_stats
      last_24h_stats breakdown top_posts sheet_url unique_authors w = (r, w')
    /\ table w' = table w
    /\ journal w' = journal w
    /\ tick w' = S (tick w)
    /\ (forall message, r = Ret message -> (PyText.len message <= 4096)%nat)
    /\ (Forall metrics_typed (take 3 (default [] top_posts)) ->
        exists message, r = Ret message).
Proof.
  assert (Hfinish : forall (final : list string) w1,
             exists m,
               (if MessageFormatter.MAX_LENGTH
                   <? Z.of_nat (PyText.len (PyText.join PyText.newline final))
                then
                  ret (PyText.prefix (Z.to_nat (MessageFormatter.MAX_LENGTH - 50))
                         (PyText.join PyText.newline final)
                       ++ PyText.newline ++ PyText.newline
                       ++ "_Сообщение обрезано из-за лимита Telegram_")
                else ret (PyText.join PyText.newline final)) w1 = (Ret m, w1)
               /\ (PyText.len m <= 4096)%nat).
  { intros final w1. apply truncation_bound. }
  unfold MessageFormatter.format_report_message, bind, now.
  rewrite !format_number_int. unfold lift at 1 2 3 4 5 6 7 8 9 10. cbv zeta.
  set (w1 := World (table w) _ (journal w) (S (tick w))).
  destruct top_posts as [[|post rest]|].
  - unfold ret at 1.
    match goal with
    | |- context [PyText.join PyText.newline ?x] => generalize x
    end.
    intros final. destruct (Hfinish final w1) as (m & Em & Hm).
    rewrite Em. exists (Ret m), w1. repeat split; try reflexivity.
    + intros message [= <-]. exact Hm.
    + eauto.
  - unfold lift.
    destruct (MessageFormatter.top_post_lines 0 (take 3 (post :: rest)))
      as [top_lines|e] eqn:Et.
    + unfold ret at 1.
      match goal with
      | |- context [PyText.join PyText.newline ?x] => generalize x
      end.
      intros final. destruct (Hfinish final w1) as (m & Em & Hm).
      rewrite Em. exists (Ret m), w1. repeat split; try reflexivity.
      * intros message [= <-]. exact Hm.
      * eauto.
    + exists (Raise e), w1. repeat split; try reflexivity.
      * discriminate.
      * intros Hall. change (Forall metrics_typed (take 3 (post :: rest))) in Hall.
        destruct (top_post_lines_typed 0 _ Hall) as [l Hl].
        rewrite Et in Hl. discriminate Hl.
  - unfold ret at 1.
    match goal with
    | |- context [PyText.join PyText.newline ?x] => generalize x
    end.
    intros final. destruct (Hfinish final w1) as (m & Em & Hm).
    rewrite Em. exists (Ret m), w1. repeat split; try reflexivity.
    + intros message [= <-]. exact Hm.
    + eauto.
Qed.

(** [format_number] writes a number as its decimal digits in groups
    with one space between them: a first group of one to three digits,
    after the minus sign of a negative number, and then groups of
    exactly three digits.  No digit is lost or changed: the groups put
    together are [str(n)], which [int] reads back as [n].  The
    formatter of the Telegram message gives the same text. *)
Theorem format_number_groups n :
  exists first rest,
    PyStr.split " " (SheetsFormatter.format_number n) = first :: rest
    /\ String.concat "" (first :: rest) = PyStr.str_of_int n
    /\ PyStr.int_of_str (String.concat "" (first :: rest)) = Some n
    /\ Forall (fun g => String.length g = 3%nat) rest
    /\ (1 <= String.length first - (if (n <? 0)%Z then 1 else 0) <= 3)%nat
    /\ MessageFormatter._format_number (VInt n)
       = Ret (SheetsFormatter.format_number n).
Proof.
  destruct (format_number_split n) as (first & rest & Es & Ec & Hrest & Hfirst).
  exists first, rest. split; [exact Es|]. split; [exact Ec|].
  split; [rewrite Ec; apply int_of_str_of_int|]. split; [exact Hrest|].
  split; [exact Hfirst | reflexivity].
Qed.

(* ------------------------------------------------------------------ *)
(** ** The Telegram report and the report mode *)
(* ------------------------------------------------------------------ *)

Section ReadOnly.

Lemma read_only_ret {A} (a : A) : read_only (ret a).
Proof. intros w. split; reflexivity. Qed.

Lemma read_only_lift {A} (r : result A) : read_only (lift r).
Proof. intros w. split; reflexivity. Qed.

Lemma read_only_now env : read_only (now env).
Proof. intros w. split; reflexivity. Qed.

Lemma read_only_bind {A B} (c : M A) (k : A -> M B) :
  read_only c -> (forall a, read_only (k a)) -> read_only (bind c k).
Proof.
  intros Hc Hk w. unfold bind. specialize (Hc w).
  destruct (c w) as [[a|e] w1]; cbn [snd] in *; [|exact Hc].
  destruct (Hk a w1) as [Ht Hj]. rewrite Ht, Hj. exact Hc.
Qed.

Lemma read_only_get_all_posts env : read_only (Database.get_all_posts env).
Proof.
  intros w. rewrite get_all_posts_run.
  destruct (sql_fault env (tick w)); split; reflexivity.
Qed.

Lemma read_only_get_post_count env : read_only (Database.get_post_count env).
Proof.
  intros w. rewrite get_post_count_run.
  destruct (sql_fault env (tick w)); split; reflexivity.
Qed.

Lemma read_only_get_total_stats env float_sum :
  read_only (DataAggregator.get_total_stats env float_sum).
Proof.
  unfold DataAggregator.get_total_stats.
  apply read_only_bind; [apply read_only_get_all_posts|].
  intros [|post posts]; [apply read_only_ret|].
  do 5 (apply read_only_bind; [apply read_only_lift|]; intros ?).
  apply read_only_bind; [|intros ?; apply read_only_ret].
  destruct a3; [apply read_only_ret | apply read_only_lift].
Qed.

Lemma read_only_get_last_24h_stats env day_earlier :
  read_only (DataAggregator.get_last_24h_stats env day_earlier).
Proof.
  unfold DataAggregator.get_last_24h_stats.
  apply read_only_bind; [apply read_only_now|]. intros t.
  apply read_only_bind; [apply read_only_get_all_posts|]. intros all_posts.
  apply read_only_bind; [apply read_only_lift|].
  intros [|post posts]; [apply read_only_ret|].
  do 4 (apply read_only_bind; [apply read_only_lift|]; intros ?).
  apply read_only_ret.
Qed.

Lemma read_only_get_unique_authors_count env :
  read_only (DataAggregator.get_unique_authors_count env).
Proof.
  intros w. pose proof (get_unique_authors_count_run env w) as H.
  cbv zeta in H. rewrite H. split; reflexivity.
Qed.

Lemma read_only_get_breakdown_by_type env :
  read_only (DataAggregator.get_breakdown_by_type env).
Proof.
  unfold DataAggregator.get_breakdown_by_type.
  apply read_only_bind; [apply read_only_get_all_posts|].
  intros [|post posts]; [apply read_only_ret|].
  apply read_only_bind; [apply read_only_get_unique_authors_count|].
  intros ?. apply read_only_ret.
Qed.

Lemma read_only_get_top_posts env limit sort_by :
  read_only (DataAggregator.get_top_posts env limit sort_by).
Proof.
  unfold DataAggregator.get_top_posts.
  apply read_only_bind; [apply read_only_get_all_posts|].
  intros [|post posts]; [apply read_only_ret|].
  apply read_only_bind; [apply read_only_lift|].
  intros ?. apply read_only_ret.
Qed.

End ReadOnly.

Section ReportFacts.
Variable env : environment.
Variable float_sum : list PyFloat.float -> PyFloat.float.
Variable day_earlier : Z -> Z.
Variable strftime_day : Z -> string.
Variable format_2f : PyFloat.float -> string.
Variable bot_api : nat -> string -> bool.
Variable build_all_charts : M (option (list string)).
Variable send_media_group : list string -> M bool.
Variable cleanup_charts : list string -> M unit.

(** A read-only computation followed by one that raises in every case
    raises in every case. *)
Lemma raises_after_read {A B} (c : M A) (k : A -> M B) :
  read_only c ->
  (forall a w, exists e w',
      k a w = (Raise e, w') /\ table w' = table w /\ journal w' = journal w) ->
  forall w, exists e w',
    bind c k w = (Raise e, w') /\ table w' = table w /\ journal w' = journal w.
Proof.
  intros Hc Hk w. unfold bind. destruct (Hc w) as [Ht Hj].
  destruct (c w) as [[a|e] w1]; cbn [snd] in *.
  - destruct (Hk a w1) as (e & w' & E & Ht' & Hj').
    exists e, w'. rewrite E, Ht', Hj'. auto.
  - exists e, w1. auto.
Qed.

Lemma generate_report_run sheet_url w :
  exists w',
    TelegramReporter.generate_report env float_sum day_earlier strftime_day
      format_2f bot_api build_all_charts send_media_group cleanup_charts
      sheet_url w = (Ret None, w')
    /\ table w' = table w
    /\ journal w' = (journal w ++ [EvCall "getMe"])%list.
Proof.
  unfold TelegramReporter.generate_report.
  set (body := fun connected : bool => if negb connected then _ else _).
  assert (Hbody : forall w1, exists e w',
             body true w1 = (Raise e, w')
             /\ table w' = table w1 /\ journal w' = journal w1).
  { subst body. cbn [negb].
    apply raises_after_read; [apply read_only_get_total_stats|]. intros total_stats.
    apply raises_after_read; [apply read_only_get_last_24h_stats|]. intros last.
    apply raises_after_read; [apply read_only_get_breakdown_by_type|]. intros bd.
    apply raises_after_read; [apply read_only_get_top_posts|]. intros top w2.
    exists TypeError, w2. split; [reflexivity | auto]. }
  unfold bind at 1, try_except at 1, bind at 1, TelegramClient.connect, bind,
    TelegramClient.request.
  set (w1 := World (table w) (clock w) (journal w ++ [EvCall "getMe"]) (S (tick w))).
  destruct (bot_api (tick w) "getMe").
  - unfold ret at 1.
    destruct (Hbody w1) as (e & w' & -> & Ht & Hj).
    cbn [handle Exception TelegramReporter.some_files ret].
    exists w'. split; [reflexivity|]. rewrite Ht, Hj. split; reflexivity.
  - cbn [handle Exception TelegramReporter.some_files ret].
    exists w1. split; [reflexivity|]. split; reflexivity.
Qed.


End ReportFacts.

(** [TelegramReporter.generate_report] passes the keyword [hashtag] to
    [format_report_message], which has no such parameter: the call
    raises [TypeError] before a message is built.  So in every
    environment, whatever the store holds and the services do, the
    report returns [None]; the one request it makes is [getMe], and
    [sendMessage] is never sent; the table is left as it was. *)
Theorem telegram_report_never_sent env float_sum day_earlier strftime_day
    format_2f bot_api build_all_charts send_media_group cleanup_charts
    sheet_url w :
  exists w',
    TelegramReporter.generate_report env float_sum day_earlier strftime_day
      format_2f bot_api build_all_charts send_media_group cleanup_charts
      sheet_url w = (Ret None, w')
    /\ table w' = table w
    /\ journal w' = (journal w ++ [EvCall "getMe"])%list.
Proof. apply generate_report_run. Qed.


